(** * prefect.backend.flow_run: run cache, mapped iteration, execution guard

    A shallow embedding of [src/prefect/backend/flow_run.py].  Python objects
    that the module mutates are passed as explicit state: the remote API, the
    ambient [prefect.context] and the dictionaries reachable from the caller's
    keyword arguments live in a [World]; the cache of a [FlowRun] object
    is threaded next to it.  Raised exceptions are results, not partiality. *)

From Stdlib Require Import Ascii.
From stdpp Require Import base gmap sets list strings pretty.

Local Open Scope string_scope.
Local Open Scope Z_scope.

(** ** Exceptions and results *)

(** The exception classes the module raises or distinguishes.  The first three
    derive from [BaseException] only; everything else is an [Exception]. *)
Inductive ExcClass :=
| KeyboardInterrupt
| SystemExit
| GeneratorExit
| ValueError
| TypeError
| RuntimeError
| KeyError
| AttributeError
| UnboundLocalError
| UserException (class_name : string).

(** [isinstance(exc, Exception)], the test of [except Exception]. *)
Definition is_Exception (c : ExcClass) : bool :=
  match c with
  | KeyboardInterrupt | SystemExit | GeneratorExit => false
  | _ => true
  end.

(** [isinstance(exc, KeyboardInterrupt)], the test of [except KeyboardInterrupt]. *)
Definition is_KeyboardInterrupt (c : ExcClass) : bool :=
  match c with
  | KeyboardInterrupt => true
  | _ => false
  end.

(** An exception object: its class and the text [exc.__repr__()] returns.  For
    the module's own [raise] statements the text is the static part of the
    message (interpolated objects are not rendered). *)
Record PyExc := { exc_class : ExcClass; exc_repr : string }.

Inductive Result (A : Type) :=
| Return (a : A)
| Raise (e : PyExc).
Arguments Return {A} a.
Arguments Raise {A} e.

(** State-and-exception monad: a raise keeps the state reached so far. *)
Definition SE (S A : Type) : Type := S -> Result A * S.

Definition ret {S A} (a : A) : SE S A := fun s => (Return a, s).

Definition raise {S A} (c : ExcClass) (text : string) : SE S A :=
  fun s => (Raise {| exc_class := c; exc_repr := text |}, s).

Definition bind {S A B} (m : SE S A) (k : A -> SE S B) : SE S B :=
  fun s =>
    match m s with
    | (Return a, s') => k a s'
    | (Raise e, s') => (Raise e, s')
    end.

Notation "'let*' x ':=' m 'in' k" := (bind m (fun x => k))
  (at level 10, x pattern, m at level 100, k at level 200).
Notation "m1 ';;' m2" := (bind m1 (fun _ => m2))
  (at level 100, m2 at level 200, right associativity).

(** ** States ([prefect.engine.state]) *)

(** Modelled from the spec: [prefect.engine.state.State] is outside this
    module; the data model gives it as a tagged value with the predicates
    [is_running()], [is_finished()] and [is_mapped()]. *)
Inductive State :=
| Scheduled
| Running
| Success
| Mapped
| Failed (message : string)
| Cancelled (message : string).

Definition is_running (s : State) : bool :=
  match s with Running => true | _ => false end.

Definition is_mapped (s : State) : bool :=
  match s with Mapped => true | _ => false end.

Definition is_finished (s : State) : bool :=
  match s with
  | Success | Mapped | Failed _ | Cancelled _ => true
  | Scheduled | Running => false
  end.

(** ** Python values held in option and secret dictionaries *)

Inductive PyVal :=
| PNone
| PBool (b : bool)
| PInt (z : Z)
| PStr (s : string)
| PObj (name : string).

(** Address of a dictionary object. *)
Definition loc := positive.

(** The ambient context ([prefect.context], the context object of the
    library): the keys the module reads or writes, and the remaining entries. *)
Record Context := {
  ctx_secrets : option loc;
  ctx_flow_run_id : option string;
  ctx_loading_flow : option bool;
  ctx_rest : gmap string PyVal;
}.

(** The value found where the module expects a dictionary of the caller (the
    [context] option of a run, the [secrets] entry of that context): a
    dictionary object, or a value that is no mapping ([None], a number, a
    string, an object of a class without the interface of a mapping). *)
Inductive DictArg :=
| IsDict (l : loc)
| NotDict (v : PyVal).

(** A context dictionary of the caller, passed as the [context] option of a
    run: a plain [dict], with its [secrets] entry, if any, and its other
    entries. *)
Record ContextDict := {
  cd_secrets : option DictArg;
  cd_rest : gmap string PyVal;
}.

(** ** The remote store *)

(** Modelled from the spec: [prefect.storage.Storage] is outside this module;
    the storage reference of a run declares the names of its secrets. *)
Module Storage.
Record t := {
  name : string;
  secrets : list string;
}.
End Storage.

Record Environment := { environment_name : string }.

(** Modelled from the spec: [prefect.Flow] is outside this module; a flow has
    a configured executor and a configured (deprecated) environment. *)
Module Flow.
Record t := {
  name : string;
  executor : PyVal;
  environment : Environment;
}.
End Flow.

(** One row of the remote [task_run] table (the "task run data" of a query). *)
Record TaskRunRow := {
  row_id : string;
  row_flow_run_id : string;
  row_task_slug : string;
  row_map_index : Z;
  row_state : State;
}.

(** One row of the remote [flow_run] table, keyed by its id. *)
Record FlowRunRow := {
  row_name : string;
  row_flow_id : string;
  row_serialized_state : State;
  row_storage : option Storage.t;
  row_run_config : option PyVal;
  row_flow_name : string;
}.

(** The [where] argument of [TaskRun.query_for_task_runs]: each present
    component is an [_eq] filter. *)
Record Where := {
  where_task_slug : option string;
  where_flow_run_id : option string;
  where_map_index : option Z;
}.

Inductive Query :=
| flow_run_by_pk (id : string)
| task_run_ids_of (flow_run_id : string).

Record LogEntry := {
  log_flow_run_id : string;
  log_name : string;
  log_message : string;
  log_level : string;
}.

(** Every call that reaches the remote API, in the order it is made. *)
Inductive Event :=
| Graphql (q : Query)
| QueryForTaskRuns (wh : Where) (many : bool)
| FromTaskRunId (task_run_id : string)
| FromTaskSlug (task_slug flow_run_id : string)
| SetFlowRunState (flow_run_id : string) (st : State)
| WriteRunLogs (entries : list LogEntry).

Record World := {
  flow_run_table : gmap string FlowRunRow;
  task_run_table : list TaskRunRow;
  graphql_has_data : bool;
  trace : list Event;
  context : Context;
  secrets_heap : gmap loc (gmap string PyVal);
  context_heap : gmap loc ContextDict;
}.

Definition set_flow_run_table (w : World) (t : gmap string FlowRunRow) : World :=
  {| flow_run_table := t; task_run_table := task_run_table w;
     graphql_has_data := graphql_has_data w; trace := trace w;
     context := context w; secrets_heap := secrets_heap w;
     context_heap := context_heap w |}.

Definition set_trace (w : World) (t : list Event) : World :=
  {| flow_run_table := flow_run_table w; task_run_table := task_run_table w;
     graphql_has_data := graphql_has_data w; trace := t;
     context := context w; secrets_heap := secrets_heap w;
     context_heap := context_heap w |}.

Definition set_context (w : World) (c : Context) : World :=
  {| flow_run_table := flow_run_table w; task_run_table := task_run_table w;
     graphql_has_data := graphql_has_data w; trace := trace w;
     context := c; secrets_heap := secrets_heap w;
     context_heap := context_heap w |}.

Definition set_secrets_heap (w : World) (h : gmap loc (gmap string PyVal)) : World :=
  {| flow_run_table := flow_run_table w; task_run_table := task_run_table w;
     graphql_has_data := graphql_has_data w; trace := trace w;
     context := context w; secrets_heap := h;
     context_heap := context_heap w |}.

Definition set_context_heap (w : World) (h : gmap loc ContextDict) : World :=
  {| flow_run_table := flow_run_table w; task_run_table := task_run_table w;
     graphql_has_data := graphql_has_data w; trace := trace w;
     context := context w; secrets_heap := secrets_heap w;
     context_heap := h |}.

(** The remote calls recorded in a trace, by kind. *)
Definition is_state_write (ev : Event) : bool :=
  match ev with SetFlowRunState _ _ => true | _ => false end.

Definition is_log_write (ev : Event) : bool :=
  match ev with WriteRunLogs _ => true | _ => false end.

Definition is_task_run_fetch (ev : Event) : bool :=
  match ev with
  | QueryForTaskRuns _ _ | FromTaskRunId _ | FromTaskSlug _ _ => true
  | _ => false
  end.

Definition state_writes (t : list Event) : list Event := List.filter is_state_write t.
Definition log_writes (t : list Event) : list Event := List.filter is_log_write t.
Definition task_run_fetches (t : list Event) : list Event := List.filter is_task_run_fetch t.

Definition remote_call (ev : Event) : SE World unit :=
  fun w => (Return tt, set_trace w (trace w ++ [ev])%list).

(** Truth value of an [Optional[str]]: [None] and [""] are false. *)
Definition truthy (o : option string) : bool :=
  match o with
  | Some s => negb (String.eqb s "")
  | None => false
  end.

(** [a != b] on [Optional[str]] values. *)
Definition opt_str_ne (a b : option string) : bool :=
  match a, b with
  | Some x, Some y => negb (String.eqb x y)
  | None, None => false
  | _, _ => true
  end.

(** ** Task runs ([prefect.backend.task_run.TaskRun]) *)

Module TaskRun.

(** Modelled from the spec: the [TaskRun] class is outside this module; the
    data model gives a record its task-run id, task slug, map index ([-1] for
    the base record) and state. *)
Record t := {
  task_run_id : string;
  task_slug : string;
  map_index : Z;
  state : State;
}.

(** Modelled from the spec: [TaskRun.from_task_run_data] is outside this
    module; it builds the record of one row of task run data. *)
Definition from_task_run_data (row : TaskRunRow) : t :=
  {| task_run_id := row_id row;
     task_slug := row_task_slug row;
     map_index := row_map_index row;
     state := row_state row |}.

Definition eq_filter_str (f : option string) (v : string) : bool :=
  match f with Some x => String.eqb x v | None => true end.

Definition eq_filter_Z (f : option Z) (v : Z) : bool :=
  match f with Some x => Z.eqb x v | None => true end.

Definition matches (wh : Where) (row : TaskRunRow) : bool :=
  eq_filter_str (where_task_slug wh) (row_task_slug row)
  && eq_filter_str (where_flow_run_id wh) (row_flow_run_id row)
  && eq_filter_Z (where_map_index wh) (row_map_index row).

Definition select (wh : Where) (table : list TaskRunRow) : list TaskRunRow :=
  List.filter (matches wh) table.

(** Modelled from the spec: [TaskRun.query_for_task_runs] is outside this
    module; the remote store offers a filtered bulk lookup and a point
    lookup with an "error on empty" toggle.  The [many] flag changes the
    shape of the result, so each shape has its function: a list of rows
    ([many=True]) or at most one row ([many=False], where several matching
    rows are refused).  The toggle defaults to [True]. *)
Definition query_for_task_runs_many (wh : Where) (error_on_empty : bool)
  : SE World (list TaskRunRow) :=
  remote_call (QueryForTaskRuns wh true);;
  fun w =>
    match select wh (task_run_table w) with
    | [] => if error_on_empty
            then raise ValueError "No task runs found" w
            else ret [] w
    | rows => ret rows w
    end.

(** Modelled from the spec: the point lookup of [TaskRun.query_for_task_runs]
    ([many=False]); "error on empty" raises when no row matches. *)
Definition query_for_task_runs (wh : Where) (error_on_empty : bool)
  : SE World (option TaskRunRow) :=
  remote_call (QueryForTaskRuns wh false);;
  fun w =>
    match select wh (task_run_table w) with
    | [] => if error_on_empty
            then raise ValueError "No task runs found" w
            else ret None w
    | [row] => ret (Some row) w
    | _ => raise ValueError "Found multiple task runs" w
    end.

(** Modelled from the spec: point lookup by id. *)
Definition from_task_run_id (id : string) : SE World t :=
  remote_call (FromTaskRunId id);;
  fun w =>
    match List.find (fun row => String.eqb (row_id row) id) (task_run_table w) with
    | Some row => ret (from_task_run_data row) w
    | None => raise ValueError "No task runs found" w
    end.

(** Modelled from the spec: point lookup by (slug, run id); the record
    looked up is the base record of the slug. *)
Definition from_task_slug (slug flow_run_id : string) : SE World t :=
  remote_call (FromTaskSlug slug flow_run_id);;
  fun w =>
    match select {| where_task_slug := Some slug;
                    where_flow_run_id := Some flow_run_id;
                    where_map_index := Some (-1) |} (task_run_table w) with
    | [] => raise ValueError "No task runs found" w
    | [row] => ret (from_task_run_data row) w
    | _ => raise ValueError "Found multiple task runs" w
    end.

End TaskRun.

(** ** What the module takes from outside *)

(** Builtins and attributes whose result the module consumes but does not
    define: [template.format(exc=text)], which raises on a malformed template
    or an unknown field; [repr] of a [str]; the order in which a [set] is
    iterated, which is some enumeration of its elements; and the attribute
    [slug] of a task run, which only the error message of [iter_mapped]
    reads: the data model gives a task run no such attribute, so the read may
    raise; and [copy.deepcopy] on an object among the run options, which the
    class of the object may refuse: [copy_error] is the error it then raises. *)
Class PyRuntime := {
  str_format : string -> string -> Result string;
  str_repr : string -> string;
  set_iter : gset string -> list string;
  set_iter_perm : forall s, set_iter s ≡ₚ elements s;
  task_run_slug : TaskRun.t -> Result string;
  copy_error : string -> option PyExc;
}.

(** Modelled from the spec: [prefect.Task] is outside this module; a task
    identity has a slug, unset until the flow is registered or serialized. *)
Record Task := { slug : option string }.

(** ** The API client ([prefect.Client]) *)

Module Client.

Record GraphqlResult := {
  data_flow_run_by_pk : option FlowRunRow;
  data_task_run : option (list string);
}.

(** Modelled from the spec: the transport is outside this module.  A
    response without a [data] member answers [None] to either lookup. *)
Definition graphql (q : Query) : SE World GraphqlResult :=
  remote_call (Graphql q);;
  fun w =>
    if graphql_has_data w then
      match q with
      | flow_run_by_pk id =>
          ret {| data_flow_run_by_pk := flow_run_table w !! id;
                 data_task_run := None |} w
      | task_run_ids_of id =>
          ret {| data_flow_run_by_pk := None;
                 data_task_run :=
                   Some (row_id <$> List.filter
                           (fun row => String.eqb (row_flow_run_id row) id)
                           (task_run_table w)) |} w
      end
    else ret {| data_flow_run_by_pk := None; data_task_run := None |} w.

Definition with_state (st : State) (row : FlowRunRow) : FlowRunRow :=
  {| row_name := row_name row; row_flow_id := row_flow_id row;
     row_serialized_state := st; row_storage := row_storage row;
     row_run_config := row_run_config row; row_flow_name := row_flow_name row |}.

(** Modelled from the spec: the state-transition write (run id, new state). *)
Definition set_flow_run_state (flow_run_id : string) (st : State) : SE World unit :=
  remote_call (SetFlowRunState flow_run_id st);;
  fun w => (Return tt,
            set_flow_run_table w (alter (with_state st) flow_run_id (flow_run_table w))).

(** Modelled from the spec: append structured run-log entries. *)
Definition write_run_logs (entries : list LogEntry) : SE World unit :=
  remote_call (WriteRunLogs entries).

End Client.

(** ** Flow runs ([FlowRun]) *)

Module FlowRun.

Record t := {
  flow_run_id : string;
  name : string;
  flow_id : string;
  flow_name : string;
  flow_storage : option Storage.t;
  flow_run_config : option PyVal;
  state : State;
  (* Cached value of all task run ids, only cached if the flow is done running *)
  _task_run_ids : option (list string);
  (* Task run ids to task runs *)
  _task_runs : gmap string TaskRun.t;
  (* Slugs to task run ids (a [defaultdict(set)]) *)
  _task_slug_to_task_run_ids : gmap string (gset string);
}.

Definition set_task_run_ids (self : t) (ids : option (list string)) : t :=
  {| flow_run_id := flow_run_id self; name := name self; flow_id := flow_id self;
     flow_name := flow_name self; flow_storage := flow_storage self;
     flow_run_config := flow_run_config self; state := state self;
     _task_run_ids := ids;
     _task_runs := _task_runs self;
     _task_slug_to_task_run_ids := _task_slug_to_task_run_ids self |}.

(** The ids stored for a slug; reading a [defaultdict(set)] at an absent key
    gives the empty set. *)
Definition ids_of_slug (self : t) (task_slug : string) : gset string :=
  default ∅ (_task_slug_to_task_run_ids self !! task_slug).

Definition _add_task_run (self : t) (task_run : TaskRun.t) : t :=
  {| flow_run_id := flow_run_id self; name := name self; flow_id := flow_id self;
     flow_name := flow_name self; flow_storage := flow_storage self;
     flow_run_config := flow_run_config self; state := state self;
     _task_run_ids := _task_run_ids self;
     _task_runs :=
       <[TaskRun.task_run_id task_run := task_run]> (_task_runs self);
     _task_slug_to_task_run_ids :=
       <[TaskRun.task_slug task_run :=
           ids_of_slug self (TaskRun.task_slug task_run)
           ∪ {[TaskRun.task_run_id task_run]}]>
         (_task_slug_to_task_run_ids self) |}.

Definition __init__ (flow_run_id name flow_id flow_name : string)
    (flow_storage : option Storage.t) (flow_run_config : option PyVal)
    (state : State) (task_runs : option (list TaskRun.t)) : t :=
  let self :=
    {| flow_run_id := flow_run_id; name := name; flow_id := flow_id;
       flow_name := flow_name; flow_storage := flow_storage;
       flow_run_config := flow_run_config; state := state;
       _task_run_ids := None; _task_runs := ∅;
       _task_slug_to_task_run_ids := ∅ |} in
  match task_runs with
  | Some task_runs => foldl _add_task_run self task_runs
  | None => self
  end.

(** The keyword arguments of a call [cls(...)]; an absent keyword is [None]. *)
Record InitKwargs := {
  kw_flow_run_id : option string;
  kw_name : option string;
  kw_flow_id : option string;
  kw_flow_name : option string;
  kw_flow_storage : option (option Storage.t);
  kw_flow_run_config : option (option PyVal);
  kw_state : option State;
  kw_task_runs : option (list TaskRun.t);
}.

(** The error of a call that lacks a required argument. *)
Definition missing_argument : PyExc :=
  {| exc_class := TypeError;
     exc_repr := "__init__() missing required positional argument" |}.

(** Calling the class binds the keywords to the parameters of [__init__]:
    every parameter but [task_runs] is required, and a missing one is a
    [TypeError]. *)
Definition cls (kw : InitKwargs) : Result t :=
  match kw_flow_run_id kw, kw_name kw, kw_flow_id kw, kw_flow_name kw,
        kw_flow_storage kw, kw_flow_run_config kw, kw_state kw with
  | Some flow_run_id, Some name, Some flow_id, Some flow_name,
    Some flow_storage, Some flow_run_config, Some state =>
      Return (__init__ flow_run_id name flow_id flow_name flow_storage
                flow_run_config state (kw_task_runs kw))
  | _, _, _, _, _, _, _ => Raise missing_argument
  end.

(** [from_flow_run_id]: query the run, optionally pre-load its unmapped task
    runs, and build the object.  The call [cls(...)] passes [flow_run_id],
    [task_runs], [state], [flow_storage], [flow_name], [flow_run_config] and
    [name]; it passes no [flow_id]. *)
Definition from_flow_run_id (flow_run_id : string) (load_static_tasks : bool)
    (_task_runs : option (list TaskRun.t)) : SE World t :=
  let* result := Client.graphql (flow_run_by_pk flow_run_id) in
  match Client.data_flow_run_by_pk result with
  | None => raise ValueError "Received bad result while querying for flow run"
  | Some flow_run =>
      let* task_runs :=
        if load_static_tasks then
          let* task_run_data :=
            TaskRun.query_for_task_runs_many
              {| where_task_slug := None;
                 where_flow_run_id := Some flow_run_id;
                 where_map_index := Some (-1) |} true in
          ret (TaskRun.from_task_run_data <$> task_run_data)
        else ret [] in
      let task_runs := (task_runs ++ default [] _task_runs)%list in
      fun w =>
        (cls {| kw_flow_run_id := Some flow_run_id;
                kw_task_runs := Some task_runs;
                kw_state := Some (row_serialized_state flow_run);
                kw_flow_storage := Some (row_storage flow_run);
                kw_flow_name := Some (row_flow_name flow_run);
                kw_flow_run_config := Some (row_run_config flow_run);
                kw_name := Some (row_name flow_run);
                kw_flow_id := None |}, w)
  end.

(** [update]: a new object from the newest remote data, seeded with the
    cached records ([self._task_runs.values()]). *)
Definition update (self : t) : SE World t :=
  from_flow_run_id (flow_run_id self) false
    (Some (snd <$> map_to_list (_task_runs self))).

(** Methods run on the pair of the object and the world. *)
Definition liftW {A} (m : SE World A) : SE (t * World) A :=
  fun '(self, w) => let '(r, w') := m w in (r, (self, w')).

Definition get_self : SE (t * World) t :=
  fun '(self, w) => (Return self, (self, w)).

Definition modify_self (f : t -> t) : SE (t * World) unit :=
  fun '(self, w) => (Return tt, (f self, w)).

(** The loop of [get] over the ids of a mapped family: the first record with
    map index [-1]; [self.task_runs[id]] raises [KeyError] at an id without
    a record. *)
Fixpoint find_base (task_runs : gmap string TaskRun.t) (ids : list string)
  : Result (option TaskRun.t) :=
  match ids with
  | [] => Return None
  | task_run_id :: ids =>
      match task_runs !! task_run_id with
      | None => Raise {| exc_class := KeyError; exc_repr := "KeyError" |}
      | Some result =>
          if TaskRun.map_index result =? -1 then Return (Some result)
          else find_base task_runs ids
      end
  end.

(** The slug a lookup goes by, from the [task] and [task_slug] arguments. *)
Definition lookup_slug (task : option Task) (task_slug : option string)
  : Result (option string) :=
  match task with
  | Some task =>
      if negb (truthy (slug task)) && negb (truthy task_slug) then
        Raise {| exc_class := ValueError;
                 exc_repr := "Given task does not have a `slug` set" |}
      else if bool_decide (is_Some task_slug) && opt_str_ne task_slug (slug task) then
        Raise {| exc_class := ValueError;
                 exc_repr := "Both `task` and `task_slug` were provided but differ" |}
      (* If they've passed a task_slug that matches this task's slug we can
         basically ignore the passed `task` object *)
      else if negb (truthy task_slug) then Return (slug task)
      else Return task_slug
  | None => Return task_slug
  end.

Definition get {rt : PyRuntime} (task : option Task) (task_slug : option string)
    (task_run_id : option string) : SE (t * World) TaskRun.t :=
  let* task_slug := fun st => (lookup_slug task task_slug, st) in
  match task_run_id with
  | Some task_run_id =>
      let* self := get_self in
      (* Load from the cache if available or query for results *)
      let* result :=
        match _task_runs self !! task_run_id with
        | Some result => ret result
        | None => liftW (TaskRun.from_task_run_id task_run_id)
        end in
      if match task_slug with
         | Some task_slug => negb (String.eqb (TaskRun.task_slug result) task_slug)
         | None => false
         end
      then raise ValueError "Both `task_slug` and `task_run_id` were provided but differ"
      else modify_self (fun self => _add_task_run self result);; ret result
  | None =>
      match task_slug with
      | Some task_slug =>
          let* self := get_self in
          let* cached :=
            match _task_slug_to_task_run_ids self !! task_slug with
            | Some task_run_ids =>
                if (1 <? size task_run_ids)%nat then
                  (* We have a mapped task, return the base task *)
                  fun st => (find_base (_task_runs self) (set_iter task_run_ids), st)
                else ret None
            | None => ret None
            end in
          match cached with
          | Some result => ret result
          | None =>
              let* result :=
                liftW (TaskRun.from_task_slug task_slug (flow_run_id self)) in
              modify_self (fun self => _add_task_run self result);; ret result
          end
      | None =>
          raise ValueError "One of `task_run_id`, `task`, or `task_slug` must be provided!"
      end
  end.

(** *** [iter_mapped]

    A generator: nothing runs before the first [next].  Its state is the
    point where it is suspended. *)
Inductive Generator :=
| Created (task : option Task) (task_slug : option string) (cache_results : bool)
| Suspended (task_slug : string) (cache_results : bool) (map_index : Z)
| Finished.

Inductive Next :=
| Yield (task_run : TaskRun.t)
| StopIteration
| Throw (e : PyExc).

Definition iter_mapped (task : option Task) (task_slug : option string)
    (cache_results : bool) : Generator :=
  Created task task_slug cache_results.

Definition where_index (task_slug flow_run_id : string) (index : Z) : Where :=
  {| where_task_slug := Some task_slug;
     where_flow_run_id := Some flow_run_id;
     where_map_index := Some index |}.

(** The slug an iteration goes by, from the [task] and [task_slug]
    arguments. *)
Definition iter_slug (task : option Task) (task_slug : option string)
  : Result (option string) :=
  match task with
  | Some task =>
      if bool_decide (is_Some task_slug) && opt_str_ne task_slug (slug task) then
        Raise {| exc_class := ValueError;
                 exc_repr := "Both `task` and `task_slug` were provided but differ" |}
      else Return (slug task)
  | None => Return task_slug
  end.

(** The argument checks and the fetch of the base record, up to the loop. *)
Definition iter_mapped_enter {rt : PyRuntime} (task : option Task)
    (task_slug : option string) : SE (t * World) string :=
  let* task_slug := fun st => (iter_slug task task_slug, st) in
  match task_slug with
  | None => raise ValueError "Either `task` or `task_slug` must be provided!"
  | Some task_slug =>
      let* self := get_self in
      let* task_run_data :=
        liftW (TaskRun.query_for_task_runs
                 (where_index task_slug (flow_run_id self) (-1)) true) in
      match task_run_data with
      | None => raise TypeError "from_task_run_data: no data"
      | Some row =>
          let task_run := TaskRun.from_task_run_data row in
          if negb (is_mapped (TaskRun.state task_run)) then
            (* the message reads [task_run.task_run_id] and [task_run.slug] *)
            (fun st => (task_run_slug task_run, st));;
            raise TypeError "Task run is not a mapped task."
          else ret task_slug
      end
  end.

(** One turn of the [while] loop at [map_index]; a [TaskRun] object is always
    true, so the loop is left only at an empty query result. *)
Definition iter_mapped_loop (task_slug : string) (cache_results : bool)
    (map_index : Z) : t * World -> Next * Generator * (t * World) :=
  fun '(self, w) =>
    match TaskRun.query_for_task_runs
            (where_index task_slug (flow_run_id self) map_index) false w with
    | (Raise e, w') => (Throw e, Finished, (self, w'))
    | (Return None, w') => (StopIteration, Finished, (self, w'))
    | (Return (Some task_run_data), w') =>
        let task_run := TaskRun.from_task_run_data task_run_data in
        (* Allow the user to skip the cache if they have a lot of task runs *)
        let self' := if cache_results then _add_task_run self task_run else self in
        (Yield task_run, Suspended task_slug cache_results map_index, (self', w'))
    end.

Definition __next__ {rt : PyRuntime} (g : Generator)
  : t * World -> Next * Generator * (t * World) :=
  fun st =>
    match g with
    | Created task task_slug cache_results =>
        match iter_mapped_enter task task_slug st with
        | (Raise e, st') => (Throw e, Finished, st')
        | (Return task_slug, st') => iter_mapped_loop task_slug cache_results 0 st'
        end
    | Suspended task_slug cache_results map_index =>
        iter_mapped_loop task_slug cache_results (map_index + 1) st
    | Finished => (StopIteration, Finished, st)
    end.

(** [list(generator)]: call [next] until it stops; [None] when [fuel] calls
    were not enough. *)
Fixpoint list_of {rt : PyRuntime} (fuel : nat) (g : Generator) (st : t * World)
  : option (Result (list TaskRun.t) * (t * World)) :=
  match fuel with
  | O => None
  | S fuel =>
      match __next__ g st with
      | (Yield task_run, g', st') =>
          match list_of fuel g' st' with
          | Some (Return task_runs, st'') => Some (Return (task_run :: task_runs), st'')
          | other => other
          end
      | (StopIteration, _, st') => Some (Return [], st')
      | (Throw e, _, st') => Some (Raise e, st')
      end
  end.

(** *** [task_run_ids] and [get_all] *)

Definition task_run_ids : SE (t * World) (list string) :=
  let* self := get_self in
  (* Return the cached value immediately if it exists *)
  match _task_run_ids self with
  | Some (id :: ids) => ret (id :: ids)
  | _ =>
      let* result := liftW (Client.graphql (task_run_ids_of (flow_run_id self))) in
      match Client.data_task_run result with
      | None =>
          (* a warning is logged, then [None] is iterated *)
          raise TypeError "'NoneType' object is not iterable"
      | Some task_run_ids =>
          (* If the flow run is done, we can safely cache this value *)
          (if is_finished (state self)
           then modify_self (fun self => set_task_run_ids self (Some task_run_ids))
           else ret tt);;
          ret task_run_ids
      end
  end.

Definition get_all : SE (t * World) (list TaskRun.t) :=
  let* ids := task_run_ids in
  if (1000 <? length ids)%nat then
    raise ValueError "Refusing to `get_all` for a flow with more than 1000 tasks."
  else
    let* self := get_self in
    (* Run a single query instead of querying for each task run separately *)
    let* task_run_data :=
      liftW (TaskRun.query_for_task_runs_many
               {| where_task_slug := None;
                  where_flow_run_id := Some (flow_run_id self);
                  where_map_index := None |} true) in
    let task_runs := TaskRun.from_task_run_data <$> task_run_data in
    (* Add to cache *)
    modify_self (fun self => foldl _add_task_run self task_runs);;
    ret task_runs.

End FlowRun.

(** ** Collaborators of the orchestration *)

(** The options of a run (the keyword arguments): the [context] option, when
    given, is a dictionary object of the caller or a value that is no
    mapping; the other options are plain values. *)
Record RunKwargs := {
  rk_context : option DictArg;
  rk_executor : option PyVal;
  rk_rest : gmap string PyVal;
}.

(** The secrets provider, the flow-storage loader, the graph-execution engine
    ([runner_cls(flow=flow).run] on the run options, where [runner_cls]
    defaults to the cloud runner) and the deprecated execution environment:
    interfaces only, each an arbitrary computation on the world. *)
Class Collaborators := {
  secret_run : string -> SE World PyVal;
  get_flow : Storage.t -> string -> SE World Flow.t;
  runner_run : Flow.t -> RunKwargs -> SE World State;
  environment_setup : Environment -> Flow.t -> SE World unit;
  environment_execute : Environment -> Flow.t -> SE World unit;
}.

(** ** Dictionary objects *)

Definition empty_context : Context :=
  {| ctx_secrets := None; ctx_flow_run_id := None; ctx_loading_flow := None;
     ctx_rest := ∅ |}.

Definition set_ctx_secrets (c : Context) (l : option loc) : Context :=
  {| ctx_secrets := l; ctx_flow_run_id := ctx_flow_run_id c;
     ctx_loading_flow := ctx_loading_flow c; ctx_rest := ctx_rest c |}.

Definition set_ctx_flow_run_id (c : Context) (id : option string) : Context :=
  {| ctx_secrets := ctx_secrets c; ctx_flow_run_id := id;
     ctx_loading_flow := ctx_loading_flow c; ctx_rest := ctx_rest c |}.

Definition set_ctx_loading_flow (c : Context) (b : option bool) : Context :=
  {| ctx_secrets := ctx_secrets c; ctx_flow_run_id := ctx_flow_run_id c;
     ctx_loading_flow := b; ctx_rest := ctx_rest c |}.

Definition set_rk_context (k : RunKwargs) (c : option DictArg) : RunKwargs :=
  {| rk_context := c; rk_executor := rk_executor k; rk_rest := rk_rest k |}.

Definition set_rk_executor (k : RunKwargs) (e : option PyVal) : RunKwargs :=
  {| rk_context := rk_context k; rk_executor := e; rk_rest := rk_rest k |}.

(** A new secrets dictionary with the given entries. *)
Definition new_secrets (d : gmap string PyVal) : SE World loc :=
  fun w =>
    let l := fresh (dom (secrets_heap w)) in
    (Return l, set_secrets_heap w (<[l := d]> (secrets_heap w))).

(** The empty dictionary [{}] as a context of the caller. *)
Definition empty_dict : ContextDict := {| cd_secrets := None; cd_rest := ∅ |}.

Definition set_cd_secrets (c : ContextDict) (s : option DictArg) : ContextDict :=
  {| cd_secrets := s; cd_rest := cd_rest c |}.

(** A new context dictionary. *)
Definition new_context (c : ContextDict) : SE World loc :=
  fun w =>
    let l := fresh (dom (context_heap w)) in
    (Return l, set_context_heap w (<[l := c]> (context_heap w))).

(** The entries of the secrets dictionary at [l]. *)
Definition secrets_at (w : World) (l : loc) : gmap string PyVal :=
  default ∅ (secrets_heap w !! l).

(** The context dictionary of the caller at [c]. *)
Definition context_at (w : World) (c : loc) : ContextDict :=
  default empty_dict (context_heap w !! c).

(** [d[key] = v] on the secrets dictionary at [l]. *)
Definition setitem_secret (l : loc) (key : string) (v : PyVal) : SE World unit :=
  fun w =>
    (Return tt, set_secrets_heap w (<[l := <[key := v]> (secrets_at w l)]> (secrets_heap w))).

(** The values [copy.deepcopy(kwargs)] has to copy: the values of the
    options, and for the [context] option the values of the context
    dictionary and of the secrets dictionary it holds.  The order in which
    they are visited (that of the keywords in the call and of the entries in
    the dictionaries) is not modelled. *)
Definition copied_values (kwargs : RunKwargs) (w : World) : list PyVal :=
  (match rk_executor kwargs with Some v => [v] | None => [] end
   ++ (snd <$> map_to_list (rk_rest kwargs))
   ++ match rk_context kwargs with
      | None => []
      | Some (NotDict v) => [v]
      | Some (IsDict c) =>
          (snd <$> map_to_list (cd_rest (context_at w c)))
          ++ match cd_secrets (context_at w c) with
             | None => []
             | Some (NotDict v) => [v]
             | Some (IsDict s) => snd <$> map_to_list (secrets_at w s)
             end
      end)%list.

(** [copy.deepcopy] on one value: [None], booleans, numbers and strings are
    copied; an object is copied by its class, which may refuse. *)
Definition value_copy_error {rt : PyRuntime} (v : PyVal) : option PyExc :=
  match v with
  | PObj name => copy_error name
  | _ => None
  end.

(** The error of the first value that cannot be copied, if any. *)
Definition first_copy_error {rt : PyRuntime} (values : list PyVal) : option PyExc :=
  head (omap value_copy_error values).

(** [copy.deepcopy(kwargs)]: raises when a value cannot be copied (when
    several cannot, the error is that of one of them); otherwise the context
    dictionary and the secrets dictionary it holds are copied to new objects,
    and the copies of the plain values are these values. *)
Definition deepcopy {rt : PyRuntime} (kwargs : RunKwargs) : SE World RunKwargs :=
  fun w =>
    match first_copy_error (copied_values kwargs w) with
    | Some e => (Raise e, w)
    | None =>
        match rk_context kwargs with
        | Some (IsDict c) =>
            let ctx := context_at w c in
            (let* secrets' :=
               match cd_secrets ctx with
               | Some (IsDict s) =>
                   let* s' := new_secrets (secrets_at w s) in ret (Some (IsDict s'))
               | other => ret other
               end in
             let* c' := new_context (set_cd_secrets ctx secrets') in
             ret (set_rk_context kwargs (Some (IsDict c')))) w
        | _ => (Return kwargs, w)
        end
    end.

(** Modelled from the spec: the context manager [prefect.context] is outside
    this module; the body runs under the ambient context with the entries
    set, and the previous entries are put back on every exit. *)
Definition with_context {A} (entries : Context -> Context) (body : SE World A)
  : SE World A :=
  fun w =>
    let previous := context w in
    let '(r, w') := body (set_context w (entries previous)) in
    (r, set_context w' previous).

Fixpoint for_each {S A} (l : list A) (body : A -> SE S unit) : SE S unit :=
  match l with
  | [] => ret tt
  | x :: l => body x;; for_each l body
  end.

(** ** The execution guard *)

Definition reraise {A} (exc : PyExc) : SE World A := fun w => (Raise exc, w).

(** The body of [if ...is_running():] under [except Exception]: format the
    message, write the [Failed] state, write the log entry. *)
Definition report_failure {rt : PyRuntime} (flow_run_id message : string) (exc : PyExc)
  : SE World unit :=
  fun w =>
    match str_format message (exc_repr exc) with
    | Raise e => (Raise e, w)
    | Return message =>
        (Client.set_flow_run_state flow_run_id (Failed message);;
         Client.write_run_logs
           [ {| log_flow_run_id := flow_run_id;
                log_name := "prefect.backend.api.flow_run.execute_flow_run";
                log_message := message;
                log_level := "ERROR" |} ]) w
    end.

Definition fail_flow_run_on_exception {rt : PyRuntime} {A} (flow_run_id : string)
    (message : option string) (body : SE World A) : SE World A :=
  let message := if truthy message then default "" message
                 else "Flow run failed with {exc}" in
  fun w =>
    match body w with
    | (Return a, w') => (Return a, w')
    | (Raise exc, w') =>
        if is_KeyboardInterrupt (exc_class exc) then
          (let* flow_run := FlowRun.from_flow_run_id flow_run_id true None in
           (if is_running (FlowRun.state flow_run) then
              Client.set_flow_run_state flow_run_id (Cancelled "Keyboard interrupt.")
            else ret tt);;
           reraise exc) w'
        else if is_Exception (exc_class exc) then
          (let* flow_run := FlowRun.from_flow_run_id flow_run_id true None in
           (if is_running (FlowRun.state flow_run) then
              report_failure flow_run_id message exc
            else ret tt);;
           reraise exc) w'
        else (Raise exc, w')
    end.

(** ** [execute_flow_run] *)

(** Populate global secrets: the dictionary of the ambient context (a new one
    when the context has none) receives every secret the storage declares. *)
Definition load_secrets {rt : PyRuntime} {co : Collaborators} (flow_run_id : string)
    (flow_run : FlowRun.t) : SE World loc :=
  let* secrets :=
    fun w => match ctx_secrets (context w) with
             | Some l => ret l w
             | None => new_secrets ∅ w
             end in
  match FlowRun.flow_storage flow_run with
  | Some flow_storage =>
      for_each (Storage.secrets flow_storage) (fun secret =>
        fail_flow_run_on_exception flow_run_id
          (Some ("Failed to load flow secret " ++ str_repr secret ++ ": {exc}"))
          (let* v := secret_run secret in setitem_secret secrets secret v));;
      ret secrets
  | None => ret secrets
  end.

(** Load the flow from storage if not explicitly provided. *)
Definition load_flow {rt : PyRuntime} {co : Collaborators} (flow_run_id : string)
    (flow_run : FlowRun.t) (secrets : loc) : SE World Flow.t :=
  with_context
    (fun c => set_ctx_loading_flow (set_ctx_secrets c (Some secrets)) (Some true))
    (fail_flow_run_on_exception flow_run_id
       (Some "Failed to load flow from storage: {exc}")
       (match FlowRun.flow_storage flow_run with
        | Some flow_storage => get_flow flow_storage (FlowRun.flow_name flow_run)
        | None => raise AttributeError "'NoneType' object has no attribute 'get_flow'"
        end)).

(** Update the run context to include secrets with merging, and fill the
    default executor.  The right-hand side of the assignment to
    [run_kwargs["context"]["secrets"]] is evaluated first: it reads [get] from
    the context, which a value that is no mapping does not have, and unpacks
    the secrets found there, which fails on a value that is no mapping. *)
Definition merge_context {rt : PyRuntime} (secrets : loc) (kwargs : RunKwargs)
    (flow : Flow.t) : SE World RunKwargs :=
  let* run_kwargs := deepcopy kwargs in
  let* ctx :=
    match rk_context run_kwargs with
    | Some ctx => ret ctx
    | None => let* c := new_context empty_dict in ret (IsDict c)
    end in
  let run_kwargs := set_rk_context run_kwargs (Some ctx) in
  match ctx with
  | NotDict _ => raise AttributeError "object has no attribute 'get'"
  | IsDict ctx =>
      let* user :=
        fun w =>
          match cd_secrets (context_at w ctx) with
          | Some (IsDict s) => ret (secrets_at w s) w
          | Some (NotDict _) => raise TypeError "object is not a mapping" w
          | None => ret ∅ w
          end in
      (* User provided secrets will override secrets we pulled from storage
         and the current context *)
      let* merged := fun w => new_secrets (user ∪ secrets_at w secrets) w in
      (fun w =>
         (Return tt,
          set_context_heap w
            (<[ctx := set_cd_secrets (context_at w ctx) (Some (IsDict merged))]>
               (context_heap w))));;
      (* Update some default run kwargs with flow settings *)
      ret (match rk_executor run_kwargs with
           | Some _ => run_kwargs
           | None => set_rk_executor run_kwargs (Some (Flow.executor flow))
           end)
  end.

(** Execute the flow, then return the refreshed run.  The local [flow_state]
    is bound on the run-config branch only. *)
Definition run_flow {rt : PyRuntime} {co : Collaborators} (flow_run_id : string)
    (flow_run : FlowRun.t) (flow : Flow.t) (run_kwargs : RunKwargs)
  : SE World FlowRun.t :=
  let* flow_state :=
    with_context (fun c => set_ctx_flow_run_id c (Some flow_run_id))
      (fail_flow_run_on_exception flow_run_id
         (Some "Failed to execute flow: {exc}")
         (match FlowRun.flow_run_config flow_run with
          | Some _ =>
              let* flow_state := runner_run flow run_kwargs in
              ret (Some flow_state)
          | None =>
              (* Support for deprecated `flow.environment` use *)
              let environment := Flow.environment flow in
              environment_setup environment flow;;
              environment_execute environment flow;;
              ret None
          end)) in
  match flow_state with
  | None =>
      (* the log line reads [flow_state] *)
      raise UnboundLocalError "local variable 'flow_state' referenced before assignment"
  | Some _ => FlowRun.update flow_run
  end.

Definition execute_flow_run {rt : PyRuntime} {co : Collaborators} (flow_run_id : string)
    (flow : option Flow.t) (kwargs : RunKwargs) : SE World FlowRun.t :=
  (* Get a `FlowRun` object *)
  let* flow_run := FlowRun.from_flow_run_id flow_run_id true None in
  (* Ensure this flow isn't already executing *)
  if is_running (FlowRun.state flow_run) then
    raise RuntimeError "flow run is already in a running state!"
  else
    let* secrets := load_secrets flow_run_id flow_run in
    let* flow :=
      match flow with
      | Some flow => ret flow
      | None => load_flow flow_run_id flow_run secrets
      end in
    let* run_kwargs := merge_context secrets kwargs flow in
    run_flow flow_run_id flow_run flow run_kwargs.

(** * Statements *)

(** ** Coherence of the two-level cache index *)

(** Every id of the id-to-record map holds a record with that id and belongs
    to the id set of that record's slug, and every id of any slug's set is a
    key of the id-to-record map. *)
Definition coherent (self : FlowRun.t) : Prop :=
  (forall id r, FlowRun._task_runs self !! id = Some r ->
     TaskRun.task_run_id r = id /\
     id ∈ FlowRun.ids_of_slug self (TaskRun.task_slug r))
  /\ (forall task_slug id, id ∈ FlowRun.ids_of_slug self task_slug ->
        is_Some (FlowRun._task_runs self !! id)).

(** A later lookup leaves every cached record as it was. *)
Definition lookups_never_refresh {rt : PyRuntime} : Prop :=
  forall self w task task_slug task_run_id id r,
    coherent self ->
    FlowRun._task_runs self !! id = Some r ->
    FlowRun._task_runs
      (fst (snd (FlowRun.get task task_slug task_run_id (self, w)))) !! id = Some r.


(** The filter of the unmapped task runs of a run. *)
Definition static_tasks_of (flow_run_id : string) : Where :=
  {| where_task_slug := None; where_flow_run_id := Some flow_run_id;
     where_map_index := Some (-1) |}.

(** Only reads: the tables are as before and the trace has gained no write. *)
Definition only_read (w w' : World) : Prop :=
  flow_run_table w' = flow_run_table w
  /\ task_run_table w' = task_run_table w
  /\ state_writes (trace w') = state_writes (trace w)
  /\ log_writes (trace w') = log_writes (trace w)
  /\ context w' = context w
  /\ secrets_heap w' = secrets_heap w
  /\ context_heap w' = context_heap w.

(** The collaborator call left the dictionary objects and the ambient context
    as they were. *)
Definition same_objects (w w' : World) : Prop :=
  context w' = context w
  /\ secrets_heap w' = secrets_heap w
  /\ context_heap w' = context_heap w.

(** The secrets of the ambient context. *)
Definition ambient_secrets (w : World) : gmap string PyVal :=
  match ctx_secrets (context w) with
  | Some l => secrets_at w l
  | None => ∅
  end.

(** The secrets the caller supplied in the [context] option. *)
Definition caller_secrets (w : World) (kwargs : RunKwargs) : gmap string PyVal :=
  match rk_context kwargs with
  | Some (IsDict c) =>
      match cd_secrets (context_at w c) with
      | Some (IsDict s) => secrets_at w s
      | _ => ∅
      end
  | _ => ∅
  end.

(** The context dictionary the caller supplied ([{}] when none was). *)
Definition caller_context (w : World) (kwargs : RunKwargs) : ContextDict :=
  match rk_context kwargs with
  | Some (IsDict c) => context_at w c
  | _ => empty_dict
  end.

(** The caller passed what the merge expects: no context or a context
    dictionary, whose [secrets] entry, if any, is a dictionary. *)
Definition context_is_mapping (w : World) (kwargs : RunKwargs) : Prop :=
  match rk_context kwargs with
  | None => True
  | Some (IsDict c) =>
      match cd_secrets (context_at w c) with
      | Some (NotDict _) => False
      | _ => True
      end
  | Some (NotDict _) => False
  end.

(** The names of the secrets the storage of the run declares. *)
Definition declared_secrets (flow_run : FlowRun.t) : list string :=
  match FlowRun.flow_storage flow_run with
  | Some flow_storage => Storage.secrets flow_storage
  | None => []
  end.

(** The declared secrets with the values the provider resolves them to. *)
Definition storage_secrets (names : list string) (vals : string -> PyVal)
  : gmap string PyVal :=
  foldl (fun m name => <[name := vals name]> m) ∅ names.

(** ** Vocabulary of the further properties *)

(** The filter of all the task runs of a run. *)
Definition all_tasks_of (flow_run_id : string) : Where :=
  {| where_task_slug := None; where_flow_run_id := Some flow_run_id;
     where_map_index := None |}.

(** The ids the remote store reports for a run, in the order of its table. *)
Definition remote_ids (flow_run_id : string) (w : World) : list string :=
  row_id <$> List.filter (fun row => String.eqb (row_flow_run_id row) flow_run_id)
               (task_run_table w).

(** What the remote store answers to the query for a flow run. *)
Definition remote_flow_run (flow_run_id : string) (w : World) : option FlowRunRow :=
  if graphql_has_data w then flow_run_table w !! flow_run_id else None.

(** The memo of the task-run ids is used: it holds a non-empty list. *)
Definition memo_usable (self : FlowRun.t) : bool :=
  match FlowRun._task_run_ids self with
  | Some (_ :: _) => true
  | _ => false
  end.

(** Every cached id and every entry of the slug index of [self] is still
    there in [self']. *)
Definition cache_grows (self self' : FlowRun.t) : Prop :=
  dom (FlowRun._task_runs self) ⊆ dom (FlowRun._task_runs self')
  /\ forall task_slug,
       FlowRun.ids_of_slug self task_slug ⊆ FlowRun.ids_of_slug self' task_slug.

(** A lookup with the arguments [task] and [task_slug] goes by the slug [s]:
    the task carries the non-empty slug [s], and the slug passed beside it,
    if any, is [s]. *)
Definition goes_by (task : Task) (task_slug : option string) (s : string) : Prop :=
  slug task = Some s /\ s <> "" /\ (task_slug = None \/ task_slug = Some s).

(** An iteration with the arguments [task] and [task_slug] goes by the slug
    [s]: the slug of the task when a task is passed (a slug passed beside it
    must be the same), else the slug passed. *)
Definition iter_goes_by (task : option Task) (task_slug : option string) (s : string)
  : Prop :=
  match task with
  | Some task => slug task = Some s /\ (task_slug = None \/ task_slug = Some s)
  | None => task_slug = Some s
  end.

(** Only new dictionaries: no remote call was made, the ambient context is
    as before, and every dictionary that existed holds what it held. *)
Definition objects_kept (w w' : World) : Prop :=
  trace w' = trace w
  /\ flow_run_table w' = flow_run_table w
  /\ task_run_table w' = task_run_table w
  /\ context w' = context w
  /\ (forall l, l ∈ dom (secrets_heap w) -> secrets_heap w' !! l = secrets_heap w !! l)
  /\ (forall l, l ∈ dom (context_heap w) -> context_heap w' !! l = context_heap w !! l).

(** The number of rows of a table whose map index is above [index]. *)
Definition rows_above (index : Z) (table : list TaskRunRow) : nat :=
  length (List.filter (fun row => index <? row_map_index row) table).

(** ** A runtime, collaborators and objects for the examples *)

Module Demo.

(** Templates of the examples hold plain text and the field [{exc}]. *)
Fixpoint format_exc (template text : string) : string :=
  match template with
  | String "{"%char (String "e"%char (String "x"%char (String "c"%char
      (String "}"%char rest)))) =>
      text ++ format_exc rest text
  | String c rest => String c (format_exc rest text)
  | EmptyString => ""
  end.

Definition runtime : PyRuntime :=
  {| str_format := fun template text => Return (format_exc template text);
     str_repr := fun s => "'" ++ s ++ "'";
     set_iter := elements;
     set_iter_perm := fun s => Permutation_refl (elements s);
     task_run_slug := fun task_run => Return (TaskRun.task_slug task_run);
     copy_error := fun _ => None |}.

Definition base_x : TaskRun.t :=
  {| TaskRun.task_run_id := "i1"; TaskRun.task_slug := "x";
     TaskRun.map_index := -1; TaskRun.state := Mapped |}.

Definition child_x : TaskRun.t :=
  {| TaskRun.task_run_id := "i2"; TaskRun.task_slug := "x";
     TaskRun.map_index := 0; TaskRun.state := Success |}.

Definition new_run (st : State) (task_runs : list TaskRun.t) : FlowRun.t :=
  FlowRun.__init__ "r1" "run" "f1" "flow" None None st (Some task_runs).

Definition world (flow_runs : gmap string FlowRunRow) (task_runs : list TaskRunRow)
  : World :=
  {| flow_run_table := flow_runs; task_run_table := task_runs;
     graphql_has_data := true; trace := [];
     context := empty_context; secrets_heap := ∅; context_heap := ∅ |}.

Definition row (id slug : string) (index : Z) (st : State) : TaskRunRow :=
  {| row_id := id; row_flow_run_id := "r1"; row_task_slug := slug;
     row_map_index := index; row_state := st |}.

End Demo.

Module DemoRun.

Definition flow_row (st : State) (storage : option Storage.t) (cfg : option PyVal)
  : FlowRunRow :=
  {| row_name := "run"; row_flow_id := "f1"; row_serialized_state := st;
     row_storage := storage; row_run_config := cfg; row_flow_name := "flow" |}.

(** A unit of work that raises. *)
Definition boom : SE World unit :=
  fun w => (Raise {| exc_class := UserException "Boom"; exc_repr := "Boom('boom')" |}, w).

Definition flow : Flow.t :=
  {| Flow.name := "flow"; Flow.executor := PObj "LocalExecutor";
     Flow.environment := {| environment_name := "LocalEnvironment" |} |}.

(** The secret "B" resolves to 2; running the flow, by the engine or by the
    environment, leaves the remote run in [Success]. *)
Definition collaborators : Collaborators :=
  {| secret_run := fun name => ret (if String.eqb name "B" then PInt 2 else PNone);
     get_flow := fun _ _ => ret flow;
     runner_run := fun _ _ => Client.set_flow_run_state "r1" Success;; ret Success;
     environment_setup := fun _ _ => ret tt;
     environment_execute := fun _ _ => Client.set_flow_run_state "r1" Success |}.

Definition no_kwargs : RunKwargs :=
  {| rk_context := None; rk_executor := None; rk_rest := ∅ |}.

(** A run whose remote record is in state [st], with one unmapped task run. *)
Definition remote (st : State) (cfg : option PyVal) : World :=
  Demo.world {[ "r1" := flow_row st None cfg ]} [Demo.row "t1" "a" (-1) st].

End DemoRun.

Module DemoSecrets.

(** Ambient secrets [{A: 1}] at address 1, the caller's secrets
    [{B: 3, C: 4}] at address 2, the caller's context at address 1; the
    storage declares "B", which resolves to 2. *)
Definition w : World :=
  {| flow_run_table := ∅; task_run_table := []; graphql_has_data := true;
     trace := [];
     context := set_ctx_secrets empty_context (Some 1%positive);
     secrets_heap := {[ 1%positive := {[ "A" := PInt 1 ]};
                        2%positive := {[ "B" := PInt 3; "C" := PInt 4 ]} ]};
     context_heap := {[ 1%positive := {| cd_secrets := Some (IsDict 2%positive);
                                         cd_rest := ∅ |} ]} |}.

Definition kwargs : RunKwargs :=
  {| rk_context := Some (IsDict 1%positive); rk_executor := None; rk_rest := ∅ |}.

Definition flow_run : FlowRun.t :=
  FlowRun.__init__ "r1" "run" "f1" "flow"
    (Some {| Storage.name := "storage"; Storage.secrets := ["B"] |})
    (Some (PObj "UniversalRun")) Scheduled None.

Definition vals (name : string) : PyVal :=
  if String.eqb name "B" then PInt 2 else PNone.

(** The same objects, with the remote run "r1" in the store: scheduled, with
    a run configuration and a storage that declares "B", and one unmapped
    task run. *)
Definition remote : World :=
  {| flow_run_table :=
       {[ "r1" := DemoRun.flow_row Scheduled
                    (Some {| Storage.name := "storage"; Storage.secrets := ["B"] |})
                    (Some (PObj "UniversalRun")) ]};
     task_run_table := [Demo.row "t1" "a" (-1) Scheduled];
     graphql_has_data := true; trace := [];
     context := context w; secrets_heap := secrets_heap w;
     context_heap := context_heap w |}.

End DemoSecrets.

Module DemoFailing.

(** A provider that resolves the secret "B" to 2 and raises on every other
    secret. *)
Definition collaborators : Collaborators :=
  {| secret_run := fun name =>
       if String.eqb name "B" then ret (PInt 2)
       else fun w => (Raise {| exc_class := UserException "Boom";
                               exc_repr := "Boom('no such secret')" |}, w);
     get_flow := fun _ _ => ret DemoRun.flow;
     runner_run := fun _ _ => ret Success;
     environment_setup := fun _ _ => ret tt;
     environment_execute := fun _ _ => ret tt |}.

(** A run whose storage declares the secrets "B" and "Z". *)
Definition flow_run : FlowRun.t :=
  FlowRun.__init__ "r1" "run" "f1" "flow"
    (Some {| Storage.name := "storage"; Storage.secrets := ["B"; "Z"] |})
    (Some (PObj "UniversalRun")) Scheduled None.

(** A unit of work that is interrupted. *)
Definition interrupted : SE World unit :=
  fun w => (Raise {| exc_class := KeyboardInterrupt; exc_repr := "KeyboardInterrupt()" |}, w).

(** A runtime in which the objects of the class "Lock" cannot be copied. *)
Definition runtime : PyRuntime :=
  {| str_format := fun template text => Return (Demo.format_exc template text);
     str_repr := fun s => "'" ++ s ++ "'";
     set_iter := elements;
     set_iter_perm := fun s => Permutation_refl (elements s);
     task_run_slug := fun task_run => Return (TaskRun.task_slug task_run);
     copy_error := fun name =>
       if String.eqb name "Lock"
       then Some {| exc_class := TypeError; exc_repr := "cannot pickle 'Lock' object" |}
       else None |}.

End DemoFailing.

(** * Proofs *)

(** ** The embedding on small inputs *)

Example get_without_key :
  fst (FlowRun.get (rt := Demo.runtime) None None None
         (Demo.new_run Running [], Demo.world ∅ []))
  = Raise {| exc_class := ValueError;
             exc_repr := "One of `task_run_id`, `task`, or `task_slug` must be provided!" |}.
Proof. reflexivity. Qed.

Example get_task_without_slug :
  exists text,
    fst (FlowRun.get (rt := Demo.runtime) (Some {| slug := None |}) None None
           (Demo.new_run Running [], Demo.world ∅ []))
    = Raise {| exc_class := ValueError; exc_repr := text |}.
Proof. eexists. reflexivity. Qed.

Example get_task_and_other_slug :
  exists text,
    fst (FlowRun.get (rt := Demo.runtime) (Some {| slug := Some "x" |}) (Some "y") None
           (Demo.new_run Running [], Demo.world ∅ []))
    = Raise {| exc_class := ValueError; exc_repr := text |}.
Proof. eexists. reflexivity. Qed.

(** A lookup by an id that is not cached fetches the record and caches it. *)
Example get_by_id_fetches :
  let st := (Demo.new_run Running [], Demo.world ∅ [Demo.row "i2" "x" 0 Success]) in
  let '(r, (self', w')) := FlowRun.get (rt := Demo.runtime) None None (Some "i2") st in
  r = Return Demo.child_x
  /\ FlowRun._task_runs self' !! "i2" = Some Demo.child_x
  /\ FlowRun.ids_of_slug self' "x" = {[ "i2" ]}
  /\ trace w' = [FromTaskRunId "i2"].
Proof. vm_compute. repeat split; reflexivity. Qed.

(** A slug that disagrees with the fetched record is refused after the fetch,
    and the record is not cached. *)
Example get_by_id_and_other_slug :
  let st := (Demo.new_run Running [], Demo.world ∅ [Demo.row "i2" "x" 0 Success]) in
  let '(r, (self', w')) := FlowRun.get (rt := Demo.runtime) None (Some "y") (Some "i2") st in
  (exists text, r = Raise {| exc_class := ValueError; exc_repr := text |})
  /\ FlowRun._task_runs self' !! "i2" = None
  /\ trace w' = [FromTaskRunId "i2"].
Proof. vm_compute. split; [eexists; reflexivity|]. split; reflexivity. Qed.

(** Iterating without caching leaves the cache empty. *)
Example iter_mapped_without_cache :
  let st := (Demo.new_run Running [],
             Demo.world ∅ [Demo.row "i1" "x" (-1) Mapped; Demo.row "i2" "x" 0 Success]) in
  match FlowRun.list_of (rt := Demo.runtime) 5 (FlowRun.iter_mapped None (Some "x") false) st with
  | Some (r, (self', w')) =>
      r = Return [Demo.child_x]
      /\ FlowRun._task_runs self' = ∅
      /\ trace w' = [QueryForTaskRuns (FlowRun.where_index "x" "r1" (-1)) false;
                     QueryForTaskRuns (FlowRun.where_index "x" "r1" 0) false;
                     QueryForTaskRuns (FlowRun.where_index "x" "r1" 1) false]
  | None => False
  end.
Proof. vm_compute. repeat split; reflexivity. Qed.

(** A sparse index ends the iteration early: index 2 is never asked for. *)
Example iter_mapped_stops_at_gap :
  let st := (Demo.new_run Running [],
             Demo.world ∅ [Demo.row "i1" "x" (-1) Mapped; Demo.row "i2" "x" 0 Success;
                           Demo.row "i4" "x" 2 Success]) in
  option_map fst
    (FlowRun.list_of (rt := Demo.runtime) 5 (FlowRun.iter_mapped None (Some "x") true) st)
  = Some (Return [Demo.child_x]).
Proof. vm_compute. reflexivity. Qed.

(** [get_all] on a small run fetches every record in one query and caches
    them; the run being finished, the id list is memoised. *)
Example get_all_small_run :
  let st := (Demo.new_run Success [],
             Demo.world ∅ [Demo.row "i1" "x" (-1) Mapped; Demo.row "i2" "x" 0 Success]) in
  let '(r, (self', w')) := FlowRun.get_all st in
  r = Return [Demo.base_x; Demo.child_x]
  /\ FlowRun._task_run_ids self' = Some ["i1"; "i2"]
  /\ FlowRun._task_runs self' !! "i1" = Some Demo.base_x
  /\ FlowRun._task_runs self' !! "i2" = Some Demo.child_x
  /\ FlowRun.ids_of_slug self' "x" = {[ "i1"; "i2" ]}
  /\ trace w' = [Graphql (task_run_ids_of "r1");
                 QueryForTaskRuns {| where_task_slug := None;
                                     where_flow_run_id := Some "r1";
                                     where_map_index := None |} true].
Proof. vm_compute. repeat split; reflexivity. Qed.

(** ** The cache *)

Lemma ids_of_slug_add self r task_slug :
  FlowRun.ids_of_slug (FlowRun._add_task_run self r) task_slug =
  if decide (TaskRun.task_slug r = task_slug)
  then FlowRun.ids_of_slug self task_slug ∪ {[TaskRun.task_run_id r]}
  else FlowRun.ids_of_slug self task_slug.
Proof.
  unfold FlowRun.ids_of_slug at 1. simpl.
  rewrite lookup_insert. case_decide; subst; reflexivity.
Qed.

Lemma coherent_add self r : coherent self -> coherent (FlowRun._add_task_run self r).
Proof.
  intros [Hrec Hidx]. split.
  - intros id r0. simpl. rewrite lookup_insert. case_decide as Hid.
    + intros [= <-]. split; [done|]. rewrite ids_of_slug_add.
      rewrite decide_True by done. apply elem_of_union. right.
      by apply elem_of_singleton.
    + intros Hr0. destruct (Hrec _ _ Hr0) as [Hk Hin]. split; [done|].
      rewrite ids_of_slug_add. case_decide; [|done].
      apply elem_of_union. by left.
  - intros task_slug id. rewrite ids_of_slug_add. simpl.
    rewrite lookup_insert. intros Hin.
    destruct (decide (TaskRun.task_run_id r = id)) as [Hid|Hid]; [by eexists|].
    apply (Hidx task_slug). case_decide; [|done].
    apply elem_of_union in Hin as [Hin|Hin]; [done|].
    apply elem_of_singleton in Hin. congruence.
Qed.

Lemma coherent_foldl_add task_runs self :
  coherent self -> coherent (foldl FlowRun._add_task_run self task_runs).
Proof.
  revert self. induction task_runs as [|r task_runs IH]; intros self Hc; simpl.
  - exact Hc.
  - apply IH, coherent_add, Hc.
Qed.

Lemma coherent_set_task_run_ids self ids :
  coherent self -> coherent (FlowRun.set_task_run_ids self ids).
Proof. intros Hc. exact Hc. Qed.

Lemma coherent_init flow_run_id name flow_id flow_name flow_storage flow_run_config
    state task_runs :
  coherent (FlowRun.__init__ flow_run_id name flow_id flow_name flow_storage
              flow_run_config state task_runs).
Proof.
  unfold FlowRun.__init__.
  set (self := FlowRun.Build_t _ _ _ _ _ _ _ _ _ _).
  assert (coherent self) as Hc.
  { split.
    - intros id r. simpl. rewrite lookup_empty. discriminate.
    - intros task_slug id. unfold FlowRun.ids_of_slug. simpl.
      rewrite lookup_empty. simpl. intros Hin. by apply not_elem_of_empty in Hin. }
  destruct task_runs; [apply coherent_foldl_add|]; exact Hc.
Qed.

(** Adding a record that is already stored under its id changes nothing. *)
Lemma add_cached self id r :
  coherent self -> FlowRun._task_runs self !! id = Some r ->
  FlowRun._add_task_run self r = self.
Proof.
  intros [Hrec _] Hr. destruct (Hrec _ _ Hr) as [Hid Hin]. subst id.
  destruct self as [a b c d e f g h runs idx]. unfold FlowRun._add_task_run.
  simpl in *. f_equal.
  - apply insert_id, Hr.
  - unfold FlowRun.ids_of_slug in *. simpl in *.
    destruct (idx !! TaskRun.task_slug r) as [ids|] eqn:Hidx; simpl in *.
    + rewrite <- (insert_id idx _ _ Hidx) at 2. f_equal.
      rewrite (comm_L (∪)). apply subseteq_union_1_L. by apply singleton_subseteq_l.
    + by apply not_elem_of_empty in Hin.
Qed.

(** The remote fetch by slug at the end of [get]: one fetch, whose result is
    added to the cache and returned. *)
Lemma fetch_by_slug_cases s self w res self' w' :
  (let* result := FlowRun.liftW (TaskRun.from_task_slug s (FlowRun.flow_run_id self)) in
   FlowRun.modify_self (fun self => FlowRun._add_task_run self result);; ret result)
    (self, w) = (res, (self', w')) ->
  exists ev, w' = set_trace w (trace w ++ [ev])%list /\ is_task_run_fetch ev = true /\
    ((exists r, res = Return r /\ self' = FlowRun._add_task_run self r) \/
     (exists e, res = Raise e /\ self' = self)).
Proof.
  unfold bind, FlowRun.liftW, TaskRun.from_task_slug, bind, remote_call. simpl.
  destruct (TaskRun.select _ _) as [|row [|row' rows]]; simpl;
    intros [= <- <- <-]; eexists;
    (split; [reflexivity|]); (split; [reflexivity|]); eauto.
Qed.

(** What one call of [get] does to the object and the world: nothing (a cache
    hit or a refused argument), or one fetch of a task run whose result, when
    there is one, is added to the cache and returned. *)
Lemma get_cases {rt : PyRuntime} task task_slug task_run_id self w :
  coherent self ->
  forall res self' w',
    FlowRun.get task task_slug task_run_id (self, w) = (res, (self', w')) ->
    (self' = self /\ w' = w) \/
    (exists ev, w' = set_trace w (trace w ++ [ev])%list /\ is_task_run_fetch ev = true /\
       ((exists r, res = Return r /\ self' = FlowRun._add_task_run self r) \/
        (exists e, res = Raise e /\ self' = self))).
Proof.
  intros Hc res self' w'. unfold FlowRun.get. unfold bind at 1.
  destruct (FlowRun.lookup_slug task task_slug) as [oslug|e]; [|intros [= <- <- <-]; by left].
  destruct task_run_id as [id|].
  - unfold bind, FlowRun.get_self.
    destruct (FlowRun._task_runs self !! id) as [r|] eqn:Hr; simpl.
    + destruct oslug as [s|]; [destruct (negb _)|]; simpl; intros [= <- <- <-]; left;
        rewrite ?(add_cached self id r Hc Hr); done.
    + unfold TaskRun.from_task_run_id, bind, remote_call. simpl.
      destruct (List.find _ _) as [row|]; simpl.
      * destruct oslug as [s|]; [destruct (negb _)|]; simpl; intros [= <- <- <-];
          right; eexists; (split; [reflexivity|]); (split; [reflexivity|]); eauto.
      * intros [= <- <- <-]. right; eexists.
        split; [reflexivity|]. split; [reflexivity|]. eauto.
  - destruct oslug as [s|]; [|intros [= <- <- <-]; by left].
    unfold bind at 1, FlowRun.get_self. unfold bind at 1.
    destruct (FlowRun._task_slug_to_task_run_ids self !! s) as [ids|].
    + destruct (1 <? size ids)%nat.
      * destruct (FlowRun.find_base _ _) as [[r|]|e].
        -- intros [= <- <- <-]. by left.
        -- intros Hf. right. exact (fetch_by_slug_cases _ _ _ _ _ _ Hf).
        -- intros [= <- <- <-]. by left.
      * intros Hf. right. exact (fetch_by_slug_cases _ _ _ _ _ _ Hf).
    + intros Hf. right. exact (fetch_by_slug_cases _ _ _ _ _ _ Hf).
Qed.

Lemma elem_of_set_iter {rt : PyRuntime} (s : gset string) id : id ∈ set_iter s <-> id ∈ s.
Proof. rewrite (set_iter_perm s). apply elem_of_elements. Qed.

Lemma find_base_found task_runs ids :
  (forall id, id ∈ ids -> is_Some (task_runs !! id)) ->
  (exists id r, id ∈ ids /\ task_runs !! id = Some r /\ TaskRun.map_index r = -1) ->
  exists id r, id ∈ ids /\ task_runs !! id = Some r /\ TaskRun.map_index r = -1 /\
    FlowRun.find_base task_runs ids = Return (Some r).
Proof.
  induction ids as [|id ids IH]; intros Hall (id0 & r0 & Hin & Hr0 & Hbase).
  - by apply elem_of_nil in Hin.
  - simpl. destruct (Hall id) as [r Hr]; [left|]. rewrite Hr.
    destruct (TaskRun.map_index r =? -1) eqn:Hidx.
    + exists id, r. repeat split; [left | done | lia].
    + destruct IH as (id1 & r1 & Hin1 & Hr1 & Hb1 & Hf).
      * intros id' Hin'. apply Hall. by right.
      * apply elem_of_cons in Hin as [->|Hin].
        -- rewrite Hr in Hr0. injection Hr0 as <-. lia.
        -- eauto.
      * exists id1, r1. repeat split; [by right | done | done | done].
Qed.

Lemma find_base_none task_runs ids :
  (forall id, id ∈ ids -> is_Some (task_runs !! id)) ->
  (forall id r, id ∈ ids -> task_runs !! id = Some r -> TaskRun.map_index r <> -1) ->
  FlowRun.find_base task_runs ids = Return None.
Proof.
  induction ids as [|id ids IH]; intros Hall Hno; simpl; [done|].
  destruct (Hall id) as [r Hr]; [left|]. rewrite Hr.
  destruct (TaskRun.map_index r =? -1) eqn:Hidx.
  - exfalso. apply (Hno id r); [left | done | lia].
  - apply IH.
    + intros id' Hin'. apply Hall. by right.
    + intros id' r' Hin'. apply Hno. by right.
Qed.

Lemma get_by_slug_unfold {rt : PyRuntime} task task_slug s self w :
  FlowRun.lookup_slug task task_slug = Return (Some s) ->
  FlowRun.get task task_slug None (self, w) =
  match FlowRun._task_slug_to_task_run_ids self !! s with
  | Some ids =>
      if (1 <? size ids)%nat then
        match FlowRun.find_base (FlowRun._task_runs self) (set_iter ids) with
        | Return (Some r) => (Return r, (self, w))
        | Return None =>
            match TaskRun.from_task_slug s (FlowRun.flow_run_id self) w with
            | (Return r, w') => (Return r, (FlowRun._add_task_run self r, w'))
            | (Raise e, w') => (Raise e, (self, w'))
            end
        | Raise e => (Raise e, (self, w))
        end
      else
        match TaskRun.from_task_slug s (FlowRun.flow_run_id self) w with
        | (Return r, w') => (Return r, (FlowRun._add_task_run self r, w'))
        | (Raise e, w') => (Raise e, (self, w'))
        end
  | None =>
      match TaskRun.from_task_slug s (FlowRun.flow_run_id self) w with
      | (Return r, w') => (Return r, (FlowRun._add_task_run self r, w'))
      | (Raise e, w') => (Raise e, (self, w'))
      end
  end.
Proof.
  intros Hs. unfold FlowRun.get. unfold bind at 1. rewrite Hs.
  unfold bind, FlowRun.get_self, FlowRun.liftW, FlowRun.modify_self, ret.
  destruct (FlowRun._task_slug_to_task_run_ids self !! s) as [ids|];
    [destruct (1 <? size ids)%nat; [destruct (FlowRun.find_base _ _) as [[r|]|e]|]|];
    try reflexivity;
    destruct (TaskRun.from_task_slug s (FlowRun.flow_run_id self) w) as [[r|e] w'];
    reflexivity.
Qed.

(** C8. A lookup by slug on a run whose cache holds at least two ids for the
    slug returns a cached record of the family with map index [-1], without
    touching the world, when there is one; otherwise it goes on to the remote
    fetch by slug, whose result is cached and returned. *)
Theorem get_mapped_family_base {rt : PyRuntime} self w task task_slug s :
  coherent self ->
  FlowRun.lookup_slug task task_slug = Return (Some s) ->
  (2 <= size (FlowRun.ids_of_slug self s))%nat ->
  ((exists id r, id ∈ FlowRun.ids_of_slug self s /\
      FlowRun._task_runs self !! id = Some r /\ TaskRun.map_index r = -1) ->
   exists id r, id ∈ FlowRun.ids_of_slug self s /\
      FlowRun._task_runs self !! id = Some r /\ TaskRun.map_index r = -1 /\
      FlowRun.get task task_slug None (self, w) = (Return r, (self, w)))
  /\
  ((forall id r, id ∈ FlowRun.ids_of_slug self s ->
      FlowRun._task_runs self !! id = Some r -> TaskRun.map_index r <> -1) ->
   FlowRun.get task task_slug None (self, w) =
   match TaskRun.from_task_slug s (FlowRun.flow_run_id self) w with
   | (Return r, w') => (Return r, (FlowRun._add_task_run self r, w'))
   | (Raise e, w') => (Raise e, (self, w'))
   end).
Proof.
  intros [Hrec Hidx] Hs Hsize.
  rewrite (get_by_slug_unfold _ _ _ _ _ Hs).
  pose proof (Hidx s) as Hkeys. unfold FlowRun.ids_of_slug in *.
  destruct (FlowRun._task_slug_to_task_run_ids self !! s) as [ids|]; simpl in *;
    [|vm_compute in Hsize; lia].
  assert ((1 <? size ids)%nat = true) as -> by (apply Nat.ltb_lt; lia).
  assert (forall id, id ∈ set_iter ids -> is_Some (FlowRun._task_runs self !! id)) as Hall.
  { intros id Hin. apply Hkeys. by apply elem_of_set_iter. }
  split.
  - intros (id & r & Hin & Hr & Hb).
    destruct (find_base_found (FlowRun._task_runs self) (set_iter ids) Hall)
      as (id1 & r1 & Hin1 & Hr1 & Hb1 & Hf).
    { exists id, r. by rewrite elem_of_set_iter. }
    exists id1, r1. rewrite Hf. by rewrite elem_of_set_iter in Hin1.
  - intros Hno. rewrite (find_base_none _ _ Hall); [reflexivity|].
    intros id r Hin. apply Hno. by apply elem_of_set_iter.
Qed.

(** The scenario of C8: the cache holds "i1" (map index -1) and "i2" (map index
    0) for slug "x"; the lookup by slug "x" returns the record of "i1" and
    leaves the world, whose trace is empty, as it was. *)
Lemma get_mapped_family_base_witness :
  let self := Demo.new_run Running [Demo.base_x; Demo.child_x] in
  let w := Demo.world ∅ [] in
  exists id r, id ∈ FlowRun.ids_of_slug self "x" /\
    FlowRun._task_runs self !! id = Some r /\ TaskRun.map_index r = -1 /\
    FlowRun.get (rt := Demo.runtime) None (Some "x") None (self, w) = (Return r, (self, w)).
Proof.
  intros self w.
  refine (proj1 (get_mapped_family_base (rt := Demo.runtime) self w None (Some "x") "x"
                   (coherent_init _ _ _ _ _ _ _ _) eq_refl _) _).
  - vm_compute. lia.
  - exists "i1", Demo.base_x. split; [|split; reflexivity].
    apply (bool_decide_unpack _). vm_compute. exact I.
Defined.

Example get_mapped_family_scenario :
  let self := Demo.new_run Running [Demo.base_x; Demo.child_x] in
  FlowRun.get (rt := Demo.runtime) None (Some "x") None (self, Demo.world ∅ [])
  = (Return Demo.base_x, (self, Demo.world ∅ [])).
Proof. vm_compute. reflexivity. Qed.

(** C9, as the code has it.  A lookup by the id of a cached record, with no
    slug or with the slug of that record, returns the cached record and
    leaves the object and the world as they were.  Any later lookup keeps the
    id in the cache; the record under it stays the same unless that lookup
    fetched, at the cost of one remote call, a record with the same id, which
    then replaces it. *)
Theorem cached_lookup_by_id {rt : PyRuntime} self w id r :
  coherent self ->
  FlowRun._task_runs self !! id = Some r ->
  (forall task task_slug o,
     FlowRun.lookup_slug task task_slug = Return o ->
     o = None \/ o = Some (TaskRun.task_slug r) ->
     FlowRun.get task task_slug (Some id) (self, w) = (Return r, (self, w)))
  /\ forall task task_slug task_run_id res self' w',
       FlowRun.get task task_slug task_run_id (self, w) = (res, (self', w')) ->
       FlowRun._task_runs self' !! id = Some r
       \/ (exists r' ev,
             res = Return r' /\ TaskRun.task_run_id r' = id /\
             FlowRun._task_runs self' !! id = Some r' /\
             trace w' = (trace w ++ [ev])%list /\ is_task_run_fetch ev = true).
Proof.
  intros Hc Hr. split.
  - intros task task_slug o Hslug Ho.
    unfold FlowRun.get. unfold bind at 1. rewrite Hslug.
    unfold bind, FlowRun.get_self, FlowRun.modify_self. rewrite Hr. simpl.
    destruct Ho as [-> | ->]; [|rewrite String.eqb_refl]; simpl;
      by rewrite (add_cached self id r Hc Hr).
  - intros task task_slug task_run_id res self' w' Hget.
    destruct (get_cases _ _ _ _ _ Hc _ _ _ Hget)
      as [[-> ->]|(ev & -> & Hev & [(r' & -> & ->)|(e & -> & ->)])];
      [by left| |by left].
    simpl. rewrite lookup_insert. case_decide as Hid.
    + right. exists r', ev. by rewrite Hid.
    + by left.
Qed.

Lemma cached_lookup_by_id_witness :
  let self := Demo.new_run Running [Demo.base_x; Demo.child_x] in
  let w := Demo.world ∅ [] in
  FlowRun.get (rt := Demo.runtime) None None (Some "i2") (self, w)
  = (Return Demo.child_x, (self, w)).
Proof.
  intros self w.
  exact (proj1 (cached_lookup_by_id (rt := Demo.runtime) self w "i2" Demo.child_x
                  (coherent_init _ _ _ _ _ _ _ _) eq_refl)
           None None None eq_refl (or_introl eq_refl)).
Defined.

(** C9, as stated, fails: the cache holds the record of "i1" in state
    [Running]; the remote record has moved to [Success]; a lookup by the slug
    of "i1" fetches it and replaces the cached record. *)
Lemma lookup_by_slug_refreshes_cached_record :
  ~ lookups_never_refresh (rt := Demo.runtime).
Proof.
  intros Hnever.
  pose (old := {| TaskRun.task_run_id := "i1"; TaskRun.task_slug := "x";
                  TaskRun.map_index := -1; TaskRun.state := Running |}).
  specialize (Hnever (Demo.new_run Running [old])
                (Demo.world ∅ [Demo.row "i1" "x" (-1) Success])
                None (Some "x") None "i1" old
                (coherent_init _ _ _ _ _ _ _ _) eq_refl).
  vm_compute in Hnever. discriminate Hnever.
Qed.

(** The counterexample of C9, evaluated: the lookup by slug makes one remote
    call and stores the fetched record under "i1"; the lookup by id that
    follows returns the fetched record, in state [Success], not the record
    that was cached before, in state [Running]. *)
Example lookup_by_slug_refresh_evaluated :
  let old := {| TaskRun.task_run_id := "i1"; TaskRun.task_slug := "x";
                TaskRun.map_index := -1; TaskRun.state := Running |} in
  let new := {| TaskRun.task_run_id := "i1"; TaskRun.task_slug := "x";
                TaskRun.map_index := -1; TaskRun.state := Success |} in
  let st := (Demo.new_run Running [old], Demo.world ∅ [Demo.row "i1" "x" (-1) Success]) in
  let '(r1, st1) := FlowRun.get (rt := Demo.runtime) None (Some "x") None st in
  FlowRun._task_runs (fst st) !! "i1" = Some old
  /\ r1 = Return new
  /\ trace (snd st1) = [FromTaskSlug "x" "r1"]
  /\ fst (FlowRun.get (rt := Demo.runtime) None None (Some "i1") st1) = Return new.
Proof. vm_compute. repeat split; reflexivity. Qed.

(** ** The cache index stays coherent *)

Lemma iter_mapped_enter_self {rt : PyRuntime} task task_slug self w res self' w' :
  FlowRun.iter_mapped_enter task task_slug (self, w) = (res, (self', w')) -> self' = self.
Proof.
  unfold FlowRun.iter_mapped_enter. unfold bind at 1.
  destruct (FlowRun.iter_slug task task_slug) as [[s|]|e];
    unfold bind, FlowRun.get_self, FlowRun.liftW, ret, raise; [|congruence..].
  destruct (TaskRun.query_for_task_runs _ _ _) as [[[row|]|e] w2]; simpl;
    [destruct (negb _); [destruct (task_run_slug _)|]|..]; congruence.
Qed.

Lemma next_cases {rt : PyRuntime} g self w nxt g' self' w' :
  FlowRun.__next__ g (self, w) = (nxt, g', (self', w')) ->
  self' = self \/ exists r, nxt = FlowRun.Yield r /\ self' = FlowRun._add_task_run self r.
Proof.
  assert (forall task_slug cache_results map_index self0 w0,
    FlowRun.iter_mapped_loop task_slug cache_results map_index (self0, w0)
      = (nxt, g', (self', w')) ->
    self' = self0 \/ exists r, nxt = FlowRun.Yield r /\ self' = FlowRun._add_task_run self0 r)
    as Hloop.
  { intros task_slug cache_results map_index self0 w0.
    unfold FlowRun.iter_mapped_loop.
    destruct (TaskRun.query_for_task_runs _ _ _) as [[[row|]|e] w1];
      intros [= <- <- <- <-]; [|by left..].
    destruct cache_results; [right; eauto | by left]. }
  destruct g as [task task_slug cache_results|task_slug cache_results map_index|]; simpl.
  - destruct (FlowRun.iter_mapped_enter task task_slug (self, w)) as [[s|e] [self1 w1]] eqn:He;
      apply iter_mapped_enter_self in He as ->.
    + apply Hloop.
    + intros [= <- <- <- <-]. by left.
  - apply Hloop.
  - intros [= <- <- <- <-]. by left.
Qed.

Lemma task_run_ids_cases self w res self' w' :
  FlowRun.task_run_ids (self, w) = (res, (self', w')) ->
  FlowRun._task_runs self' = FlowRun._task_runs self /\
  FlowRun._task_slug_to_task_run_ids self' = FlowRun._task_slug_to_task_run_ids self /\
  FlowRun.flow_run_id self' = FlowRun.flow_run_id self /\
  (w' = w \/
   w' = set_trace w
          (trace w ++ [Graphql (task_run_ids_of (FlowRun.flow_run_id self))])%list).
Proof.
  unfold FlowRun.task_run_ids, bind, FlowRun.get_self, FlowRun.liftW,
    FlowRun.modify_self, Client.graphql, bind, remote_call, ret, raise. simpl.
  destruct (FlowRun._task_run_ids self) as [[|id ids]|];
    try (intros [= <- <- <-]; by auto);
    destruct (graphql_has_data w); simpl;
    try destruct (is_finished (FlowRun.state self)); simpl;
    intros [= <- <- <-]; auto.
Qed.

Lemma get_all_cases self w res self' w' :
  FlowRun.get_all (self, w) = (res, (self', w')) ->
  exists task_runs ids,
    self' = foldl FlowRun._add_task_run (FlowRun.set_task_run_ids self ids) task_runs.
Proof.
  unfold FlowRun.get_all. unfold bind at 1.
  destruct (FlowRun.task_run_ids (self, w)) as [[ids|e] [self1 w1]] eqn:Hids.
  - assert (exists o, self1 = FlowRun.set_task_run_ids self o) as [o ->].
    { revert Hids.
      unfold FlowRun.task_run_ids, bind, FlowRun.get_self, FlowRun.liftW,
        FlowRun.modify_self, Client.graphql, bind, remote_call, ret, raise. simpl.
      destruct self as [a b c d e f g h runs idx]; simpl.
      destruct h as [[|id0 ids0]|];
        try (intros [= <- <- <-]; by eexists);
        destruct (graphql_has_data w); simpl;
        try destruct (is_finished g); simpl;
        intros [=]; subst; by eexists. }
    destruct (1000 <? length ids)%nat.
    + intros [= <- <- <-]. by exists [], o.
    + unfold bind, FlowRun.get_self, FlowRun.liftW, FlowRun.modify_self, ret.
      destruct (TaskRun.query_for_task_runs_many _ _ _) as [[rows|e] w2];
        intros [= <- <- <-]; [by eexists _, o | by exists [], o].
  - intros [= <- <- <-].
    revert Hids.
    unfold FlowRun.task_run_ids, bind, FlowRun.get_self, FlowRun.liftW,
      FlowRun.modify_self, Client.graphql, bind, remote_call, ret, raise. simpl.
    destruct self as [a b c d e' f g h runs idx]; simpl.
    destruct h as [[|id0 ids0]|];
      try (intros [= <- <- <-]; by eexists [], _);
      destruct (graphql_has_data w); simpl;
      try destruct (is_finished g); simpl;
      intros [=]; subst; by eexists [], _.
Qed.

(** C10. The cache index is coherent after construction, and every call of
    [get], every step of [iter_mapped] (with or without caching) and every
    call of [get_all] keeps it coherent, whatever the call returns or raises. *)
Theorem cache_index_coherent {rt : PyRuntime} :
  (forall flow_run_id name flow_id flow_name flow_storage flow_run_config state task_runs,
     coherent (FlowRun.__init__ flow_run_id name flow_id flow_name flow_storage
                 flow_run_config state task_runs))
  /\ (forall self w task task_slug task_run_id,
        coherent self ->
        coherent (fst (snd (FlowRun.get task task_slug task_run_id (self, w)))))
  /\ (forall self w g,
        coherent self ->
        coherent (fst (snd (FlowRun.__next__ g (self, w)))))
  /\ (forall self w,
        coherent self ->
        coherent (fst (snd (FlowRun.get_all (self, w))))).
Proof.
  split; [|split; [|split]].
  - intros. apply coherent_init.
  - intros self w task task_slug task_run_id Hc.
    destruct (FlowRun.get task task_slug task_run_id (self, w)) as [res [self' w']] eqn:Hget.
    destruct (get_cases _ _ _ _ _ Hc _ _ _ Hget)
      as [[-> ->]|(ev & -> & Hev & [(r' & -> & ->)|(e & -> & ->)])]; simpl;
      [done | by apply coherent_add | done].
  - intros self w g Hc.
    destruct (FlowRun.__next__ g (self, w)) as [[nxt g'] [self' w']] eqn:Hnext.
    destruct (next_cases _ _ _ _ _ _ _ Hnext) as [->|(r & -> & ->)]; simpl;
      [done | by apply coherent_add].
  - intros self w Hc.
    destruct (FlowRun.get_all (self, w)) as [res [self' w']] eqn:Hall.
    destruct (get_all_cases _ _ _ _ _ Hall) as (task_runs & ids & ->). simpl.
    by apply coherent_foldl_add, coherent_set_task_run_ids.
Qed.

Lemma cache_index_coherent_witness :
  coherent (Demo.new_run Running [Demo.base_x; Demo.child_x])
  /\ coherent (fst (snd (FlowRun.get (rt := Demo.runtime) None (Some "y") None
                           (Demo.new_run Running [Demo.base_x],
                            Demo.world ∅ [Demo.row "i3" "y" (-1) Success]))))
  /\ coherent (fst (snd (FlowRun.__next__ (rt := Demo.runtime)
                           (FlowRun.iter_mapped None (Some "x") true)
                           (Demo.new_run Running [],
                            Demo.world ∅ [Demo.row "i1" "x" (-1) Mapped;
                                          Demo.row "i2" "x" 0 Success]))))
  /\ coherent (fst (snd (FlowRun.get_all
                           (Demo.new_run Running [Demo.base_x],
                            Demo.world ∅ [Demo.row "i1" "x" (-1) Mapped;
                                          Demo.row "i2" "x" 0 Success])))).
Proof.
  destruct (cache_index_coherent (rt := Demo.runtime)) as (Hinit & Hget & Hnext & Hall).
  split; [|split; [|split]].
  - apply Hinit.
  - apply Hget, Hinit.
  - apply Hnext, Hinit.
  - apply Hall, Hinit.
Defined.

(** ** Mapped iteration *)



Lemma select_map_index s flow_run_id index table row :
  row ∈ TaskRun.select (FlowRun.where_index s flow_run_id index) table ->
  row_map_index row = index.
Proof.
  unfold TaskRun.select. rewrite list_elem_of_In, List.filter_In.
  unfold TaskRun.matches. simpl. intros [_ Hm].
  apply andb_prop in Hm as [_ Hm]. symmetry. by apply Z.eqb_eq.
Qed.








(** ** Bulk fetch *)

(** C5. When the run reports more than 1000 task-run ids (its memo of a
    finished run, else the answer of the id query), [get_all] raises
    [ValueError] (the module's resource-limit error) right after reading the
    ids: the record cache is as before and no task-run record has been
    fetched; the only remote call that can have been made is the id query. *)
Theorem get_all_refuses_large_run self w ids self1 w1 :
  FlowRun.task_run_ids (self, w) = (Return ids, (self1, w1)) ->
  (1000 < length ids)%nat ->
  exists e,
    FlowRun.get_all (self, w) = (Raise e, (self1, w1))
    /\ exc_class e = ValueError
    /\ FlowRun._task_runs self1 = FlowRun._task_runs self
    /\ FlowRun._task_slug_to_task_run_ids self1 = FlowRun._task_slug_to_task_run_ids self
    /\ task_run_fetches (trace w1) = task_run_fetches (trace w)
    /\ (w1 = w \/
        w1 = set_trace w
               (trace w ++ [Graphql (task_run_ids_of (FlowRun.flow_run_id self))])%list).
Proof.
  intros Hids Hlen.
  destruct (task_run_ids_cases _ _ _ _ _ Hids) as (Hruns & Hidx & _ & Hw).
  eexists. unfold FlowRun.get_all. unfold bind at 1. rewrite Hids.
  assert ((1000 <? length ids)%nat = true) as -> by (by apply Nat.ltb_lt).
  split; [reflexivity|]. split; [reflexivity|]. split; [done|]. split; [done|].
  split; [|done].
  destruct Hw as [->| ->]; [done|]. simpl. unfold task_run_fetches.
  rewrite List.filter_app. simpl. by rewrite app_nil_r.
Qed.

Lemma get_all_refuses_large_run_witness :
  let self := Demo.new_run Running [Demo.base_x] in
  let w := Demo.world ∅ ((fun n : nat => Demo.row (pretty n) "x" (Z.of_nat n - 1) Success)
                           <$> seq 0 1001) in
  exists e self1 w1,
    FlowRun.get_all (self, w) = (Raise e, (self1, w1))
    /\ exc_class e = ValueError
    /\ FlowRun._task_runs self1 = FlowRun._task_runs self
    /\ task_run_fetches (trace w1) = [].
Proof.
  intros self w.
  destruct (FlowRun.task_run_ids (self, w)) as [[ids|e0] [self1 w1]] eqn:Hids;
    [|vm_compute in Hids; discriminate Hids].
  assert (length ids = 1001%nat) as Hlen.
  { vm_compute in Hids. injection Hids as <- _ _. reflexivity. }
  destruct (get_all_refuses_large_run self w ids self1 w1 Hids)
    as (e & Hall & Hclass & Hruns & _ & Hfetch & _).
  - rewrite Hlen. lia.
  - exists e, self1, w1. split; [exact Hall|]. split; [exact Hclass|].
    split; [exact Hruns|]. exact Hfetch.
Defined.

(** ** The execution guard *)

Ltac solve_only_read :=
  unfold only_read, state_writes, log_writes; simpl;
  rewrite ?List.filter_app; simpl; rewrite ?app_nil_r; done.

(** [from_flow_run_id] never returns: when the run and its data are there, the
    call of the class fails for want of [flow_id]. *)
Lemma from_flow_run_id_raises flow_run_id load_static_tasks _task_runs w :
  exists e w',
    FlowRun.from_flow_run_id flow_run_id load_static_tasks _task_runs w = (Raise e, w')
    /\ (exc_class e = TypeError \/ exc_class e = ValueError)
    /\ only_read w w'.
Proof.
  unfold FlowRun.from_flow_run_id, bind, Client.graphql, bind, remote_call. simpl.
  destruct (graphql_has_data w); simpl.
  - destruct (flow_run_table w !! flow_run_id) as [flow_run|]; simpl.
    + destruct load_static_tasks; simpl.
      * unfold TaskRun.query_for_task_runs_many, bind, remote_call. simpl.
        destruct (TaskRun.select _ _) as [|row rows]; simpl.
        -- do 2 eexists. split; [reflexivity|]. split; [by right|].
           solve_only_read.
        -- do 2 eexists. split; [reflexivity|]. split; [by left|].
           solve_only_read.
      * do 2 eexists. split; [reflexivity|]. split; [by left|].
        solve_only_read.
    + do 2 eexists. split; [reflexivity|]. split; [by right|].
      solve_only_read.
  - do 2 eexists. split; [reflexivity|]. split; [by right|].
    solve_only_read.
Qed.

Lemma from_flow_run_id_missing_flow_id flow_run_id w flow_run row rows :
  graphql_has_data w = true ->
  flow_run_table w !! flow_run_id = Some flow_run ->
  TaskRun.select (static_tasks_of flow_run_id) (task_run_table w) = row :: rows ->
  FlowRun.from_flow_run_id flow_run_id true None w =
  (Raise FlowRun.missing_argument,
   set_trace w (trace w ++ [Graphql (flow_run_by_pk flow_run_id);
                            QueryForTaskRuns (static_tasks_of flow_run_id) true])%list).
Proof.
  intros Hdata Hrun Hrows.
  unfold FlowRun.from_flow_run_id, bind, Client.graphql, bind, remote_call. simpl.
  rewrite Hdata. simpl. rewrite Hrun. simpl.
  unfold TaskRun.query_for_task_runs_many, bind, remote_call. simpl.
  fold (static_tasks_of flow_run_id). rewrite Hrows. simpl.
  by rewrite <- app_assoc.
Qed.

(** What the guard would report: one [Failed] state write carrying the
    formatted message, then one log entry at level "ERROR" carrying it. *)
Lemma report_failure_writes {rt : PyRuntime} flow_run_id message exc text w :
  str_format message (exc_repr exc) = Return text ->
  exists w',
    report_failure flow_run_id message exc w = (Return tt, w')
    /\ trace w' =
       (trace w ++ [SetFlowRunState flow_run_id (Failed text);
                    WriteRunLogs
                      [ {| log_flow_run_id := flow_run_id;
                           log_name := "prefect.backend.api.flow_run.execute_flow_run";
                           log_message := text;
                           log_level := "ERROR" |} ]])%list
    /\ flow_run_table w' =
       alter (Client.with_state (Failed text)) flow_run_id (flow_run_table w).
Proof.
  intros Hfmt. unfold report_failure. rewrite Hfmt.
  unfold bind, Client.set_flow_run_state, Client.write_run_logs, bind, remote_call.
  simpl. eexists. split; [reflexivity|]. simpl. by rewrite <- app_assoc.
Qed.

(** The guard lets a unit of work that returns pass unchanged. *)
Lemma guard_return {rt : PyRuntime} {A} flow_run_id message (body : SE World A) w a w1 :
  body w = (Return a, w1) ->
  fail_flow_run_on_exception flow_run_id message body w = (Return a, w1).
Proof. intros Hbody. unfold fail_flow_run_on_exception. by rewrite Hbody. Qed.

(** Any other [BaseException] passes the guard as it is. *)
Lemma guard_base_exception {rt : PyRuntime} {A} flow_run_id message (body : SE World A)
    w exc w1 :
  body w = (Raise exc, w1) ->
  is_KeyboardInterrupt (exc_class exc) = false ->
  is_Exception (exc_class exc) = false ->
  fail_flow_run_on_exception flow_run_id message body w = (Raise exc, w1).
Proof.
  intros Hbody Hki Hexc. unfold fail_flow_run_on_exception.
  by rewrite Hbody, Hki, Hexc.
Qed.

(** On an error or an interrupt the guard re-reads the run, and what it raises
    is what the re-read raised. *)
Lemma guard_raise {rt : PyRuntime} {A} flow_run_id message (body : SE World A) w exc w1 :
  body w = (Raise exc, w1) ->
  is_KeyboardInterrupt (exc_class exc) || is_Exception (exc_class exc) = true ->
  exists e w2,
    fail_flow_run_on_exception flow_run_id message body w = (Raise e, w2)
    /\ FlowRun.from_flow_run_id flow_run_id true None w1 = (Raise e, w2)
    /\ (exc_class e = TypeError \/ exc_class e = ValueError)
    /\ only_read w1 w2.
Proof.
  intros Hbody Hclass.
  destruct (from_flow_run_id_raises flow_run_id true None w1) as (e & w2 & Hread & He & Hro).
  exists e, w2. split; [|done].
  unfold fail_flow_run_on_exception. rewrite Hbody.
  destruct (is_KeyboardInterrupt (exc_class exc)); simpl in Hclass.
  - unfold bind at 1. by rewrite Hread.
  - rewrite Hclass. unfold bind at 1. by rewrite Hread.
Qed.

(** C1, on the code.  A unit of work raises an error while the remote run is
    running: the guard's re-read of the run raises, so the guard writes no
    state and no log entry, the remote run stays running, and what leaves
    the guard is the error of the re-read, not the error of the unit. *)
Theorem guard_running_run_not_failed {rt : PyRuntime} {A} flow_run_id message
    (body : SE World A) w exc w1 flow_run :
  body w = (Raise exc, w1) ->
  is_Exception (exc_class exc) = true ->
  flow_run_table w1 !! flow_run_id = Some flow_run ->
  is_running (row_serialized_state flow_run) = true ->
  exists e w2,
    fail_flow_run_on_exception flow_run_id message body w = (Raise e, w2)
    /\ (exc_class e = TypeError \/ exc_class e = ValueError)
    /\ state_writes (trace w2) = state_writes (trace w1)
    /\ log_writes (trace w2) = log_writes (trace w1)
    /\ flow_run_table w2 !! flow_run_id = Some flow_run.
Proof.
  intros Hbody Hclass Hrun _.
  destruct (guard_raise flow_run_id message body w exc w1 Hbody)
    as (e & w2 & Hguard & _ & He & Htab & _ & Hsw & Hlw & _).
  { rewrite Hclass. by destruct (is_KeyboardInterrupt _). }
  exists e, w2. by rewrite Htab.
Qed.

(** C2, on the code.  A unit of work raises an error or an interrupt while
    the remote run is not running: the guard writes nothing, but what leaves
    it is the error of its re-read of the run, not the error of the unit. *)
Theorem guard_terminal_run_loses_error {rt : PyRuntime} {A} flow_run_id message
    (body : SE World A) w exc w1 flow_run :
  body w = (Raise exc, w1) ->
  is_KeyboardInterrupt (exc_class exc) || is_Exception (exc_class exc) = true ->
  flow_run_table w1 !! flow_run_id = Some flow_run ->
  is_running (row_serialized_state flow_run) = false ->
  exists e w2,
    fail_flow_run_on_exception flow_run_id message body w = (Raise e, w2)
    /\ FlowRun.from_flow_run_id flow_run_id true None w1 = (Raise e, w2)
    /\ (exc_class e = TypeError \/ exc_class e = ValueError)
    /\ state_writes (trace w2) = state_writes (trace w1)
    /\ log_writes (trace w2) = log_writes (trace w1)
    /\ flow_run_table w2 = flow_run_table w1.
Proof.
  intros Hbody Hclass _ _.
  destruct (guard_raise flow_run_id message body w exc w1 Hbody Hclass)
    as (e & w2 & Hguard & Hread & He & Htab & _ & Hsw & Hlw & _).
  by exists e, w2.
Qed.

Lemma guard_running_run_not_failed_witness :
  let w := DemoRun.remote Running None in
  exists e w2,
    fail_flow_run_on_exception (rt := Demo.runtime) "r1"
      (Some "Failed to execute flow: {exc}") DemoRun.boom w = (Raise e, w2)
    /\ (exc_class e = TypeError \/ exc_class e = ValueError)
    /\ state_writes (trace w2) = state_writes (trace w)
    /\ log_writes (trace w2) = log_writes (trace w)
    /\ flow_run_table w2 !! "r1" = Some (DemoRun.flow_row Running None None).
Proof.
  intros w.
  exact (guard_running_run_not_failed (rt := Demo.runtime) "r1"
           (Some "Failed to execute flow: {exc}") DemoRun.boom w _ w
           (DemoRun.flow_row Running None None) eq_refl eq_refl
           ltac:(vm_compute; reflexivity) eq_refl).
Defined.

(** The failing input of C1, evaluated: the run stays [Running], the trace
    holds the two reads of the re-read and no write, and the error raised is
    the [TypeError] of the class call. *)
Example guard_running_run_evaluated :
  let w := DemoRun.remote Running None in
  fail_flow_run_on_exception (rt := Demo.runtime) "r1"
    (Some "Failed to execute flow: {exc}") DemoRun.boom w
  = (Raise FlowRun.missing_argument,
     set_trace w [Graphql (flow_run_by_pk "r1");
                  QueryForTaskRuns (static_tasks_of "r1") true]).
Proof. vm_compute. reflexivity. Qed.

Lemma guard_terminal_run_loses_error_witness :
  let w := DemoRun.remote Success None in
  exists e w2,
    fail_flow_run_on_exception (rt := Demo.runtime) "r1"
      (Some "Failed to execute flow: {exc}") DemoRun.boom w = (Raise e, w2)
    /\ FlowRun.from_flow_run_id "r1" true None w = (Raise e, w2)
    /\ (exc_class e = TypeError \/ exc_class e = ValueError)
    /\ state_writes (trace w2) = state_writes (trace w)
    /\ log_writes (trace w2) = log_writes (trace w)
    /\ flow_run_table w2 = flow_run_table w.
Proof.
  intros w.
  exact (guard_terminal_run_loses_error (rt := Demo.runtime) "r1"
           (Some "Failed to execute flow: {exc}") DemoRun.boom w _ w
           (DemoRun.flow_row Success None None) eq_refl eq_refl
           ltac:(vm_compute; reflexivity) eq_refl).
Defined.

(** The failing input of C2, evaluated: the unit raised [Boom], the guard
    raises the [TypeError] of the class call. *)
Example guard_terminal_run_evaluated :
  let w := DemoRun.remote Success None in
  fail_flow_run_on_exception (rt := Demo.runtime) "r1"
    (Some "Failed to execute flow: {exc}") DemoRun.boom w
  = (Raise FlowRun.missing_argument,
     set_trace w [Graphql (flow_run_by_pk "r1");
                  QueryForTaskRuns (static_tasks_of "r1") true]).
Proof. vm_compute. reflexivity. Qed.

(** ** [execute_flow_run] *)

Lemma with_context_run {A} entries (body : SE World A) w r w' :
  body (set_context w (entries (context w))) = (r, w') ->
  with_context entries body w = (r, set_context w' (context w)).
Proof. intros Hbody. unfold with_context. by rewrite Hbody. Qed.

(** C6, on the code.  [execute_flow_run] never returns, since its first
    statement builds the run with [from_flow_run_id].  And on a run without
    run configuration whose environment sets up and executes the flow, the
    execution stage raises [UnboundLocalError] at the log line that reads
    [flow_state], before the refresh of the run. *)
Theorem execute_flow_run_legacy_raises {rt : PyRuntime} {co : Collaborators} flow_run_id
    flow_run flow run_kwargs w w1 w2 :
  FlowRun.flow_run_config flow_run = None ->
  environment_setup (Flow.environment flow) flow
    (set_context w (set_ctx_flow_run_id (context w) (Some flow_run_id))) = (Return tt, w1) ->
  environment_execute (Flow.environment flow) flow w1 = (Return tt, w2) ->
  (exists e,
     run_flow flow_run_id flow_run flow run_kwargs w = (Raise e, set_context w2 (context w))
     /\ exc_class e = UnboundLocalError)
  /\ (forall flow' kwargs w0, exists e w',
        execute_flow_run flow_run_id flow' kwargs w0 = (Raise e, w')
        /\ (exc_class e = TypeError \/ exc_class e = ValueError)
        /\ only_read w0 w').
Proof.
  intros Hcfg Hsetup Hexec. split.
  - eexists. unfold run_flow. unfold bind at 1.
    erewrite with_context_run.
    2: { apply guard_return. rewrite Hcfg. unfold bind. rewrite Hsetup, Hexec.
         reflexivity. }
    split; reflexivity.
  - intros flow' kwargs w0.
    destruct (from_flow_run_id_raises flow_run_id true None w0) as (e & w' & Hread & He & Hro).
    exists e, w'. unfold execute_flow_run. unfold bind at 1. by rewrite Hread.
Qed.

Lemma execute_flow_run_legacy_raises_witness :
  let self := FlowRun.__init__ "r1" "run" "f1" "flow" None None Scheduled None in
  let w := DemoRun.remote Scheduled None in
  (exists e w',
     run_flow (rt := Demo.runtime) (co := DemoRun.collaborators) "r1" self DemoRun.flow
       DemoRun.no_kwargs w = (Raise e, w')
     /\ exc_class e = UnboundLocalError)
  /\ (exists e w',
        execute_flow_run (rt := Demo.runtime) (co := DemoRun.collaborators) "r1"
          (Some DemoRun.flow) DemoRun.no_kwargs w = (Raise e, w')
        /\ (exc_class e = TypeError \/ exc_class e = ValueError)).
Proof.
  intros self w.
  destruct (execute_flow_run_legacy_raises (rt := Demo.runtime) (co := DemoRun.collaborators)
              "r1" self DemoRun.flow DemoRun.no_kwargs w _ _ eq_refl eq_refl eq_refl)
    as [(e & Hrun & Hclass) Hentry].
  split.
  - exists e. eexists. split; [exact Hrun | exact Hclass].
  - destruct (Hentry (Some DemoRun.flow) DemoRun.no_kwargs w) as (e' & w' & Hexec & He & _).
    exists e', w'. split; [exact Hexec | exact He].
Defined.

(** The failing input of C6, evaluated: the environment has run the flow (the
    remote run is in [Success]) and the stage raises instead of returning. *)
Example run_flow_legacy_evaluated :
  let self := FlowRun.__init__ "r1" "run" "f1" "flow" None None Scheduled None in
  let w := DemoRun.remote Scheduled None in
  run_flow (rt := Demo.runtime) (co := DemoRun.collaborators) "r1" self DemoRun.flow
    DemoRun.no_kwargs w
  = (Raise {| exc_class := UnboundLocalError;
              exc_repr := "local variable 'flow_state' referenced before assignment" |},
     set_trace
       (set_flow_run_table w {[ "r1" := DemoRun.flow_row Success None None ]})
       [SetFlowRunState "r1" Success]).
Proof. vm_compute. reflexivity. Qed.

Example execute_flow_run_legacy_evaluated :
  let w := DemoRun.remote Scheduled None in
  execute_flow_run (rt := Demo.runtime) (co := DemoRun.collaborators) "r1"
    (Some DemoRun.flow) DemoRun.no_kwargs w
  = (Raise FlowRun.missing_argument,
     set_trace w [Graphql (flow_run_by_pk "r1");
                  QueryForTaskRuns (static_tasks_of "r1") true]).
Proof. vm_compute. reflexivity. Qed.

(** ** The context merge *)

Lemma foldl_insert_union (vals : string -> PyVal) names (X A : gmap string PyVal) :
  foldl (fun m name => <[name := vals name]> m) (X ∪ A) names =
  foldl (fun m name => <[name := vals name]> m) X names ∪ A.
Proof.
  revert X. induction names as [|name names IH]; intros X; simpl; [done|].
  by rewrite insert_union_l, IH.
Qed.

Lemma load_secrets_loop {rt : PyRuntime} {co : Collaborators} flow_run_id vals names :
  (forall name w, name ∈ names ->
     exists w', secret_run name w = (Return (vals name), w') /\ same_objects w w') ->
  forall la X w,
    secrets_heap w !! la = Some X ->
    exists w',
      for_each names (fun secret =>
        fail_flow_run_on_exception flow_run_id
          (Some ("Failed to load flow secret " ++ str_repr secret ++ ": {exc}"))
          (let* v := secret_run secret in setitem_secret la secret v)) w = (Return tt, w')
      /\ secrets_heap w' =
         <[la := foldl (fun m name => <[name := vals name]> m) X names]> (secrets_heap w)
      /\ context_heap w' = context_heap w
      /\ context w' = context w.
Proof.
  induction names as [|name names IH]; intros Hres la X w HX.
  - exists w. simpl. unfold ret. split; [done|]. by rewrite insert_id.
  - destruct (Hres name w) as (w1 & Hrun & Hctx & Hsec & Hch); [by left|].
    set (w2 := set_secrets_heap w1 (<[la := <[name := vals name]> X]> (secrets_heap w1))).
    destruct (IH (fun n w0 Hn => Hres n w0 (list_elem_of_further _ _ _ Hn))
                la (<[name := vals name]> X) w2)
      as (w' & Hloop & Hheap & Hch' & Hctx').
    { unfold w2. simpl. by rewrite lookup_insert_eq. }
    exists w'. cbn [for_each]. unfold bind at 1.
    rewrite (guard_return _ _ _ _ tt w2).
    2: { unfold bind. rewrite Hrun. unfold setitem_secret, secrets_at, w2.
         rewrite Hsec, HX. reflexivity. }
    rewrite Hloop. split; [done|].
    rewrite Hheap, Hch', Hctx'. unfold w2. simpl.
    by rewrite Hsec, insert_insert_eq.
Qed.

Lemma load_secrets_spec {rt : PyRuntime} {co : Collaborators} flow_run_id flow_run vals w :
  (forall name w, name ∈ declared_secrets flow_run ->
     exists w', secret_run name w = (Return (vals name), w') /\ same_objects w w') ->
  (forall l, ctx_secrets (context w) = Some l -> l ∈ dom (secrets_heap w)) ->
  exists la w',
    load_secrets flow_run_id flow_run w = (Return la, w')
    /\ secrets_heap w' =
       <[la := storage_secrets (declared_secrets flow_run) vals ∪ ambient_secrets w]>
         (secrets_heap w)
    /\ context_heap w' = context_heap w
    /\ context w' = context w
    /\ match ctx_secrets (context w) with
       | Some l => la = l
       | None => la ∉ dom (secrets_heap w)
       end.
Proof.
  intros Hres Halloc.
  unfold storage_secrets. rewrite <- foldl_insert_union, (left_id_L ∅ (∪)).
  unfold load_secrets, ambient_secrets, declared_secrets in *. unfold bind at 1.
  destruct (ctx_secrets (context w)) as [l|] eqn:Hamb.
  - destruct (proj1 (elem_of_dom _ _) (Halloc l eq_refl)) as [X HX]. unfold ret at 1.
    unfold secrets_at. rewrite HX. simpl.
    destruct (FlowRun.flow_storage flow_run) as [st|].
    + destruct (load_secrets_loop flow_run_id vals (Storage.secrets st) Hres l X w HX)
        as (w' & Hloop & Hheap & Hch & Hctx).
      exists l, w'. unfold bind at 1. rewrite Hloop. done.
    + exists l, w. unfold ret. simpl. by rewrite insert_id.
  - unfold new_secrets at 1.
    set (la := fresh (dom (secrets_heap w))).
    set (w1 := set_secrets_heap w _).
    assert (la ∉ dom (secrets_heap w)) as Hfresh by apply is_fresh.
    destruct (FlowRun.flow_storage flow_run) as [st|].
    + destruct (load_secrets_loop flow_run_id vals (Storage.secrets st) Hres la ∅ w1)
        as (w' & Hloop & Hheap & Hch & Hctx).
      { unfold w1. simpl. by rewrite lookup_insert_eq. }
      exists la, w'. unfold bind at 1. rewrite Hloop. split; [done|].
      rewrite Hheap, Hch, Hctx. unfold w1. simpl. by rewrite insert_insert_eq.
    + exists la, w1. unfold ret. done.
Qed.

(** With a run configuration, the execution stage hands the flow and the run
    options to the engine, under the ambient context extended with the run id. *)
Lemma run_flow_engine {rt : PyRuntime} {co : Collaborators} flow_run_id flow_run flow run_kwargs
    cfg flow_state w w' :
  FlowRun.flow_run_config flow_run = Some cfg ->
  runner_run flow run_kwargs
    (set_context w (set_ctx_flow_run_id (context w) (Some flow_run_id)))
    = (Return flow_state, w') ->
  run_flow flow_run_id flow_run flow run_kwargs w
  = FlowRun.update flow_run (set_context w' (context w)).
Proof.
  intros Hcfg Hrun. unfold run_flow. unfold bind at 1.
  erewrite with_context_run.
  2: { apply guard_return. rewrite Hcfg. unfold bind. rewrite Hrun. reflexivity. }
  reflexivity.
Qed.

(** C7, on the code.  [execute_flow_run] never reaches the context merge: its
    first statement, [FlowRun.from_flow_run_id], raises on every input (the
    class is called without [flow_id]), and what the call raises is that
    error, whatever the provider, the loader, the engine and the environment
    are.  No secret is loaded and no options are copied or merged: every
    dictionary, the ambient context and the remote tables are as they were,
    no dictionary has been created, and the engine has not been run. *)
Theorem execute_flow_run_never_merges {rt : PyRuntime} {co : Collaborators} flow_run_id
    flow kwargs w :
  exists e w',
    execute_flow_run flow_run_id flow kwargs w = (Raise e, w')
    /\ FlowRun.from_flow_run_id flow_run_id true None w = (Raise e, w')
    /\ (exc_class e = TypeError \/ exc_class e = ValueError)
    /\ (forall co' : Collaborators,
          execute_flow_run (co := co') flow_run_id flow kwargs w = (Raise e, w'))
    /\ only_read w w'
    /\ (forall flow_run row rows,
          graphql_has_data w = true ->
          flow_run_table w !! flow_run_id = Some flow_run ->
          TaskRun.select (static_tasks_of flow_run_id) (task_run_table w) = row :: rows ->
          e = FlowRun.missing_argument).
Proof.
  destruct (from_flow_run_id_raises flow_run_id true None w) as (e & w' & Hread & He & Hro).
  exists e, w'.
  assert (forall co' : Collaborators,
            execute_flow_run (co := co') flow_run_id flow kwargs w = (Raise e, w')) as Hany.
  { intros co'. unfold execute_flow_run. unfold bind at 1. by rewrite Hread. }
  split; [apply Hany|]. split; [exact Hread|]. split; [exact He|].
  split; [exact Hany|]. split; [exact Hro|].
  intros flow_run row rows Hdata Hrun Hrows.
  rewrite (from_flow_run_id_missing_flow_id _ _ _ _ _ Hdata Hrun Hrows) in Hread.
  by injection Hread as <- _.
Qed.

(** The scenario of C7 at the entry point: the ambient secrets are [{A: 1}],
    the storage of the remote run declares "B", the caller passes the secrets
    [{B: 3, C: 4}].  The call raises the [TypeError] of the class call after
    the two reads of [from_flow_run_id]; the dictionaries are untouched and
    no merged secrets exist. *)
Example execute_flow_run_scenario_evaluated :
  let w := DemoSecrets.remote in
  execute_flow_run (rt := Demo.runtime) (co := DemoRun.collaborators) "r1"
    (Some DemoRun.flow) DemoSecrets.kwargs w
  = (Raise FlowRun.missing_argument,
     set_trace w [Graphql (flow_run_by_pk "r1");
                  QueryForTaskRuns (static_tasks_of "r1") true]).
Proof. vm_compute. reflexivity. Qed.

(** The stages the call does not reach, run on a run object built directly
    ([FlowRun(...)]): ambient [{A: 1}], storage [{B: 2}], caller
    [{B: 3, C: 4}] give the run options a context (a new dictionary, at
    address 2) whose secrets (a new dictionary, at address 4) are
    [{A: 1, B: 3, C: 4}]; the caller's context and secrets are untouched. *)
Example merged_secrets_scenario :
  let '(r, w') :=
    (let* secrets := load_secrets (rt := Demo.runtime) (co := DemoRun.collaborators)
                       "r1" DemoSecrets.flow_run in
     merge_context (rt := Demo.runtime) secrets DemoSecrets.kwargs DemoRun.flow)
      DemoSecrets.w in
  r = Return {| rk_context := Some (IsDict 2%positive);
                rk_executor := Some (PObj "LocalExecutor"); rk_rest := ∅ |}
  /\ (context_heap w' !! 2%positive ≫= cd_secrets) = Some (IsDict 4%positive)
  /\ secrets_heap w' !! 4%positive
     = Some {[ "A" := PInt 1; "B" := PInt 3; "C" := PInt 4 ]}
  /\ context_heap w' !! 1%positive = context_heap DemoSecrets.w !! 1%positive
  /\ secrets_heap w' !! 2%positive = Some {[ "B" := PInt 3; "C" := PInt 4 ]}
  /\ secrets_heap w' !! 1%positive = Some {[ "A" := PInt 1; "B" := PInt 2 ]}.
Proof. vm_compute. repeat split; reflexivity. Qed.

(** * Further properties *)

(** ** The cache: construction and insertion *)

Lemma add_task_run_twice self r :
  FlowRun._add_task_run (FlowRun._add_task_run self r) r = FlowRun._add_task_run self r.
Proof.
  unfold FlowRun._add_task_run at 1. rewrite ids_of_slug_add, decide_True by done.
  unfold FlowRun._add_task_run. simpl. f_equal.
  - by rewrite insert_insert_eq.
  - rewrite insert_insert_eq. f_equal.
    by rewrite <- (assoc_L (∪)), (idemp_L (∪)).
Qed.

Lemma add_task_run_comm self a b :
  TaskRun.task_run_id a <> TaskRun.task_run_id b ->
  FlowRun._add_task_run (FlowRun._add_task_run self a) b
  = FlowRun._add_task_run (FlowRun._add_task_run self b) a.
Proof.
  intros Hid.
  unfold FlowRun._add_task_run at 1 3. rewrite !ids_of_slug_add.
  unfold FlowRun._add_task_run. simpl. f_equal.
  - by apply insert_insert_ne.
  - destruct (decide (TaskRun.task_slug a = TaskRun.task_slug b)) as [Hs|Hs].
    + rewrite decide_True by done. rewrite Hs, !insert_insert_eq. f_equal.
      rewrite <- !(assoc_L (∪)). f_equal. apply (comm_L (∪)).
    + rewrite decide_False by done. by apply insert_insert_ne.
Qed.

Lemma foldl_add_perm task_runs task_runs' :
  task_runs ≡ₚ task_runs' ->
  NoDup (TaskRun.task_run_id <$> task_runs) ->
  forall self,
    foldl FlowRun._add_task_run self task_runs
    = foldl FlowRun._add_task_run self task_runs'.
Proof.
  induction 1 as [|r l l' Hperm IH|a b l|l l' l'' Hperm IH Hperm' IH']; intros Hnd self.
  - reflexivity.
  - simpl. apply IH. by apply NoDup_cons in Hnd as [_ Hnd].
  - simpl. f_equal. apply add_task_run_comm.
    rewrite !fmap_cons in Hnd. apply NoDup_cons in Hnd as [Hin _].
    intros Heq. apply Hin. rewrite Heq. by left.
  - rewrite IH by done. apply IH'. by rewrite <- Hperm.
Qed.

Lemma foldl_add_lookup task_runs :
  forall self id,
    FlowRun._task_runs (foldl FlowRun._add_task_run self task_runs) !! id
    = match last (filter (fun r => TaskRun.task_run_id r = id) task_runs) with
      | Some r => Some r
      | None => FlowRun._task_runs self !! id
      end.
Proof.
  induction task_runs as [|r task_runs IH]; intros self id; simpl; [done|].
  rewrite IH, filter_cons. simpl. rewrite lookup_insert.
  destruct (decide (TaskRun.task_run_id r = id)) as [Hid|Hid].
  - rewrite last_cons. by destruct (last _).
  - done.
Qed.

Lemma foldl_add_ids task_runs :
  forall self task_slug,
    FlowRun.ids_of_slug (foldl FlowRun._add_task_run self task_runs) task_slug
    = FlowRun.ids_of_slug self task_slug
      ∪ list_to_set (TaskRun.task_run_id
                       <$> filter (fun r => TaskRun.task_slug r = task_slug) task_runs).
Proof.
  induction task_runs as [|r task_runs IH]; intros self task_slug; simpl.
  - by rewrite (right_id_L ∅ (∪)).
  - rewrite IH, ids_of_slug_add, filter_cons.
    destruct (decide (TaskRun.task_slug r = task_slug)) as [Hs|Hs]; [|done].
    simpl. by rewrite (assoc_L (∪)).
Qed.

Lemma foldl_add_fields task_runs :
  forall self,
    let self' := foldl FlowRun._add_task_run self task_runs in
    FlowRun.flow_run_id self' = FlowRun.flow_run_id self
    /\ FlowRun.state self' = FlowRun.state self
    /\ FlowRun._task_run_ids self' = FlowRun._task_run_ids self.
Proof.
  induction task_runs as [|r task_runs IH]; intros self; simpl; [done|].
  destruct (IH (FlowRun._add_task_run self r)) as (-> & -> & ->). done.
Qed.

(** X1. Insertion and lookup: after a record is added to the cache, the cache
    holds it under its id and its id is in the set of its slug; the records
    under other ids and the sets of other slugs are as before; adding the
    same record again changes nothing. *)
Theorem add_task_run_round_trip self r :
  let self' := FlowRun._add_task_run self r in
  FlowRun._task_runs self' !! TaskRun.task_run_id r = Some r
  /\ TaskRun.task_run_id r ∈ FlowRun.ids_of_slug self' (TaskRun.task_slug r)
  /\ (forall id, id <> TaskRun.task_run_id r ->
        FlowRun._task_runs self' !! id = FlowRun._task_runs self !! id)
  /\ (forall task_slug, task_slug <> TaskRun.task_slug r ->
        FlowRun.ids_of_slug self' task_slug = FlowRun.ids_of_slug self task_slug)
  /\ FlowRun._add_task_run self' r = self'.
Proof.
  intros self'. unfold self'. split; [|split; [|split; [|split]]].
  - simpl. by rewrite lookup_insert_eq.
  - rewrite ids_of_slug_add, decide_True by done.
    apply elem_of_union. right. by apply elem_of_singleton.
  - intros id Hid. simpl. by rewrite lookup_insert_ne.
  - intros task_slug Hs. rewrite ids_of_slug_add. by rewrite decide_False.
  - apply add_task_run_twice.
Qed.

(** X2. What the constructor caches: under each id the last record of
    [task_runs] with that id (nothing when there is none), and for each slug
    the ids of all the records of [task_runs] with that slug; the memo of the
    ids is unset; passing no task runs is passing the empty list. *)
Theorem init_cache_contents flow_run_id name flow_id flow_name flow_storage flow_run_config
    state task_runs :
  let self := FlowRun.__init__ flow_run_id name flow_id flow_name flow_storage
                flow_run_config state (Some task_runs) in
  (forall id,
     FlowRun._task_runs self !! id
     = last (filter (fun r => TaskRun.task_run_id r = id) task_runs))
  /\ (forall task_slug,
        FlowRun.ids_of_slug self task_slug
        = list_to_set (TaskRun.task_run_id
                         <$> filter (fun r => TaskRun.task_slug r = task_slug) task_runs))
  /\ FlowRun._task_run_ids self = None
  /\ FlowRun.__init__ flow_run_id name flow_id flow_name flow_storage flow_run_config
       state None
     = FlowRun.__init__ flow_run_id name flow_id flow_name flow_storage flow_run_config
         state (Some []).
Proof.
  intros self. unfold self, FlowRun.__init__. split; [|split; [|split]].
  - intros id. rewrite foldl_add_lookup. simpl. rewrite lookup_empty.
    by destruct (last _).
  - intros task_slug. rewrite foldl_add_ids. unfold FlowRun.ids_of_slug at 1. simpl.
    rewrite lookup_empty. simpl. by rewrite (left_id_L ∅ (∪)).
  - by destruct (foldl_add_fields task_runs
                   (FlowRun.Build_t flow_run_id name flow_id flow_name flow_storage
                      flow_run_config state None ∅ ∅)) as (_ & _ & ->).
  - reflexivity.
Qed.

(** X3. The cache the constructor builds does not depend on the order of the
    task runs it is given, when their ids are distinct. *)
Theorem init_order_irrelevant flow_run_id name flow_id flow_name flow_storage
    flow_run_config state task_runs task_runs' :
  NoDup (TaskRun.task_run_id <$> task_runs) ->
  task_runs ≡ₚ task_runs' ->
  FlowRun.__init__ flow_run_id name flow_id flow_name flow_storage flow_run_config state
    (Some task_runs)
  = FlowRun.__init__ flow_run_id name flow_id flow_name flow_storage flow_run_config state
      (Some task_runs').
Proof.
  intros Hnd Hperm. unfold FlowRun.__init__. by apply foldl_add_perm.
Qed.

Lemma init_order_irrelevant_witness :
  Demo.new_run Running [Demo.base_x; Demo.child_x]
  = Demo.new_run Running [Demo.child_x; Demo.base_x].
Proof.
  apply (init_order_irrelevant "r1" "run" "f1" "flow" None None Running
           [Demo.base_x; Demo.child_x] [Demo.child_x; Demo.base_x]).
  - apply (bool_decide_unpack _). vm_compute. exact I.
  - apply perm_swap.
Defined.

(** ** The cache only grows *)

Lemma cache_grows_refl self : cache_grows self self.
Proof. split; [done|]. intros task_slug. done. Qed.

Lemma cache_grows_trans self1 self2 self3 :
  cache_grows self1 self2 -> cache_grows self2 self3 -> cache_grows self1 self3.
Proof.
  intros [Hd1 Hs1] [Hd2 Hs2]. split; [by etrans|].
  intros task_slug. etrans; [apply Hs1 | apply Hs2].
Qed.

Lemma cache_grows_add self r : cache_grows self (FlowRun._add_task_run self r).
Proof.
  split.
  - simpl. rewrite dom_insert. apply union_subseteq_r.
  - intros task_slug. rewrite ids_of_slug_add. case_decide; [|done].
    apply union_subseteq_l.
Qed.

Lemma cache_grows_foldl task_runs :
  forall self, cache_grows self (foldl FlowRun._add_task_run self task_runs).
Proof.
  induction task_runs as [|r task_runs IH]; intros self; simpl.
  - apply cache_grows_refl.
  - eapply cache_grows_trans; [apply cache_grows_add | apply IH].
Qed.

(** Whatever a call of [get] does, the object is as before or has gained one
    record. *)
Lemma get_adds {rt : PyRuntime} task task_slug task_run_id self w res self' w' :
  FlowRun.get task task_slug task_run_id (self, w) = (res, (self', w')) ->
  self' = self \/ exists r, self' = FlowRun._add_task_run self r.
Proof.
  unfold FlowRun.get. unfold bind at 1.
  destruct (FlowRun.lookup_slug task task_slug) as [oslug|e]; [|intros [= <- <- <-]; by left].
  destruct task_run_id as [id|].
  - unfold bind, FlowRun.get_self.
    destruct (FlowRun._task_runs self !! id) as [r|] eqn:Hr; simpl.
    + destruct oslug as [s|]; [destruct (negb _)|]; simpl; intros [= <- <- <-]; eauto.
    + unfold TaskRun.from_task_run_id, bind, remote_call. simpl.
      destruct (List.find _ _) as [row|]; simpl.
      * destruct oslug as [s|]; [destruct (negb _)|]; simpl; intros [= <- <- <-]; eauto.
      * intros [= <- <- <-]. by left.
  - destruct oslug as [s|]; [|intros [= <- <- <-]; by left].
    intros Hget.
    assert (forall res self' w',
      (let* result := FlowRun.liftW (TaskRun.from_task_slug s (FlowRun.flow_run_id self)) in
       FlowRun.modify_self (fun self => FlowRun._add_task_run self result);; ret result)
        (self, w) = (res, (self', w')) ->
      self' = self \/ exists r, self' = FlowRun._add_task_run self r) as Hfetch.
    { intros res0 self0 w0 Hf.
      destruct (fetch_by_slug_cases _ _ _ _ _ _ Hf)
        as (ev & _ & _ & [(r & _ & ->)|(e & _ & ->)]); eauto. }
    revert Hget. unfold bind at 1, FlowRun.get_self. unfold bind at 1.
    destruct (FlowRun._task_slug_to_task_run_ids self !! s) as [ids|].
    + destruct (1 <? size ids)%nat.
      * destruct (FlowRun.find_base _ _) as [[r|]|e].
        -- intros [= <- <- <-]. by left.
        -- apply Hfetch.
        -- intros [= <- <- <-]. by left.
      * apply Hfetch.
    + apply Hfetch.
Qed.

(** X4. Nothing is ever evicted: after any call of [get], any step of
    [iter_mapped] and any call of [get_all], whatever it returns or raises,
    every id that was cached is still cached and every id in the set of a
    slug is still in that set. *)
Theorem cache_only_grows {rt : PyRuntime} self w :
  (forall task task_slug task_run_id,
     cache_grows self (fst (snd (FlowRun.get task task_slug task_run_id (self, w)))))
  /\ (forall g, cache_grows self (fst (snd (FlowRun.__next__ g (self, w)))))
  /\ cache_grows self (fst (snd (FlowRun.get_all (self, w)))).
Proof.
  split; [|split].
  - intros task task_slug task_run_id.
    destruct (FlowRun.get task task_slug task_run_id (self, w)) as [res [self' w']] eqn:Hget.
    destruct (get_adds _ _ _ _ _ _ _ _ Hget) as [->|[r ->]]; simpl.
    + apply cache_grows_refl.
    + apply cache_grows_add.
  - intros g.
    destruct (FlowRun.__next__ g (self, w)) as [[nxt g'] [self' w']] eqn:Hnext.
    destruct (next_cases _ _ _ _ _ _ _ Hnext) as [->|(r & _ & ->)]; simpl.
    + apply cache_grows_refl.
    + apply cache_grows_add.
  - destruct (FlowRun.get_all (self, w)) as [res [self' w']] eqn:Hall.
    destruct (get_all_cases _ _ _ _ _ Hall) as (task_runs & ids & ->). simpl.
    eapply cache_grows_trans; [|apply cache_grows_foldl].
    exact (cache_grows_refl self).
Qed.

(** ** Lookups *)

Lemma lookup_slug_goes_by task task_slug s :
  goes_by task task_slug s -> FlowRun.lookup_slug (Some task) task_slug = Return (Some s).
Proof.
  intros (Hslug & Hne & Hts). unfold FlowRun.lookup_slug. rewrite Hslug. simpl.
  assert (String.eqb s "" = false) as Hs by (by apply String.eqb_neq).
  rewrite Hs. simpl.
  destruct Hts as [-> | ->]; simpl; [done|].
  by rewrite String.eqb_refl, Hs.
Qed.

Lemma lookup_slug_refuses task task_slug :
  (forall s, ~ goes_by task task_slug s) ->
  exists e, FlowRun.lookup_slug (Some task) task_slug = Raise e /\ exc_class e = ValueError.
Proof.
  intros Hno. unfold FlowRun.lookup_slug.
  destruct (negb (truthy (slug task)) && negb (truthy task_slug)) eqn:H1;
    [by eexists|].
  destruct (bool_decide (is_Some task_slug) && opt_str_ne task_slug (slug task)) eqn:H2;
    [by eexists|].
  exfalso.
  destruct task as [[s|]]; simpl in *.
  - destruct task_slug as [x|]; simpl in *.
    + apply negb_false_iff, String.eqb_eq in H2 as ->.
      destruct (String.eqb s "") eqn:Hs; simpl in H1; [discriminate|].
      apply (Hno s). split; [done|]. split; [by apply String.eqb_neq | by right].
    + destruct (String.eqb s "") eqn:Hs; simpl in H1; [discriminate|].
      apply (Hno s). split; [done|]. split; [by apply String.eqb_neq | by left].
  - destruct task_slug as [x|]; simpl in *; discriminate.
Qed.

(** X5. Passing a task to [get] is passing its slug: when the task carries a
    non-empty slug and the slug passed beside it, if any, is the same, the
    lookup is the lookup by that slug.  In every other case (the task has no
    slug or an empty one, or the slug passed differs, even when the task has
    none) the call raises [ValueError] before anything else: the object and
    the world are as they were. *)
Theorem get_task_goes_by_its_slug {rt : PyRuntime} task task_slug task_run_id self w :
  (forall s, goes_by task task_slug s ->
     FlowRun.get (Some task) task_slug task_run_id (self, w)
     = FlowRun.get None (Some s) task_run_id (self, w))
  /\ ((forall s, ~ goes_by task task_slug s) ->
      exists e,
        FlowRun.get (Some task) task_slug task_run_id (self, w) = (Raise e, (self, w))
        /\ exc_class e = ValueError).
Proof.
  split.
  - intros s Hgo. unfold FlowRun.get. unfold bind at 1 3.
    by rewrite (lookup_slug_goes_by _ _ _ Hgo).
  - intros Hno. destruct (lookup_slug_refuses _ _ Hno) as (e & He & Hclass).
    exists e. unfold FlowRun.get. unfold bind at 1. by rewrite He.
Qed.

Example get_task_goes_by_its_slug_evaluated :
  let st := (Demo.new_run Running [Demo.base_x; Demo.child_x], Demo.world ∅ []) in
  FlowRun.get (rt := Demo.runtime) (Some {| slug := Some "x" |}) None None st
  = FlowRun.get (rt := Demo.runtime) None (Some "x") None st
  /\ (exists text,
        FlowRun.get (rt := Demo.runtime) (Some {| slug := None |}) (Some "x") None st
        = (Raise {| exc_class := ValueError; exc_repr := text |}, st)).
Proof. split; [reflexivity|]. eexists. reflexivity. Qed.

(** X6. Fetch, then hit: a lookup by an id that is not cached, with no slug
    or with the slug of the record the remote store holds under the id, makes
    one remote call, returns that record and caches it; the same lookup made
    again, in whatever state the remote store is by then, returns the same
    record without a remote call. *)
Theorem get_by_id_fetch_then_hit {rt : PyRuntime} self w task task_slug o id row :
  FlowRun.lookup_slug task task_slug = Return o ->
  o = None \/ o = Some (row_task_slug row) ->
  FlowRun._task_runs self !! id = None ->
  List.find (fun row => String.eqb (row_id row) id) (task_run_table w) = Some row ->
  let r := TaskRun.from_task_run_data row in
  let self1 := FlowRun._add_task_run self r in
  FlowRun.get task task_slug (Some id) (self, w)
  = (Return r, (self1, set_trace w (trace w ++ [FromTaskRunId id])%list))
  /\ FlowRun._task_runs self1 !! id = Some r
  /\ forall w2, FlowRun.get task task_slug (Some id) (self1, w2) = (Return r, (self1, w2)).
Proof.
  intros Hslug Ho Hmiss Hfind r self1.
  assert (TaskRun.task_run_id r = id) as Hid.
  { apply List.find_some in Hfind as [_ Heq]. by apply String.eqb_eq in Heq. }
  assert (FlowRun._task_runs self1 !! id = Some r) as Hhit.
  { unfold self1. simpl. rewrite <- Hid. by rewrite lookup_insert_eq. }
  split; [|split; [exact Hhit|]].
  - unfold FlowRun.get. unfold bind at 1. rewrite Hslug.
    unfold bind, FlowRun.get_self. rewrite Hmiss.
    unfold FlowRun.liftW, TaskRun.from_task_run_id, bind, remote_call. simpl.
    rewrite Hfind. simpl.
    destruct Ho as [-> | ->]; simpl; rewrite ?String.eqb_refl; reflexivity.
  - intros w2.
    assert (FlowRun._add_task_run self1 r = self1) as Hidem by apply add_task_run_twice.
    unfold FlowRun.get. unfold bind at 1. rewrite Hslug.
    unfold bind, FlowRun.get_self, FlowRun.modify_self, ret. rewrite Hhit.
    change (TaskRun.task_slug r) with (row_task_slug row).
    destruct Ho as [-> | ->]; [|rewrite String.eqb_refl]; cbn [negb]; by rewrite Hidem.
Qed.

Lemma get_by_id_fetch_then_hit_witness :
  let self := Demo.new_run Running [] in
  let w := Demo.world ∅ [Demo.row "i2" "x" 0 Success] in
  let self1 := FlowRun._add_task_run self Demo.child_x in
  FlowRun.get (rt := Demo.runtime) None (Some "x") (Some "i2") (self, w)
  = (Return Demo.child_x, (self1, set_trace w [FromTaskRunId "i2"]))
  /\ FlowRun._task_runs self1 !! "i2" = Some Demo.child_x
  /\ forall w2,
       FlowRun.get (rt := Demo.runtime) None (Some "x") (Some "i2") (self1, w2)
       = (Return Demo.child_x, (self1, w2)).
Proof.
  intros self w self1.
  exact (get_by_id_fetch_then_hit (rt := Demo.runtime) self w None (Some "x") (Some "x")
           "i2" (Demo.row "i2" "x" 0 Success) eq_refl (or_intror eq_refl) eq_refl eq_refl).
Defined.

(** X7. A lookup by id that fails leaves the cache as it was.  When the slug
    the lookup goes by is not the slug of the record found under the id, the
    call raises [ValueError]: without a remote call when the record was
    cached; after the fetch, whose result is then not cached, when it was
    not.  When the id is neither cached nor known to the remote store, the
    call raises after the one fetch. *)
Theorem get_by_id_failure_keeps_cache {rt : PyRuntime} self w task task_slug id :
  (forall s r,
     FlowRun.lookup_slug task task_slug = Return (Some s) ->
     FlowRun._task_runs self !! id = Some r ->
     TaskRun.task_slug r <> s ->
     exists e,
       FlowRun.get task task_slug (Some id) (self, w) = (Raise e, (self, w))
       /\ exc_class e = ValueError)
  /\ (forall s row,
        FlowRun.lookup_slug task task_slug = Return (Some s) ->
        FlowRun._task_runs self !! id = None ->
        List.find (fun row => String.eqb (row_id row) id) (task_run_table w) = Some row ->
        row_task_slug row <> s ->
        exists e,
          FlowRun.get task task_slug (Some id) (self, w)
          = (Raise e, (self, set_trace w (trace w ++ [FromTaskRunId id])%list))
          /\ exc_class e = ValueError)
  /\ (forall o,
        FlowRun.lookup_slug task task_slug = Return o ->
        FlowRun._task_runs self !! id = None ->
        List.find (fun row => String.eqb (row_id row) id) (task_run_table w) = None ->
        exists e,
          FlowRun.get task task_slug (Some id) (self, w)
          = (Raise e, (self, set_trace w (trace w ++ [FromTaskRunId id])%list))).
Proof.
  split; [|split].
  - intros s r Hslug Hr Hne. eexists.
    unfold FlowRun.get. unfold bind at 1. rewrite Hslug.
    unfold bind, FlowRun.get_self. rewrite Hr. simpl.
    assert (String.eqb (TaskRun.task_slug r) s = false) as -> by (by apply String.eqb_neq).
    simpl. split; reflexivity.
  - intros s row Hslug Hmiss Hfind Hne. eexists.
    unfold FlowRun.get. unfold bind at 1. rewrite Hslug.
    unfold bind, FlowRun.get_self. rewrite Hmiss.
    unfold FlowRun.liftW, TaskRun.from_task_run_id, bind, remote_call. simpl.
    rewrite Hfind. simpl.
    assert (String.eqb (row_task_slug row) s = false) as -> by (by apply String.eqb_neq).
    simpl. split; reflexivity.
  - intros o Hslug Hmiss Hfind. eexists.
    unfold FlowRun.get. unfold bind at 1. rewrite Hslug.
    unfold bind, FlowRun.get_self. rewrite Hmiss.
    unfold FlowRun.liftW, TaskRun.from_task_run_id, bind, remote_call. simpl.
    rewrite Hfind. simpl. reflexivity.
Qed.

(** X8. A lookup by slug is served from the cache for mapped families only:
    when the cache holds fewer than two ids for the slug, even when it holds
    the record of the slug, the lookup makes the remote fetch by slug, and the
    record fetched, when there is one, is cached (in place of the record
    cached under its id, if any) and returned. *)
Theorem get_by_slug_small_family_fetches {rt : PyRuntime} self w task task_slug s :
  FlowRun.lookup_slug task task_slug = Return (Some s) ->
  (size (FlowRun.ids_of_slug self s) <= 1)%nat ->
  FlowRun.get task task_slug None (self, w)
  = match TaskRun.from_task_slug s (FlowRun.flow_run_id self) w with
    | (Return r, w') => (Return r, (FlowRun._add_task_run self r, w'))
    | (Raise e, w') => (Raise e, (self, w'))
    end
  /\ trace (snd (snd (FlowRun.get task task_slug None (self, w))))
     = (trace w ++ [FromTaskSlug s (FlowRun.flow_run_id self)])%list.
Proof.
  intros Hs Hsize.
  assert (FlowRun.get task task_slug None (self, w)
          = match TaskRun.from_task_slug s (FlowRun.flow_run_id self) w with
            | (Return r, w') => (Return r, (FlowRun._add_task_run self r, w'))
            | (Raise e, w') => (Raise e, (self, w'))
            end) as Hget.
  { rewrite (get_by_slug_unfold _ _ _ _ _ Hs). unfold FlowRun.ids_of_slug in Hsize.
    destruct (FlowRun._task_slug_to_task_run_ids self !! s) as [ids|]; [|done].
    simpl in Hsize.
    assert ((1 <? size ids)%nat = false) as -> by (apply Nat.ltb_ge; lia). done. }
  split; [exact Hget|]. rewrite Hget.
  unfold TaskRun.from_task_slug, bind, remote_call. simpl.
  by destruct (TaskRun.select _ _) as [|row [|row' rows]].
Qed.

Lemma get_by_slug_small_family_fetches_witness :
  let self := Demo.new_run Running [Demo.base_x] in
  let w := Demo.world ∅ [Demo.row "i1" "x" (-1) Mapped] in
  FlowRun._task_runs self !! "i1" = Some Demo.base_x
  /\ trace (snd (snd (FlowRun.get (rt := Demo.runtime) None (Some "x") None (self, w))))
     = [FromTaskSlug "x" "r1"].
Proof.
  intros self w. split; [reflexivity|].
  refine (proj2 (get_by_slug_small_family_fetches (rt := Demo.runtime) self w None
                   (Some "x") "x" eq_refl _)).
  vm_compute. lia.
Defined.

(** ** The ids of the task runs *)

Lemma task_run_ids_query self w :
  memo_usable self = false ->
  FlowRun.task_run_ids (self, w)
  = let w1 := set_trace w
                (trace w ++ [Graphql (task_run_ids_of (FlowRun.flow_run_id self))])%list in
    if graphql_has_data w then
      (Return (remote_ids (FlowRun.flow_run_id self) w),
       (if is_finished (FlowRun.state self)
        then FlowRun.set_task_run_ids self
               (Some (remote_ids (FlowRun.flow_run_id self) w))
        else self, w1))
    else (Raise {| exc_class := TypeError;
                   exc_repr := "'NoneType' object is not iterable" |}, (self, w1)).
Proof.
  intros Hmemo. unfold memo_usable in Hmemo.
  unfold FlowRun.task_run_ids, bind, FlowRun.get_self, FlowRun.liftW,
    FlowRun.modify_self, Client.graphql, bind, remote_call, ret, raise, remote_ids.
  simpl.
  destruct (FlowRun._task_run_ids self) as [[|id ids]|]; [|discriminate|];
    destruct (graphql_has_data w); simpl; try reflexivity;
    by destruct (is_finished (FlowRun.state self)).
Qed.

(** X9. The memo of a finished run: the first call of [task_run_ids] asks the
    remote store once and keeps the answer; when the answer holds an id,
    every later call returns it without a remote call, whatever the remote
    store holds by then. *)
Theorem task_run_ids_memo_of_finished_run self w :
  is_finished (FlowRun.state self) = true ->
  memo_usable self = false ->
  graphql_has_data w = true ->
  let ids := remote_ids (FlowRun.flow_run_id self) w in
  let self1 := FlowRun.set_task_run_ids self (Some ids) in
  FlowRun.task_run_ids (self, w)
  = (Return ids,
     (self1,
      set_trace w
        (trace w ++ [Graphql (task_run_ids_of (FlowRun.flow_run_id self))])%list))
  /\ (ids <> [] ->
      forall w2, FlowRun.task_run_ids (self1, w2) = (Return ids, (self1, w2))).
Proof.
  intros Hfin Hmemo Hdata ids self1. split.
  - rewrite (task_run_ids_query _ _ Hmemo). simpl. by rewrite Hdata, Hfin.
  - intros Hne w2. unfold FlowRun.task_run_ids, bind, FlowRun.get_self, ret. simpl.
    fold ids. by destruct ids.
Qed.

Lemma task_run_ids_memo_of_finished_run_witness :
  let self := Demo.new_run Success [] in
  let w := Demo.world ∅ [Demo.row "i1" "x" (-1) Mapped; Demo.row "i2" "x" 0 Success] in
  let self1 := FlowRun.set_task_run_ids self (Some ["i1"; "i2"]) in
  FlowRun.task_run_ids (self, w)
  = (Return ["i1"; "i2"], (self1, set_trace w [Graphql (task_run_ids_of "r1")]))
  /\ forall w2, FlowRun.task_run_ids (self1, w2) = (Return ["i1"; "i2"], (self1, w2)).
Proof.
  intros self w self1.
  destruct (task_run_ids_memo_of_finished_run self w eq_refl eq_refl eq_refl)
    as [Hfirst Hnext].
  split; [exact Hfirst|]. apply Hnext. discriminate.
Defined.

(** X10. No memo for a run that is not finished, and none that is used for
    an empty answer: on a run that is not finished a call of [task_run_ids]
    asks the remote store and leaves the object as it was, so every call
    asks again; on a finished run without task runs the empty answer is
    kept, but being empty it is not used, so the next call asks again. *)
Theorem task_run_ids_asks_again self w :
  memo_usable self = false ->
  graphql_has_data w = true ->
  let ids := remote_ids (FlowRun.flow_run_id self) w in
  let w1 := set_trace w
              (trace w ++ [Graphql (task_run_ids_of (FlowRun.flow_run_id self))])%list in
  (is_finished (FlowRun.state self) = false ->
   FlowRun.task_run_ids (self, w) = (Return ids, (self, w1)))
  /\ (is_finished (FlowRun.state self) = true -> ids = [] ->
      FlowRun.task_run_ids (self, w)
      = (Return [], (FlowRun.set_task_run_ids self (Some []), w1))
      /\ memo_usable (FlowRun.set_task_run_ids self (Some [])) = false).
Proof.
  intros Hmemo Hdata ids w1.
  pose proof (task_run_ids_query self w Hmemo) as Hq. simpl in Hq. rewrite Hdata in Hq.
  fold ids in Hq. fold w1 in Hq. split.
  - intros Hfin. by rewrite Hfin in Hq.
  - intros Hfin Hids. rewrite Hfin, Hids in Hq. done.
Qed.

Lemma task_run_ids_asks_again_witness :
  let w := Demo.world ∅ [Demo.row "i1" "x" (-1) Mapped] in
  FlowRun.task_run_ids (Demo.new_run Running [], w)
  = (Return ["i1"], (Demo.new_run Running [], set_trace w [Graphql (task_run_ids_of "r1")]))
  /\ memo_usable (FlowRun.set_task_run_ids (Demo.new_run Success []) (Some [])) = false.
Proof.
  intros w. split.
  - exact (proj1 (task_run_ids_asks_again (Demo.new_run Running []) w eq_refl eq_refl)
             eq_refl).
  - exact (proj2 (proj2 (task_run_ids_asks_again (Demo.new_run Success [])
                           (Demo.world ∅ []) eq_refl eq_refl) eq_refl eq_refl)).
Defined.

(** X11. A response without data: the module logs a warning and goes on to
    iterate over the missing list, so [task_run_ids] raises [TypeError]
    after its one remote call and leaves the object as it was; [get_all]
    fails in the same way, before any query for task runs. *)
Theorem task_run_ids_without_data self w :
  memo_usable self = false ->
  graphql_has_data w = false ->
  exists e,
    let w1 := set_trace w
                (trace w ++ [Graphql (task_run_ids_of (FlowRun.flow_run_id self))])%list in
    exc_class e = TypeError
    /\ FlowRun.task_run_ids (self, w) = (Raise e, (self, w1))
    /\ FlowRun.get_all (self, w) = (Raise e, (self, w1)).
Proof.
  intros Hmemo Hdata.
  pose proof (task_run_ids_query self w Hmemo) as Hq. simpl in Hq. rewrite Hdata in Hq.
  eexists. simpl. split; [|split; [exact Hq|]]; [reflexivity|].
  unfold FlowRun.get_all. unfold bind at 1. by rewrite Hq.
Qed.

Lemma task_run_ids_without_data_witness :
  let self := Demo.new_run Success [] in
  let w := set_trace {| flow_run_table := ∅; task_run_table := [];
                        graphql_has_data := false; trace := [];
                        context := empty_context; secrets_heap := ∅;
                        context_heap := ∅ |} [] in
  exists e,
    exc_class e = TypeError
    /\ FlowRun.task_run_ids (self, w)
       = (Raise e, (self, set_trace w [Graphql (task_run_ids_of "r1")])).
Proof.
  intros self w.
  destruct (task_run_ids_without_data self w eq_refl eq_refl) as (e & Hclass & Hids & _).
  exists e. split; [exact Hclass | exact Hids].
Defined.

(** ** Bulk fetch, within the limit *)

(** X12. Within the limit (1000 ids are not too many), [get_all] makes one
    bulk query for the task runs of the run, returns the records of the rows
    the remote store holds for it, in the order of the answer, and adds each
    of them to the cache. *)
Theorem get_all_within_limit self w ids self1 w1 row rows :
  FlowRun.task_run_ids (self, w) = (Return ids, (self1, w1)) ->
  (length ids <= 1000)%nat ->
  TaskRun.select (all_tasks_of (FlowRun.flow_run_id self)) (task_run_table w)
    = row :: rows ->
  let task_runs := TaskRun.from_task_run_data <$> row :: rows in
  FlowRun.get_all (self, w)
  = (Return task_runs,
     (foldl FlowRun._add_task_run self1 task_runs,
      set_trace w1
        (trace w1 ++ [QueryForTaskRuns (all_tasks_of (FlowRun.flow_run_id self)) true])%list)).
Proof.
  intros Hids Hlen Hrows task_runs.
  destruct (task_run_ids_cases _ _ _ _ _ Hids) as (_ & _ & Hid & Hw).
  assert (task_run_table w1 = task_run_table w) as Htab by (by destruct Hw as [-> | ->]).
  unfold FlowRun.get_all. unfold bind at 1. rewrite Hids.
  assert ((1000 <? length ids)%nat = false) as -> by (apply Nat.ltb_ge; lia).
  unfold bind, FlowRun.get_self, FlowRun.liftW, FlowRun.modify_self, ret,
    TaskRun.query_for_task_runs_many, bind, remote_call, ret. simpl.
  rewrite Hid. fold (all_tasks_of (FlowRun.flow_run_id self)).
  rewrite Htab, Hrows. reflexivity.
Qed.

Lemma get_all_within_limit_witness :
  let self := Demo.new_run Running [] in
  let w := Demo.world ∅ [Demo.row "i1" "x" (-1) Mapped; Demo.row "i2" "x" 0 Success] in
  FlowRun.get_all (self, w)
  = (Return [Demo.base_x; Demo.child_x],
     (Demo.new_run Running [Demo.base_x; Demo.child_x],
      set_trace w [Graphql (task_run_ids_of "r1");
                   QueryForTaskRuns (all_tasks_of "r1") true])).
Proof.
  intros self w.
  exact (get_all_within_limit self w ["i1"; "i2"] self
           (set_trace w [Graphql (task_run_ids_of "r1")])
           (Demo.row "i1" "x" (-1) Mapped) [Demo.row "i2" "x" 0 Success]
           eq_refl ltac:(simpl; lia) eq_refl).
Defined.

Lemma get_all_returns self w task_runs self' w' :
  FlowRun.get_all (self, w) = (Return task_runs, (self', w')) ->
  exists ids,
    self' = foldl FlowRun._add_task_run (FlowRun.set_task_run_ids self ids) task_runs.
Proof.
  unfold FlowRun.get_all. unfold bind at 1.
  destruct (FlowRun.task_run_ids (self, w)) as [[ids|e] [self1 w1]] eqn:Hids;
    [|discriminate].
  assert (exists o, self1 = FlowRun.set_task_run_ids self o) as [o ->].
  { revert Hids.
    unfold FlowRun.task_run_ids, bind, FlowRun.get_self, FlowRun.liftW,
      FlowRun.modify_self, Client.graphql, bind, remote_call, ret, raise. simpl.
    destruct self as [a b c d e f g h runs idx]; simpl.
    destruct h as [[|id0 ids0]|];
      try (intros [= <- <- <-]; by eexists);
      destruct (graphql_has_data w); simpl;
      try destruct (is_finished g); simpl;
      intros [=]; subst; by eexists. }
  destruct (1000 <? length ids)%nat; [discriminate|].
  unfold bind, FlowRun.get_self, FlowRun.liftW, FlowRun.modify_self, ret.
  destruct (TaskRun.query_for_task_runs_many _ _ _) as [[rows|e] w2];
    intros [= <- <- <-]. by exists o.
Qed.

Lemma filter_no_id (task_runs : list TaskRun.t) id :
  id ∉ TaskRun.task_run_id <$> task_runs ->
  filter (fun r => TaskRun.task_run_id r = id) task_runs = [].
Proof.
  induction task_runs as [|r0 task_runs IH]; intros Hnotin; [done|].
  rewrite fmap_cons in Hnotin. apply not_elem_of_cons in Hnotin as [Hne Hnotin].
  rewrite filter_cons, decide_False by done. by apply IH.
Qed.

Lemma filter_unique_id (task_runs : list TaskRun.t) r :
  NoDup (TaskRun.task_run_id <$> task_runs) ->
  r ∈ task_runs ->
  filter (fun r' => TaskRun.task_run_id r' = TaskRun.task_run_id r) task_runs = [r].
Proof.
  induction task_runs as [|r0 task_runs IH]; intros Hnd Hin.
  - by apply elem_of_nil in Hin.
  - rewrite fmap_cons in Hnd. apply NoDup_cons in Hnd as [Hnotin Hnd].
    rewrite filter_cons. apply elem_of_cons in Hin as [->|Hin].
    + rewrite decide_True by done. f_equal. by apply filter_no_id.
    + rewrite decide_False; [by apply IH|].
      intros Heq. apply Hnotin. rewrite Heq. by apply list_elem_of_fmap_2.
Qed.

(** A lookup by the id of a cached record, without a slug, is a hit. *)
Lemma get_by_id_hit {rt : PyRuntime} self w id r :
  coherent self ->
  FlowRun._task_runs self !! id = Some r ->
  FlowRun.get None None (Some id) (self, w) = (Return r, (self, w)).
Proof.
  intros Hc Hr. unfold FlowRun.get, bind, FlowRun.get_self, FlowRun.modify_self, ret.
  simpl. rewrite Hr. by rewrite (add_cached self id r Hc Hr).
Qed.

(** X13. Bulk fetch, then hit: after [get_all] has returned, a lookup by the
    id of any record it returned gives that record back without a remote
    call, when the ids of the records returned are distinct. *)
Theorem get_all_then_get_by_id {rt : PyRuntime} self w task_runs self' w' :
  coherent self ->
  FlowRun.get_all (self, w) = (Return task_runs, (self', w')) ->
  NoDup (TaskRun.task_run_id <$> task_runs) ->
  forall r w2,
    r ∈ task_runs ->
    FlowRun.get None None (Some (TaskRun.task_run_id r)) (self', w2)
    = (Return r, (self', w2)).
Proof.
  intros Hc Hall Hnd r w2 Hin.
  destruct (get_all_returns _ _ _ _ _ Hall) as [ids ->].
  apply get_by_id_hit.
  - by apply coherent_foldl_add, coherent_set_task_run_ids.
  - rewrite foldl_add_lookup, (filter_unique_id _ _ Hnd Hin). done.
Qed.

Lemma get_all_then_get_by_id_witness :
  let self := Demo.new_run Running [] in
  let w := Demo.world ∅ [Demo.row "i1" "x" (-1) Mapped; Demo.row "i2" "x" 0 Success] in
  let w2 := Demo.world ∅ [] in
  FlowRun.get (rt := Demo.runtime) None None (Some "i2")
    (fst (snd (FlowRun.get_all (self, w))), w2)
  = (Return Demo.child_x, (fst (snd (FlowRun.get_all (self, w))), w2)).
Proof.
  intros self w w2.
  refine (get_all_then_get_by_id (rt := Demo.runtime) self w [Demo.base_x; Demo.child_x]
            _ _ (coherent_init _ _ _ _ _ _ _ _) eq_refl _ Demo.child_x w2 _).
  - apply (bool_decide_unpack _). vm_compute. exact I.
  - right. left.
Defined.

(** ** Mapped iteration, on any remote table *)

Lemma iter_slug_goes_by task task_slug s :
  FlowRun.iter_slug task task_slug = Return (Some s) <-> iter_goes_by task task_slug s.
Proof.
  unfold FlowRun.iter_slug, iter_goes_by. destruct task as [[slug_t]|]; simpl.
  - destruct task_slug as [x|]; simpl.
    + destruct slug_t as [y|]; simpl.
      * destruct (String.eqb x y) eqn:Hxy; simpl.
        -- apply String.eqb_eq in Hxy as ->. split.
           ++ intros [= ->]. split; [done | by right].
           ++ by intros [[= ->] _].
        -- apply String.eqb_neq in Hxy. split; [discriminate|].
           intros [[= ->] [?|[= ->]]]; done.
      * split; [discriminate | by intros [? _]].
    + split.
      * intros [= ->]. split; [done | by left].
      * by intros [-> _].
  - split; [by intros [= ->] | by intros ->].
Qed.

Lemma iter_slug_refuses task task_slug :
  (forall s, ~ iter_goes_by task task_slug s) ->
  (exists e, FlowRun.iter_slug task task_slug = Raise e /\ exc_class e = ValueError)
  \/ FlowRun.iter_slug task task_slug = Return None.
Proof.
  intros Hno. destruct (FlowRun.iter_slug task task_slug) as [[s|]|e] eqn:Hs.
  - by apply iter_slug_goes_by, Hno in Hs.
  - by right.
  - left. exists e. split; [done|]. revert Hs. unfold FlowRun.iter_slug.
    destruct task as [t|]; [|discriminate].
    destruct (_ && _); [|discriminate]. by intros [= <-].
Qed.

(** X14. Passing a task to [iter_mapped] is passing its slug: when the slug
    passed beside the task, if any, is the slug of the task, the iteration is
    the iteration by that slug (an empty slug is accepted here).  When the
    slugs differ, or when no slug is to be had (neither argument, or a task
    without slug), the first [next] raises [ValueError] and ends the
    iteration before any remote call. *)
Theorem iter_mapped_goes_by_its_slug {rt : PyRuntime} task task_slug cache_results self w :
  (forall s, iter_goes_by task task_slug s ->
     FlowRun.__next__ (FlowRun.iter_mapped task task_slug cache_results) (self, w)
     = FlowRun.__next__ (FlowRun.iter_mapped None (Some s) cache_results) (self, w))
  /\ ((forall s, ~ iter_goes_by task task_slug s) ->
      exists e,
        FlowRun.__next__ (FlowRun.iter_mapped task task_slug cache_results) (self, w)
        = (FlowRun.Throw e, FlowRun.Finished, (self, w))
        /\ exc_class e = ValueError).
Proof.
  split.
  - intros s Hgo. apply iter_slug_goes_by in Hgo.
    unfold FlowRun.iter_mapped, FlowRun.__next__, FlowRun.iter_mapped_enter.
    unfold bind at 1 3. by rewrite Hgo.
  - intros Hno.
    unfold FlowRun.iter_mapped, FlowRun.__next__, FlowRun.iter_mapped_enter.
    unfold bind at 1.
    destruct (iter_slug_refuses _ _ Hno) as [(e & -> & Hclass)| ->].
    + by exists e.
    + eexists. split; reflexivity.
Qed.

Example iter_mapped_goes_by_its_slug_evaluated :
  let st := (Demo.new_run Running [], Demo.world ∅ [Demo.row "i1" "x" (-1) Mapped]) in
  FlowRun.__next__ (rt := Demo.runtime)
    (FlowRun.iter_mapped (Some {| slug := Some "x" |}) None true) st
  = FlowRun.__next__ (rt := Demo.runtime) (FlowRun.iter_mapped None (Some "x") true) st
  /\ (exists text,
        FlowRun.__next__ (rt := Demo.runtime)
          (FlowRun.iter_mapped (Some {| slug := None |}) None true) st
        = (FlowRun.Throw {| exc_class := ValueError; exc_repr := text |},
           FlowRun.Finished, st)).
Proof. split; [reflexivity|]. eexists. reflexivity. Qed.

Lemma query_returns_row wh error_on_empty w row w' :
  TaskRun.query_for_task_runs wh error_on_empty w = (Return (Some row), w') ->
  TaskRun.select wh (task_run_table w) = [row]
  /\ w' = set_trace w (trace w ++ [QueryForTaskRuns wh false])%list.
Proof.
  unfold TaskRun.query_for_task_runs, bind, remote_call. simpl.
  destruct (TaskRun.select wh (task_run_table w)) as [|row0 [|row1 rows]];
    [destruct error_on_empty|..]; intros [=]; subst; done.
Qed.

Lemma query_table wh error_on_empty w res w' :
  TaskRun.query_for_task_runs wh error_on_empty w = (res, w') ->
  task_run_table w' = task_run_table w.
Proof.
  unfold TaskRun.query_for_task_runs, bind, remote_call. simpl.
  destruct (TaskRun.select wh (task_run_table w)) as [|row0 [|row1 rows]];
    [destruct error_on_empty|..]; intros [=]; subst; done.
Qed.

Lemma select_slug s flow_run_id index table row :
  row ∈ TaskRun.select (FlowRun.where_index s flow_run_id index) table ->
  row_task_slug row = s.
Proof.
  unfold TaskRun.select. rewrite list_elem_of_In, List.filter_In.
  unfold TaskRun.matches. simpl. intros [_ Hm].
  apply andb_prop in Hm as [Hm _]. apply andb_prop in Hm as [Hm _].
  symmetry. by apply String.eqb_eq.
Qed.

(** What a listing from a suspended generator yields: records at the
    consecutive indices after the index it is suspended at. *)
Lemma list_of_suspended_yields {rt : PyRuntime} s cache_results :
  forall fuel k self w res self' w',
    FlowRun.list_of fuel (FlowRun.Suspended s cache_results k) (self, w)
    = Some (res, (self', w')) ->
    exists yielded,
      self' = (if cache_results then foldl FlowRun._add_task_run self yielded else self)
      /\ (forall (i : nat) r, yielded !! i = Some r ->
            TaskRun.map_index r = k + 1 + Z.of_nat i /\ TaskRun.task_slug r = s)
      /\ (forall task_runs, res = Return task_runs -> task_runs = yielded).
Proof.
  induction fuel as [|fuel IH]; intros k self w res self' w'; [discriminate|].
  cbn [FlowRun.list_of FlowRun.__next__]. unfold FlowRun.iter_mapped_loop.
  destruct (TaskRun.query_for_task_runs _ _ w) as [[[row|]|e] w1] eqn:Hq.
  - apply query_returns_row in Hq as [Hsel _].
    set (r := TaskRun.from_task_run_data row).
    set (self1 := if cache_results then FlowRun._add_task_run self r else self).
    destruct (FlowRun.list_of fuel _ (self1, w1)) as [[res0 [self0 w0]]|] eqn:Hrec;
      [|discriminate].
    destruct (IH _ _ _ _ _ _ Hrec) as (yielded & Hself & Hidx & Hres).
    intros Hout.
    assert (self' = self0 /\ forall task_runs,
              res = Return task_runs -> exists task_runs0,
                res0 = Return task_runs0 /\ task_runs = r :: task_runs0) as [-> Hcons].
    { destruct res0 as [task_runs0|e0]; injection Hout as <- <- <-.
      - split; [done|]. intros task_runs [= <-]. by eexists.
      - split; [done|]. discriminate. }
    exists (r :: yielded). split; [|split].
    + rewrite Hself. unfold self1. by destruct cache_results.
    + intros [|i] r' Hr'; simpl in Hr'.
      * injection Hr' as <-. split.
        -- rewrite Z.add_0_r. eapply select_map_index. rewrite Hsel. by left.
        -- eapply select_slug. rewrite Hsel. by left.
      * destruct (Hidx i r' Hr') as [Hi Hs]. split; [lia | done].
    + intros task_runs Hret. destruct (Hcons _ Hret) as (task_runs0 & Hret0 & ->).
      f_equal. by apply Hres.
  - intros [= <- <- <-]. exists []. split; [by destruct cache_results|].
    split; [intros i r; by rewrite lookup_nil|]. by intros task_runs [= <-].
  - intros [= <- <- <-]. exists []. split; [by destruct cache_results|].
    split; [intros i r; by rewrite lookup_nil|]. discriminate.
Qed.

Lemma iter_mapped_enter_slug {rt : PyRuntime} task task_slug st s st' :
  FlowRun.iter_mapped_enter task task_slug st = (Return s, st') ->
  FlowRun.iter_slug task task_slug = Return (Some s).
Proof.
  destruct st as [self w]. unfold FlowRun.iter_mapped_enter. unfold bind at 1.
  destruct (FlowRun.iter_slug task task_slug) as [[s0|]|e];
    unfold bind, FlowRun.get_self, FlowRun.liftW, ret, raise; [|discriminate..].
  destruct (TaskRun.query_for_task_runs _ _ _) as [[[row|]|e] w2]; simpl;
    [destruct (negb _); [destruct (task_run_slug _)|]|..]; congruence.
Qed.

(** X15. What an iteration yields and caches, whatever the remote table
    holds: the records yielded sit at the indices 0, 1, 2, ... in this order
    and carry the slug the iteration goes by; the listing, when it returns,
    returns exactly these; with caching on, the object has gained exactly
    the records yielded (the base record, of index [-1], is fetched but
    never cached), and with caching off the object is as it was. *)
Theorem iter_mapped_yields_by_index {rt : PyRuntime} task task_slug cache_results fuel
    self w res self' w' :
  FlowRun.list_of fuel (FlowRun.iter_mapped task task_slug cache_results) (self, w)
  = Some (res, (self', w')) ->
  exists yielded,
    self' = (if cache_results then foldl FlowRun._add_task_run self yielded else self)
    /\ (forall (i : nat) r, yielded !! i = Some r ->
          TaskRun.map_index r = Z.of_nat i
          /\ iter_goes_by task task_slug (TaskRun.task_slug r))
    /\ (forall task_runs, res = Return task_runs -> task_runs = yielded).
Proof.
  destruct fuel as [|fuel]; [discriminate|].
  unfold FlowRun.iter_mapped. cbn [FlowRun.list_of FlowRun.__next__].
  destruct (FlowRun.iter_mapped_enter task task_slug (self, w)) as [[s|e] [self1 w1]] eqn:He.
  - pose proof (iter_mapped_enter_slug _ _ _ _ _ He) as Hs.
    apply iter_mapped_enter_self in He as ->.
    intros Hlist.
    change (FlowRun.list_of (S fuel) (FlowRun.Suspended s cache_results (-1)) (self, w1)
            = Some (res, (self', w'))) in Hlist.
    destruct (list_of_suspended_yields _ _ _ _ _ _ _ _ _ Hlist)
      as (yielded & Hself & Hidx & Hres).
    exists yielded. split; [done|]. split; [|done].
    intros i r Hr. destruct (Hidx i r Hr) as [Hi <-]. split; [lia|].
    by apply iter_slug_goes_by.
  - apply iter_mapped_enter_self in He as ->.
    intros [= <- <- <-]. exists []. split; [by destruct cache_results|].
    split; [intros i r; by rewrite lookup_nil|]. discriminate.
Qed.

Lemma iter_mapped_yields_by_index_witness :
  let self := Demo.new_run Running [] in
  let w := Demo.world ∅ [Demo.row "i1" "x" (-1) Mapped; Demo.row "i2" "x" 0 Success;
                          Demo.row "i3" "x" 1 Success] in
  exists yielded self' w',
    FlowRun.list_of (rt := Demo.runtime) 3 (FlowRun.iter_mapped None (Some "x") true) (self, w)
    = Some (Return yielded, (self', w'))
    /\ self' = foldl FlowRun._add_task_run self yielded
    /\ forall (i : nat) r, yielded !! i = Some r ->
         TaskRun.map_index r = Z.of_nat i /\ TaskRun.task_slug r = "x".
Proof.
  intros self w.
  destruct (FlowRun.list_of (rt := Demo.runtime) 3
              (FlowRun.iter_mapped None (Some "x") true) (self, w))
    as [[[task_runs|e] [self' w']]|] eqn:Hlist;
    [|vm_compute in Hlist; discriminate Hlist..].
  destruct (iter_mapped_yields_by_index (rt := Demo.runtime) None (Some "x") true 3
              self w (Return task_runs) self' w' Hlist) as (yielded & Hself & Hidx & Hres).
  exists yielded, self', w'. rewrite (Hres task_runs eq_refl).
  split; [reflexivity|]. split; [exact Hself|].
  intros i r Hr. destruct (Hidx i r Hr) as [Hi Hs]. split; [exact Hi|].
  simpl in Hs. by injection Hs.
Defined.

(** *** The iteration ends *)

Lemma rows_above_le k table : (rows_above (k + 1) table <= rows_above k table)%nat.
Proof.
  unfold rows_above. induction table as [|row table IH]; simpl; [done|].
  destruct (k + 1 <? row_map_index row) eqn:H1; destruct (k <? row_map_index row) eqn:H2;
    simpl; lia.
Qed.

Lemma rows_above_lt k table row :
  row ∈ table -> row_map_index row = k + 1 ->
  (rows_above (k + 1) table < rows_above k table)%nat.
Proof.
  intros Hin Hidx. induction table as [|row0 table IH]; [by apply elem_of_nil in Hin|].
  pose proof (rows_above_le k table) as Hle.
  unfold rows_above in *. simpl.
  apply elem_of_cons in Hin as [<-|Hin].
  - assert ((k + 1 <? row_map_index row) = false) as -> by (apply Z.ltb_ge; lia).
    assert ((k <? row_map_index row) = true) as -> by (apply Z.ltb_lt; lia).
    simpl. lia.
  - specialize (IH Hin).
    destruct (k + 1 <? row_map_index row0) eqn:H1;
      destruct (k <? row_map_index row0) eqn:H2; simpl; lia.
Qed.

Lemma rows_above_length k table : (rows_above k table <= length table)%nat.
Proof. unfold rows_above. apply List.filter_length_le. Qed.

Lemma list_of_suspended_ends {rt : PyRuntime} s cache_results :
  forall fuel k self w,
    (rows_above k (task_run_table w) < fuel)%nat ->
    is_Some (FlowRun.list_of fuel (FlowRun.Suspended s cache_results k) (self, w)).
Proof.
  induction fuel as [|fuel IH]; intros k self w Hfuel; [lia|].
  cbn [FlowRun.list_of FlowRun.__next__]. unfold FlowRun.iter_mapped_loop.
  destruct (TaskRun.query_for_task_runs _ _ w) as [[[row|]|e] w1] eqn:Hq; [|by eexists..].
  pose proof (query_table _ _ _ _ _ Hq) as Htab.
  apply query_returns_row in Hq as [Hsel _].
  assert (row ∈ TaskRun.select
                  (FlowRun.where_index s (FlowRun.flow_run_id self) (k + 1))
                  (task_run_table w)) as Hin by (rewrite Hsel; by left).
  pose proof (select_map_index _ _ _ _ _ Hin) as Hidx.
  assert (row ∈ task_run_table w) as Hrow.
  { unfold TaskRun.select in Hin. rewrite list_elem_of_In, List.filter_In in Hin.
    rewrite list_elem_of_In. tauto. }
  pose proof (rows_above_lt k _ _ Hrow Hidx) as Hlt.
  set (self1 := if cache_results then _ else self).
  destruct (IH (k + 1) self1 w1) as [[res0 st0] Hrec]; [rewrite Htab; lia|].
  rewrite Hrec. by destruct res0; eexists.
Qed.

(** X16. The iteration ends: on a remote table of [n] rows, the listing of an
    iteration is over after at most [n + 1] calls of [next], whatever the
    table holds. *)
Theorem iter_mapped_ends {rt : PyRuntime} task task_slug cache_results self w extra :
  is_Some (FlowRun.list_of (S (length (task_run_table w)) + extra)
             (FlowRun.iter_mapped task task_slug cache_results) (self, w)).
Proof.
  unfold FlowRun.iter_mapped. cbn [Nat.add FlowRun.list_of FlowRun.__next__].
  destruct (FlowRun.iter_mapped_enter task task_slug (self, w)) as [[s|e] [self1 w1]] eqn:He;
    [|by eexists].
  assert (task_run_table w1 = task_run_table w) as Htab.
  { revert He. unfold FlowRun.iter_mapped_enter. unfold bind at 1.
    destruct (FlowRun.iter_slug task task_slug) as [[s0|]|e];
      unfold bind, FlowRun.get_self, FlowRun.liftW, ret, raise; [|discriminate..].
    destruct (TaskRun.query_for_task_runs _ _ w) as [[[row|]|e] w2] eqn:Hq; simpl;
      [|discriminate..].
    apply query_table in Hq.
    destruct (negb _); [destruct (task_run_slug _); discriminate|]. by intros [= _ _ <-]. }
  change (is_Some (FlowRun.list_of (S (length (task_run_table w) + extra))
                     (FlowRun.Suspended s cache_results (-1)) (self1, w1))).
  apply list_of_suspended_ends. rewrite Htab.
  pose proof (rows_above_length (-1) (task_run_table w)). lia.
Qed.

(** ** Reading a run back *)

(** X17. [from_flow_run_id] never returns a run.  It only reads.  When the
    remote store has no data or no such run it raises [ValueError] after its
    one query; when the run is there it goes on (to the query for the
    unmapped task runs, when these are to be loaded, which raises when there
    are none) and then fails at the call of the class, which is made without
    the required [flow_id]. *)
Theorem from_flow_run_id_never_returns flow_run_id load_static_tasks _task_runs w :
  exists e w',
    FlowRun.from_flow_run_id flow_run_id load_static_tasks _task_runs w = (Raise e, w')
    /\ only_read w w'
    /\ match remote_flow_run flow_run_id w with
       | None =>
           exc_class e = ValueError
           /\ trace w' = (trace w ++ [Graphql (flow_run_by_pk flow_run_id)])%list
       | Some _ =>
           if load_static_tasks then
             trace w' = (trace w ++ [Graphql (flow_run_by_pk flow_run_id);
                                     QueryForTaskRuns (static_tasks_of flow_run_id) true])%list
             /\ match TaskRun.select (static_tasks_of flow_run_id) (task_run_table w) with
                | [] => exc_class e = ValueError
                | _ => e = FlowRun.missing_argument
                end
           else
             e = FlowRun.missing_argument
             /\ trace w' = (trace w ++ [Graphql (flow_run_by_pk flow_run_id)])%list
       end.
Proof.
  unfold remote_flow_run.
  unfold FlowRun.from_flow_run_id, bind, Client.graphql, bind, remote_call. simpl.
  destruct (graphql_has_data w); simpl.
  - destruct (flow_run_table w !! flow_run_id) as [flow_run|]; simpl.
    + destruct load_static_tasks; simpl.
      * unfold TaskRun.query_for_task_runs_many, bind, remote_call. simpl.
        fold (static_tasks_of flow_run_id).
        destruct (TaskRun.select _ _) as [|row rows]; simpl.
        -- do 2 eexists. split; [reflexivity|]. split; [solve_only_read|].
           simpl. by rewrite <- app_assoc.
        -- do 2 eexists. split; [reflexivity|]. split; [solve_only_read|].
           simpl. by rewrite <- app_assoc.
      * do 2 eexists. split; [reflexivity|]. split; [solve_only_read|]. done.
    + do 2 eexists. split; [reflexivity|]. split; [solve_only_read|]. done.
  - do 2 eexists. split; [reflexivity|]. split; [solve_only_read|]. done.
Qed.

(** X18. [update] never returns the refreshed run: it makes one query for
    the run, no query for task runs and no write, and raises [ValueError]
    when the remote store has no data or no such run, else the [TypeError]
    of the class call. *)
Theorem update_never_returns self w :
  exists e w',
    FlowRun.update self w = (Raise e, w')
    /\ only_read w w'
    /\ trace w' = (trace w ++ [Graphql (flow_run_by_pk (FlowRun.flow_run_id self))])%list
    /\ match remote_flow_run (FlowRun.flow_run_id self) w with
       | None => exc_class e = ValueError
       | Some _ => e = FlowRun.missing_argument
       end.
Proof.
  unfold remote_flow_run.
  unfold FlowRun.update, FlowRun.from_flow_run_id, bind, Client.graphql, bind, remote_call.
  simpl.
  destruct (graphql_has_data w); simpl;
    [destruct (flow_run_table w !! FlowRun.flow_run_id self) as [flow_run|]; simpl|];
    do 2 eexists; (split; [reflexivity|]); (split; [solve_only_read|]); done.
Qed.

(** ** The execution guard, on every outcome *)

(** X19. The guard never writes.  A unit of work that returns, or that
    raises an exception that is neither an error nor an interrupt
    ([SystemExit], [GeneratorExit]), passes the guard unchanged, without a
    remote call.  On an error or an interrupt the guard re-reads the run and
    what leaves it is the [TypeError] or [ValueError] of that re-read: no
    state is written, so a running run is neither failed nor cancelled. *)
Theorem guard_never_writes {rt : PyRuntime} {A} flow_run_id message (body : SE World A)
    w r w1 :
  body w = (r, w1) ->
  exists r' w2,
    fail_flow_run_on_exception flow_run_id message body w = (r', w2)
    /\ only_read w1 w2
    /\ match r with
       | Return a => r' = Return a /\ w2 = w1
       | Raise exc =>
           if is_KeyboardInterrupt (exc_class exc) || is_Exception (exc_class exc) then
             exists e, r' = Raise e
               /\ (exc_class e = TypeError \/ exc_class e = ValueError)
               /\ FlowRun.from_flow_run_id flow_run_id true None w1 = (Raise e, w2)
           else r' = Raise exc /\ w2 = w1
       end.
Proof.
  intros Hbody. destruct r as [a|exc].
  - exists (Return a), w1. rewrite (guard_return _ _ _ _ _ _ Hbody).
    split; [done|]. split; [by repeat split|done].
  - destruct (is_KeyboardInterrupt (exc_class exc) || is_Exception (exc_class exc))
      eqn:Hclass.
    + destruct (guard_raise flow_run_id message body w exc w1 Hbody Hclass)
        as (e & w2 & Hguard & Hread & He & Hro).
      exists (Raise e), w2. split; [done|]. split; [done|]. by exists e.
    + apply orb_false_iff in Hclass as [Hki Hexc].
      exists (Raise exc), w1.
      rewrite (guard_base_exception _ _ _ _ _ _ Hbody Hki Hexc).
      split; [done|]. split; [by repeat split|done].
Qed.

Lemma guard_never_writes_witness :
  let w := DemoRun.remote Running None in
  exists e w2,
    fail_flow_run_on_exception (rt := Demo.runtime) "r1" None DemoFailing.interrupted w
    = (Raise e, w2)
    /\ (exc_class e = TypeError \/ exc_class e = ValueError)
    /\ state_writes (trace w2) = []
    /\ flow_run_table w2 = flow_run_table w.
Proof.
  intros w.
  destruct (guard_never_writes (rt := Demo.runtime) "r1" None DemoFailing.interrupted
              w _ w eq_refl)
    as (r' & w2 & Hguard & (Htab & _ & Hsw & _) & e & -> & He & _).
  exists e, w2. split; [exact Hguard|]. split; [exact He|].
  split; [exact Hsw | exact Htab].
Defined.

(** ** The stages of [execute_flow_run] *)

(** X20. The execution stage never returns a run, and it puts the ambient
    context back: whatever the engine or the environment does, [run_flow]
    raises, and the ambient context after it is the ambient context before
    it. *)
Theorem run_flow_never_returns {rt : PyRuntime} {co : Collaborators} flow_run_id flow_run
    flow run_kwargs w :
  exists e w',
    run_flow flow_run_id flow_run flow run_kwargs w = (Raise e, w')
    /\ context w' = context w.
Proof.
  unfold run_flow. unfold bind at 1. unfold with_context.
  destruct (fail_flow_run_on_exception _ _ _ _) as [[[flow_state|]|e] w1].
  - destruct (from_flow_run_id_raises (FlowRun.flow_run_id flow_run) false
                (Some (snd <$> map_to_list (FlowRun._task_runs flow_run)))
                (set_context w1 (context w)))
      as (e & w' & Hread & _ & _ & _ & _ & _ & Hctx & _).
    exists e, w'. split; [exact Hread | exact Hctx].
  - do 2 eexists. split; reflexivity.
  - do 2 eexists. split; reflexivity.
Qed.

Lemma storage_secrets_snoc names (vals : string -> PyVal) (X : gmap string PyVal) :
  foldl (fun m name => <[name := vals name]> m) X names = storage_secrets names vals ∪ X.
Proof.
  unfold storage_secrets.
  by rewrite <- foldl_insert_union, (left_id_L ∅ (∪)).
Qed.

Lemma load_secrets_loop_fails {rt : PyRuntime} {co : Collaborators} flow_run_id vals
    pre bad post exc :
  (forall name w, name ∈ pre ->
     exists w', secret_run name w = (Return (vals name), w') /\ same_objects w w') ->
  (forall w, exists w', secret_run bad w = (Raise exc, w') /\ same_objects w w') ->
  is_KeyboardInterrupt (exc_class exc) || is_Exception (exc_class exc) = true ->
  forall la X w,
    secrets_heap w !! la = Some X ->
    exists e w',
      for_each (pre ++ bad :: post)%list (fun secret =>
        fail_flow_run_on_exception flow_run_id
          (Some ("Failed to load flow secret " ++ str_repr secret ++ ": {exc}"))
          (let* v := secret_run secret in setitem_secret la secret v)) w = (Raise e, w')
      /\ (exc_class e = TypeError \/ exc_class e = ValueError)
      /\ secrets_heap w' !! la
         = Some (foldl (fun m name => <[name := vals name]> m) X pre)
      /\ context w' = context w.
Proof.
  intros Hres Hbad Hclass.
  induction pre as [|name pre IH]; intros la X w HX.
  - destruct (Hbad w) as (w1 & Hrun & Hctx & Hsec & Hch).
    destruct (guard_raise flow_run_id
                (Some ("Failed to load flow secret " ++ str_repr bad ++ ": {exc}"))
                (let* v := secret_run bad in setitem_secret la bad v) w exc w1)
      as (e & w2 & Hguard & _ & He & _ & _ & _ & _ & Hctx2 & Hsec2 & _).
    { unfold bind. by rewrite Hrun. }
    { exact Hclass. }
    exists e, w2. cbn [app for_each]. unfold bind at 1. rewrite Hguard.
    split; [done|]. split; [done|]. simpl. rewrite Hsec2, Hsec, Hctx2, Hctx. done.
  - destruct (Hres name w) as (w1 & Hrun & Hctx & Hsec & Hch); [by left|].
    set (w2 := set_secrets_heap w1 (<[la := <[name := vals name]> X]> (secrets_heap w1))).
    destruct (IH (fun n w0 Hn => Hres n w0 (list_elem_of_further _ _ _ Hn))
                la (<[name := vals name]> X) w2)
      as (e & w' & Hloop & He & Hheap & Hctx').
    { unfold w2. simpl. by rewrite lookup_insert_eq. }
    exists e, w'. cbn [app for_each]. unfold bind at 1.
    rewrite (guard_return _ _ _ _ tt w2).
    2: { unfold bind. rewrite Hrun. unfold setitem_secret, secrets_at, w2.
         rewrite Hsec, HX. reflexivity. }
    rewrite Hloop. split; [done|]. split; [done|]. split; [exact Hheap|].
    rewrite Hctx'. unfold w2. simpl. exact Hctx.
Qed.

(** X21. A secret that fails to load leaves the secrets loaded before it in
    place: when the provider raises an error or an interrupt on a declared
    secret, the secrets stage raises (the error of the guard's re-read of
    the run), and the secrets dictionary of the ambient context, filled in
    place, keeps the values of the secrets declared before the failing one. *)
Theorem load_secrets_failure_keeps_loaded {rt : PyRuntime} {co : Collaborators} flow_run_id
    flow_run vals pre bad post exc l X w :
  declared_secrets flow_run = (pre ++ bad :: post)%list ->
  (forall name w0, name ∈ pre ->
     exists w1, secret_run name w0 = (Return (vals name), w1) /\ same_objects w0 w1) ->
  (forall w0, exists w1, secret_run bad w0 = (Raise exc, w1) /\ same_objects w0 w1) ->
  is_KeyboardInterrupt (exc_class exc) || is_Exception (exc_class exc) = true ->
  ctx_secrets (context w) = Some l ->
  secrets_heap w !! l = Some X ->
  exists e w',
    load_secrets flow_run_id flow_run w = (Raise e, w')
    /\ (exc_class e = TypeError \/ exc_class e = ValueError)
    /\ secrets_heap w' !! l = Some (storage_secrets pre vals ∪ X)
    /\ context w' = context w.
Proof.
  intros Hdecl Hres Hbad Hclass Hamb HX.
  unfold declared_secrets in Hdecl.
  destruct (FlowRun.flow_storage flow_run) as [st|] eqn:Hst;
    [|by destruct pre].
  destruct (load_secrets_loop_fails flow_run_id vals pre bad post exc Hres Hbad Hclass
              l X w HX) as (e & w' & Hloop & He & Hheap & Hctx).
  exists e, w'. unfold load_secrets. unfold bind at 1. rewrite Hamb. unfold ret at 1.
  rewrite Hst, Hdecl. unfold bind at 1. rewrite Hloop.
  split; [done|]. split; [done|]. split; [|done].
  by rewrite Hheap, storage_secrets_snoc.
Qed.

Lemma load_secrets_failure_keeps_loaded_witness :
  exists e w',
    load_secrets (rt := Demo.runtime) (co := DemoFailing.collaborators) "r1"
      DemoFailing.flow_run DemoSecrets.w = (Raise e, w')
    /\ (exc_class e = TypeError \/ exc_class e = ValueError)
    /\ secrets_heap w' !! 1%positive = Some {[ "A" := PInt 1; "B" := PInt 2 ]}.
Proof.
  destruct (load_secrets_failure_keeps_loaded (rt := Demo.runtime)
              (co := DemoFailing.collaborators) "r1" DemoFailing.flow_run
              DemoSecrets.vals ["B"] "Z" []
              {| exc_class := UserException "Boom"; exc_repr := "Boom('no such secret')" |}
              1%positive {[ "A" := PInt 1 ]} DemoSecrets.w eq_refl)
    as (e & w' & Hload & He & Hheap & _).
  - intros name w0 Hin. apply list_elem_of_singleton in Hin as ->.
    exists w0. split; [reflexivity|]. repeat split.
  - intros w0. exists w0. split; [reflexivity|]. repeat split.
  - reflexivity.
  - reflexivity.
  - reflexivity.
  - exists e, w'. split; [exact Hload|]. split; [exact He|].
    etrans; [exact Hheap|]. vm_compute. reflexivity.
Defined.

(** X22. Where the storage's secrets land.  When the ambient context has a
    secrets dictionary, the secrets stage fills that very dictionary in place
    and returns it.  When the ambient context has none, the secrets are
    loaded into a new dictionary: every dictionary that existed is as it
    was, and the ambient context still has no secrets. *)
Theorem load_secrets_destination {rt : PyRuntime} {co : Collaborators} flow_run_id flow_run
    vals w :
  (forall name w0, name ∈ declared_secrets flow_run ->
     exists w1, secret_run name w0 = (Return (vals name), w1) /\ same_objects w0 w1) ->
  (forall l, ctx_secrets (context w) = Some l -> l ∈ dom (secrets_heap w)) ->
  exists la w',
    load_secrets flow_run_id flow_run w = (Return la, w')
    /\ secrets_heap w' !! la
       = Some (storage_secrets (declared_secrets flow_run) vals ∪ ambient_secrets w)
    /\ (forall l, l <> la -> secrets_heap w' !! l = secrets_heap w !! l)
    /\ context w' = context w
    /\ match ctx_secrets (context w) with
       | Some l => la = l
       | None => (la ∉ dom (secrets_heap w)) /\ ambient_secrets w' = ∅
       end.
Proof.
  intros Hres Halloc.
  destruct (load_secrets_spec flow_run_id flow_run vals w Hres Halloc)
    as (la & w' & Hload & Hheap & _ & Hctx & Hla).
  exists la, w'. split; [exact Hload|]. rewrite Hheap.
  split; [by rewrite lookup_insert_eq|].
  split; [intros l Hl; by rewrite lookup_insert_ne|].
  split; [exact Hctx|].
  unfold ambient_secrets. rewrite Hctx.
  destruct (ctx_secrets (context w)); done.
Qed.

Lemma load_secrets_destination_witness :
  exists la w',
    load_secrets (rt := Demo.runtime) (co := DemoRun.collaborators) "r1"
      DemoSecrets.flow_run (Demo.world ∅ []) = (Return la, w')
    /\ secrets_heap w' !! la = Some {[ "B" := PInt 2 ]}
    /\ context w' = empty_context
    /\ ambient_secrets w' = ∅.
Proof.
  destruct (load_secrets_destination (rt := Demo.runtime) (co := DemoRun.collaborators)
              "r1" DemoSecrets.flow_run DemoSecrets.vals (Demo.world ∅ []))
    as (la & w' & Hload & Hheap & _ & Hctx & _ & Hamb).
  - intros name w0 _. exists w0. split; [reflexivity|]. repeat split.
  - intros l Hl. discriminate Hl.
  - exists la, w'. split; [exact Hload|]. split; [|split; [exact Hctx | exact Hamb]].
    etrans; [exact Hheap|]. vm_compute. reflexivity.
Defined.

Lemma first_copy_error_some {rt : PyRuntime} values e :
  first_copy_error values = Some e ->
  exists v, v ∈ values /\ value_copy_error v = Some e.
Proof.
  unfold first_copy_error. induction values as [|v values IH]; simpl; [discriminate|].
  destruct (value_copy_error v) as [e0|] eqn:Hv; simpl.
  - intros [= <-]. exists v. split; [by left | done].
  - intros Hhead. destruct (IH Hhead) as (v' & Hin & Hv'). exists v'. split; [by right | done].
Qed.

Lemma first_copy_error_none {rt : PyRuntime} values :
  first_copy_error values = None <-> forall v, v ∈ values -> value_copy_error v = None.
Proof.
  unfold first_copy_error. induction values as [|v values IH]; simpl.
  - split; [|done]. intros _ v Hin. by apply elem_of_nil in Hin.
  - destruct (value_copy_error v) as [e0|] eqn:Hv; simpl.
    + split; [discriminate|]. intros Hall. rewrite <- Hv. apply Hall. by left.
    + rewrite IH. split.
      * intros Hall v' Hin. apply elem_of_cons in Hin as [->|Hin]; [done | by apply Hall].
      * intros Hall v' Hin. apply Hall. by right.
Qed.

Ltac not_fresh_in :=
  let Hin := fresh "Hin" in
  intros Hin;
  match type of Hin with
  | fresh ?D ∈ _ =>
      apply (is_fresh D);
      first [exact Hin | by apply dom_insert_subseteq]
  end.

(** X23. The context merge, on whatever the caller passed.  If a value of
    the options cannot be deep-copied, the merge raises the error of the
    copy and nothing has changed.  If the [context] option is a value that is
    no mapping ([None] for one), it raises [AttributeError], and if the
    [secrets] entry of the context is no mapping, [TypeError]; no dictionary
    that existed has changed.  Otherwise it returns run options that carry a
    context dictionary of their own (a new object), whose secrets are a new
    dictionary holding the caller's secrets over those of the loaded
    dictionary, and whose other entries are the caller's; the executor is
    the caller's when the caller gave one (even [None]), else the executor of
    the flow; every other option is the caller's; no remote call is made and
    no dictionary that existed has changed. *)
Theorem merge_context_outcomes {rt : PyRuntime} secrets kwargs flow w :
  (forall e, first_copy_error (copied_values kwargs w) = Some e ->
     merge_context secrets kwargs flow w = (Raise e, w)
     /\ exists v, v ∈ copied_values kwargs w /\ value_copy_error v = Some e)
  /\ (first_copy_error (copied_values kwargs w) = None ->
      (forall v, rk_context kwargs = Some (NotDict v) ->
         exists e,
           merge_context secrets kwargs flow w = (Raise e, w)
           /\ exc_class e = AttributeError)
      /\ (forall c v,
            rk_context kwargs = Some (IsDict c) ->
            cd_secrets (context_at w c) = Some (NotDict v) ->
            exists e w',
              merge_context secrets kwargs flow w = (Raise e, w')
              /\ exc_class e = TypeError
              /\ objects_kept w w')
      /\ (context_is_mapping w kwargs ->
          secrets ∈ dom (secrets_heap w) ->
          exists run_kwargs w' c new m,
            merge_context secrets kwargs flow w = (Return run_kwargs, w')
            /\ rk_context run_kwargs = Some (IsDict c)
            /\ (c ∉ dom (context_heap w))
            /\ context_heap w' !! c = Some new
            /\ cd_secrets new = Some (IsDict m)
            /\ (m ∉ dom (secrets_heap w))
            /\ secrets_heap w' !! m
               = Some (caller_secrets w kwargs ∪ secrets_at w secrets)
            /\ cd_rest new = cd_rest (caller_context w kwargs)
            /\ rk_executor run_kwargs
               = Some (default (Flow.executor flow) (rk_executor kwargs))
            /\ rk_rest run_kwargs = rk_rest kwargs
            /\ objects_kept w w')).
Proof.
  pose proof (is_fresh (dom (context_heap w))) as Hfc.
  pose proof (is_fresh (dom (secrets_heap w))) as Hfs.
  split.
  - intros e He. split; [|by apply first_copy_error_some].
    unfold merge_context, deepcopy. unfold bind at 1. by rewrite He.
  - intros Hcopy. split; [|split].
    + intros v Hctx. eexists.
      unfold merge_context, deepcopy. unfold bind at 1. rewrite Hcopy, Hctx.
      unfold bind, ret, raise. simpl. rewrite Hctx. split; reflexivity.
    + intros c v Hctx Hsec. do 2 eexists.
      unfold merge_context, deepcopy. unfold bind at 1. rewrite Hcopy, Hctx.
      rewrite Hsec. unfold bind, ret, raise, new_context, context_at. simpl.
      rewrite lookup_insert_eq. simpl.
      split; [reflexivity|]. split; [reflexivity|].
      repeat split; try done. simpl.
      intros l Hl. rewrite lookup_insert_ne; [done|]. intros <-. done.
    + intros Hmap Hdom.
      assert (fresh (dom (secrets_heap w)) <> secrets) as Hne
        by (intros Heq; by rewrite Heq in Hfs).
      unfold context_is_mapping in Hmap. unfold caller_secrets, caller_context.
      unfold merge_context, deepcopy. unfold bind at 1. rewrite Hcopy.
      destruct (rk_executor kwargs) as [ex|] eqn:Hex;
        (destruct (rk_context kwargs) as [[c0|v0]|] eqn:Hc0; [|done|]);
        [destruct (cd_secrets (context_at w c0)) as [[s|v]|] eqn:Hs; [|done|]| |
         destruct (cd_secrets (context_at w c0)) as [[s|v]|] eqn:Hs; [|done|]|];
        unfold bind, ret, new_secrets, new_context, context_at, secrets_at in *; simpl;
        rewrite ?Hc0; simpl;
        rewrite ?lookup_insert_eq; simpl; rewrite ?Hs, ?Hex; simpl;
        rewrite ?lookup_insert_eq; simpl;
        do 5 eexists; (split; [reflexivity|]); simpl;
        (split; [reflexivity|]); (split; [exact Hfc|]);
        rewrite ?lookup_insert_eq; simpl;
        (split; [reflexivity|]); simpl; (split; [reflexivity|]).
      all: rewrite ?(lookup_insert_ne _ _ _ _ Hne).
      all: split; [not_fresh_in|].
      all: do 4 (split; [first [reflexivity | exact Hex]|]).
      all: repeat split; simpl; try done; intros l Hl;
        rewrite !lookup_insert_ne
          by (intros Heq; rewrite <- Heq in Hl; revert Hl; not_fresh_in);
        done.
Qed.

Example merge_context_outcomes_evaluated :
  let options context executor :=
    {| rk_context := context; rk_executor := executor;
       rk_rest := {[ "return_tasks" := PObj "tasks" ]} |} in
  let w := set_context_heap DemoSecrets.w
             {[ 1%positive := {| cd_secrets := Some (NotDict PNone); cd_rest := ∅ |} ]} in
  merge_context (rt := DemoFailing.runtime) 1%positive
    (options None (Some (PObj "Lock"))) DemoRun.flow DemoSecrets.w
  = (Raise {| exc_class := TypeError; exc_repr := "cannot pickle 'Lock' object" |},
     DemoSecrets.w)
  /\ merge_context (rt := Demo.runtime) 1%positive
       (options (Some (NotDict PNone)) None) DemoRun.flow DemoSecrets.w
     = (Raise {| exc_class := AttributeError;
                 exc_repr := "object has no attribute 'get'" |}, DemoSecrets.w)
  /\ fst (merge_context (rt := Demo.runtime) 1%positive
            (options (Some (IsDict 1%positive)) None) DemoRun.flow w)
     = Raise {| exc_class := TypeError; exc_repr := "object is not a mapping" |}
  /\ fst (merge_context (rt := Demo.runtime) 1%positive
            (options None (Some PNone)) DemoRun.flow DemoSecrets.w)
     = Return (options (Some (IsDict 2%positive)) (Some PNone)).
Proof. vm_compute. repeat split; reflexivity. Qed.

(** X24. Loading the flow: the loader of the storage runs under the ambient
    context extended with the secrets dictionary and the loading mark, and on
    every exit the ambient context is put back.  A run without storage
    cannot be loaded: the stage raises. *)
Theorem load_flow_outcomes {rt : PyRuntime} {co : Collaborators} flow_run_id flow_run
    secrets w :
  context (snd (load_flow flow_run_id flow_run secrets w)) = context w
  /\ (forall flow_storage flow w1,
        FlowRun.flow_storage flow_run = Some flow_storage ->
        get_flow flow_storage (FlowRun.flow_name flow_run)
          (set_context w
             (set_ctx_loading_flow (set_ctx_secrets (context w) (Some secrets)) (Some true)))
        = (Return flow, w1) ->
        load_flow flow_run_id flow_run secrets w = (Return flow, set_context w1 (context w)))
  /\ (FlowRun.flow_storage flow_run = None ->
      exists e w',
        load_flow flow_run_id flow_run secrets w = (Raise e, w')
        /\ (exc_class e = TypeError \/ exc_class e = ValueError)).
Proof.
  split; [|split].
  - unfold load_flow, with_context.
    by destruct (fail_flow_run_on_exception _ _ _ _) as [r w1].
  - intros flow_storage flow w1 Hst Hget. unfold load_flow.
    apply with_context_run, guard_return. by rewrite Hst.
  - intros Hst. unfold load_flow. rewrite Hst.
    destruct (guard_raise (A := Flow.t) flow_run_id
                (Some "Failed to load flow from storage: {exc}")
                (raise AttributeError "'NoneType' object has no attribute 'get_flow'")
                (set_context w
                   (set_ctx_loading_flow (set_ctx_secrets (context w) (Some secrets))
                      (Some true)))
                {| exc_class := AttributeError;
                   exc_repr := "'NoneType' object has no attribute 'get_flow'" |}
                _ eq_refl eq_refl)
      as (e & w2 & Hguard & _ & He & _).
    exists e. eexists. split; [|exact He].
    by apply with_context_run.
Qed.

Example load_flow_outcomes_evaluated :
  let '(r, w') := load_flow (rt := Demo.runtime) (co := DemoRun.collaborators) "r1"
                    DemoSecrets.flow_run 1%positive DemoSecrets.w in
  r = Return DemoRun.flow /\ w' = DemoSecrets.w.
Proof. vm_compute. split; reflexivity. Qed.

(** ** Lookups after a fetch *)

Lemma from_task_slug_one_row s flow_run_id w row :
  TaskRun.select (FlowRun.where_index s flow_run_id (-1)) (task_run_table w) = [row] ->
  TaskRun.from_task_slug s flow_run_id w
  = (Return (TaskRun.from_task_run_data row),
     set_trace w (trace w ++ [FromTaskSlug s flow_run_id])%list).
Proof.
  intros Hsel. unfold TaskRun.from_task_slug, bind, remote_call. simpl.
  fold (FlowRun.where_index s flow_run_id (-1)). by rewrite Hsel.
Qed.

(** X25. Fetch the base, then hit: when the cache holds records of a mapped
    family (say its children, cached by an iteration) but not its base
    record, a lookup by the slug fetches the base record from the remote
    store and caches it; the same lookup made again returns that record
    from the cache, without a remote call. *)
Theorem get_by_slug_fetch_then_hit {rt : PyRuntime} self w task task_slug s row id' :
  coherent self ->
  FlowRun.lookup_slug task task_slug = Return (Some s) ->
  TaskRun.select (FlowRun.where_index s (FlowRun.flow_run_id self) (-1)) (task_run_table w)
    = [row] ->
  id' ∈ FlowRun.ids_of_slug self s ->
  id' <> row_id row ->
  (forall id r, id ∈ FlowRun.ids_of_slug self s ->
     FlowRun._task_runs self !! id = Some r -> TaskRun.map_index r <> -1) ->
  let r := TaskRun.from_task_run_data row in
  let self1 := FlowRun._add_task_run self r in
  FlowRun.get task task_slug None (self, w)
  = (Return r,
     (self1, set_trace w (trace w ++ [FromTaskSlug s (FlowRun.flow_run_id self)])%list))
  /\ forall w2, FlowRun.get task task_slug None (self1, w2) = (Return r, (self1, w2)).
Proof.
  intros Hc Hs Hsel Hin Hne Hnobase r self1.
  assert (row ∈ TaskRun.select (FlowRun.where_index s (FlowRun.flow_run_id self) (-1))
                  (task_run_table w)) as Hrow by (rewrite Hsel; by left).
  assert (TaskRun.task_slug r = s) as Hslug by (by eapply select_slug).
  assert (TaskRun.map_index r = -1) as Hbase by (by eapply select_map_index).
  assert (forall id, id ∈ set_iter (FlowRun.ids_of_slug self s) ->
            is_Some (FlowRun._task_runs self !! id)) as Hall.
  { intros id Hid. apply (proj2 Hc s). by apply elem_of_set_iter. }
  split.
  - rewrite (get_by_slug_unfold _ _ _ _ _ Hs).
    rewrite (from_task_slug_one_row _ _ _ _ Hsel). fold r self1.
    unfold FlowRun.ids_of_slug in Hin, Hall, Hnobase.
    destruct (FlowRun._task_slug_to_task_run_ids self !! s) as [ids|]; [|done].
    simpl in *. destruct (1 <? size ids)%nat; [|done].
    rewrite (find_base_none _ _ Hall); [done|].
    intros id r0 Hid. apply Hnobase. by apply elem_of_set_iter.
  - intros w2. rewrite (get_by_slug_unfold _ _ _ _ _ Hs).
    pose proof (coherent_add self r Hc) as Hc1. fold self1 in Hc1.
    pose proof (ids_of_slug_add self r s) as Hids. fold self1 in Hids.
    rewrite decide_True in Hids by done.
    unfold FlowRun.ids_of_slug in Hids at 1.
    destruct (FlowRun._task_slug_to_task_run_ids self1 !! s) as [ids1|] eqn:Hidx; simpl in Hids.
    2: { exfalso. apply (not_elem_of_empty (C := gset string) id').
         rewrite Hids. apply elem_of_union. by left. }
    subst ids1. cbv beta iota.
    assert ((1 <? size (FlowRun.ids_of_slug self s ∪ {[row_id row]}))%nat = true)
      as ->.
    { apply Nat.ltb_lt.
      assert (({[id']} ∪ {[row_id row]} : gset string)
              ⊆ FlowRun.ids_of_slug self s ∪ {[row_id row]}) as Hsub.
      { apply union_mono_r. by apply singleton_subseteq_l. }
      apply subseteq_size in Hsub. rewrite size_union in Hsub.
      - rewrite !size_singleton in Hsub. lia.
      - apply disjoint_singleton_l. intros Heq. apply elem_of_singleton in Heq. done. }
    destruct (find_base_found (FlowRun._task_runs self1)
                (set_iter (FlowRun.ids_of_slug self s ∪ {[row_id row]})))
      as (id1 & r1 & Hin1 & Hr1 & Hb1 & Hf).
    { intros id Hid. apply (proj2 Hc1 s). unfold FlowRun.ids_of_slug. rewrite Hidx.
      simpl. by apply elem_of_set_iter. }
    { exists (row_id row), r. split; [|split; [|done]].
      - apply elem_of_set_iter, elem_of_union. right. by apply elem_of_singleton.
      - unfold self1. simpl. by rewrite lookup_insert_eq. }
    rewrite Hf.
    assert (r1 = r) as ->; [|done].
    apply elem_of_set_iter in Hin1. revert Hr1. unfold self1. simpl.
    rewrite lookup_insert. case_decide as Hid; [by intros [= <-]|].
    intros Hr1. exfalso. apply (Hnobase id1 r1); [|done..].
    apply elem_of_union in Hin1 as [Hin1|Hin1]; [done|].
    apply elem_of_singleton in Hin1. by subst.
Qed.

Lemma get_by_slug_fetch_then_hit_witness :
  let self := Demo.new_run Running
                [Demo.child_x;
                 {| TaskRun.task_run_id := "i3"; TaskRun.task_slug := "x";
                    TaskRun.map_index := 1; TaskRun.state := Success |}] in
  let w := Demo.world ∅ [Demo.row "i1" "x" (-1) Mapped] in
  let self1 := FlowRun._add_task_run self Demo.base_x in
  FlowRun.get (rt := Demo.runtime) None (Some "x") None (self, w)
  = (Return Demo.base_x, (self1, set_trace w [FromTaskSlug "x" "r1"]))
  /\ forall w2,
       FlowRun.get (rt := Demo.runtime) None (Some "x") None (self1, w2)
       = (Return Demo.base_x, (self1, w2)).
Proof.
  intros self w self1.
  refine (get_by_slug_fetch_then_hit (rt := Demo.runtime) self w None (Some "x") "x"
            (Demo.row "i1" "x" (-1) Mapped) "i2"
            (coherent_init _ _ _ _ _ _ _ _) eq_refl eq_refl _ _ _).
  - apply (bool_decide_unpack _). vm_compute. exact I.
  - discriminate.
  - intros id r Hid Hr.
    assert (id = "i2" \/ id = "i3") as [-> | ->].
    { revert Hid. change (FlowRun.ids_of_slug self "x") with ({[ "i2"; "i3" ]} : gset string).
      rewrite elem_of_union, !elem_of_singleton. tauto. }
    + vm_compute in Hr. injection Hr as <-. discriminate.
    + vm_compute in Hr. injection Hr as <-. discriminate.
Defined.

Lemma iter_mapped_caches_listed {rt : PyRuntime} task task_slug fuel self w task_runs
    self' w' :
  FlowRun.list_of fuel (FlowRun.iter_mapped task task_slug true) (self, w)
  = Some (Return task_runs, (self', w')) ->
  self' = foldl FlowRun._add_task_run self task_runs.
Proof.
  destruct fuel as [|fuel]; [discriminate|].
  unfold FlowRun.iter_mapped. cbn [FlowRun.list_of FlowRun.__next__].
  destruct (FlowRun.iter_mapped_enter task task_slug (self, w)) as [[s|e] [self1 w1]] eqn:He;
    [|discriminate].
  apply iter_mapped_enter_self in He as ->. intros Hlist.
  change (FlowRun.list_of (S fuel) (FlowRun.Suspended s true (-1)) (self, w1)
          = Some (Return task_runs, (self', w'))) in Hlist.
  destruct (list_of_suspended_yields _ _ _ _ _ _ _ _ _ Hlist) as (yielded & Hself & _ & Hres).
  by rewrite (Hres _ eq_refl).
Qed.

(** X26. Iterate, then hit: after a listing of [iter_mapped] with caching
    has returned, a lookup by the id of any record it yielded gives that
    record back without a remote call, when the ids of the records yielded
    are distinct. *)
Theorem iter_mapped_then_get_by_id {rt : PyRuntime} task task_slug fuel self w task_runs
    self' w' :
  coherent self ->
  FlowRun.list_of fuel (FlowRun.iter_mapped task task_slug true) (self, w)
  = Some (Return task_runs, (self', w')) ->
  NoDup (TaskRun.task_run_id <$> task_runs) ->
  forall r w2,
    r ∈ task_runs ->
    FlowRun.get None None (Some (TaskRun.task_run_id r)) (self', w2)
    = (Return r, (self', w2)).
Proof.
  intros Hc Hlist Hnd r w2 Hin.
  rewrite (iter_mapped_caches_listed _ _ _ _ _ _ _ _ Hlist).
  apply get_by_id_hit.
  - by apply coherent_foldl_add.
  - rewrite foldl_add_lookup, (filter_unique_id _ _ Hnd Hin). done.
Qed.

Lemma iter_mapped_then_get_by_id_witness :
  let self := Demo.new_run Running [] in
  let w := Demo.world ∅ [Demo.row "i1" "x" (-1) Mapped; Demo.row "i2" "x" 0 Success] in
  let w2 := Demo.world ∅ [] in
  FlowRun.get (rt := Demo.runtime) None None (Some "i2")
    (FlowRun._add_task_run self Demo.child_x, w2)
  = (Return Demo.child_x, (FlowRun._add_task_run self Demo.child_x, w2)).
Proof.
  intros self w w2.
  refine (iter_mapped_then_get_by_id (rt := Demo.runtime) None (Some "x") 3 self w
            [Demo.child_x] _ _ (coherent_init _ _ _ _ _ _ _ _) eq_refl _ Demo.child_x w2 _).
  - apply (bool_decide_unpack _). vm_compute. exact I.
  - left.
Defined.

